(** * Motia runtime: a shallow embedding of [backend/src/motia/motia.ts]

    The development follows the TypeScript source of the workflow engine
    ([MotiaRuntime]), its type declarations ([types/workflow.ts]) and the
    execution store it persists to ([DatabaseService], [storage/database.ts]).

    Conventions of the embedding:
    - a JavaScript [number] is an integer [Z] (fractions, NaN and the
      infinities are not modelled);
    - a [Date] is an instant [Z]; [new Date()] reads a clock oracle;
    - a JavaScript [Map] is a [gmap] (only get/set/has are used);
    - a mutable object is passed in and returned (state passing); the
      execution store keeps JSON snapshots, so it never aliases the
      in-memory execution;
    - an [async] call runs to completion before its caller continues: the
      model is sequential, interleavings of several executions are not
      represented;
    - [console.log] / [console.error] have no observable state and are left
      out. *)

From Stdlib Require Import ZArith String Ascii List Bool Lia.
From Stdlib Require HexadecimalString.
From stdpp Require Import base option list gmap strings pretty.

Set Warnings "-register-all".
Local Open Scope string_scope.
Local Open Scope list_scope.
Local Open Scope Z_scope.

(** ** Strings *)

Module Str.

(** [s.startsWith(needle)] *)
Fixpoint startsWith (s needle : string) {struct needle} : bool :=
  match needle with
  | EmptyString => true
  | String c needle' =>
      match s with
      | EmptyString => false
      | String d s' => if Ascii.eqb c d then startsWith s' needle' else false
      end
  end.

(** [s.includes(needle)]: [needle] occurs at some position of [s]. *)
Fixpoint includes (s needle : string) : bool :=
  startsWith s needle ||
  match s with
  | EmptyString => false
  | String _ s' => includes s' needle
  end.

End Str.

(** ** Values of type [any] *)

Definition Date := Z.

Inductive Value : Type :=
| VUndefined
| VNull
| VBool (b : bool)
| VNum (n : Z)
| VStr (s : string)
| VDate (d : Date)
| VArr (items : list Value)
| VObj (fields : list (string * Value)).

Module Js.

(** JavaScript truthiness, as used by [x || y] and [if (x)]. *)
Definition truthy (v : Value) : bool :=
  match v with
  | VUndefined | VNull => false
  | VBool b => b
  | VNum n => negb (n =? 0)
  | VStr s => negb (String.eqb s "")
  | VDate _ | VArr _ | VObj _ => true
  end.

(** [a || b] *)
Definition or (a b : Value) : Value := if truthy a then a else b.

(** [obj[key] = v] on the property list of an object: an existing key
    keeps its position and takes the new value, a new key goes last. *)
Fixpoint setProp (key : string) (v : Value) (fields : list (string * Value))
  : list (string * Value) :=
  match fields with
  | [] => [(key, v)]
  | (k, x) :: rest =>
      if String.eqb k key then (k, v) :: rest else (k, x) :: setProp key v rest
  end.

Fixpoint getProp (key : string) (fields : list (string * Value)) : Value :=
  match fields with
  | [] => VUndefined
  | (k, x) :: rest => if String.eqb k key then x else getProp key rest
  end.

Fixpoint indexed {A} (i : nat) (l : list A) : list (string * A) :=
  match l with
  | [] => []
  | x :: rest => (pretty i, x) :: indexed (S i) rest
  end.

Fixpoint chars (s : string) : list Value :=
  match s with
  | EmptyString => []
  | String c s' => VStr (String c EmptyString) :: chars s'
  end.

(** The own enumerable properties that [{...v}] copies. *)
Definition spread (v : Value) : list (string * Value) :=
  match v with
  | VObj fields => fields
  | VArr items => indexed 0%nat items
  | VStr s => indexed 0%nat (chars s)
  | _ => []
  end.

End Js.

(** ** Data model ([types/workflow.ts])

    Field names carry a prefix per record ([se_] for [StepExecution], [we_]
    for [WorkflowExecution], [sd_] for [StepDefinition], ...), since several
    interfaces of the source share field names. An optional field is an
    [option]; an optional field of type [any] is [VUndefined] when absent. *)

Inductive StepStatus : Type :=
| StepPending | StepRunning | StepCompleted | StepFailed | StepRetrying.

Inductive WorkflowStatus : Type :=
| WfRunning | WfCompleted | WfFailed | WfPaused.

#[global] Instance StepStatus_eq_dec : EqDecision StepStatus.
Proof. solve_decision. Defined.

#[global] Instance WorkflowStatus_eq_dec : EqDecision WorkflowStatus.
Proof. solve_decision. Defined.

Record LogEntry : Type := mkLogEntry {
  log_timestamp : Date;
  log_message : string;
  log_data : Value;
}.

Record StepExecution : Type := mkStepExecution {
  se_stepId : string;
  se_status : StepStatus;
  se_attempts : Z;
  se_startedAt : option Date;
  se_completedAt : option Date;
  se_error : option string;
  se_output : Value;
  se_logs : list LogEntry;
}.

Record WorkflowExecution : Type := mkWorkflowExecution {
  we_id : string;
  we_workflowId : string;
  we_status : WorkflowStatus;
  we_currentStep : option string;
  we_startedAt : Date;
  we_completedAt : option Date;
  we_steps : list StepExecution;
}.

(** The data part of [StepContext]; its three methods [log], [getState] and
    [setState] are the operations of [Prog] below. *)
Record StepContext : Type := mkStepContext {
  ctx_input : Value;
  ctx_stepId : string;
  ctx_workflowId : string;
  ctx_attempt : Z;
}.

Record StepResult : Type := mkStepResult {
  res_output : Value;
  res_next : option string;
}.

Record RetryPolicy : Type := mkRetryPolicy {
  maxAttempts : option Z;
  backoffMs : option Z;
}.

(** Setters, one per field the engine assigns. *)

Definition se_set_status (x : StepStatus) (s : StepExecution) : StepExecution :=
  mkStepExecution (se_stepId s) x (se_attempts s) (se_startedAt s)
    (se_completedAt s) (se_error s) (se_output s) (se_logs s).

Definition se_set_attempts (x : Z) (s : StepExecution) : StepExecution :=
  mkStepExecution (se_stepId s) (se_status s) x (se_startedAt s)
    (se_completedAt s) (se_error s) (se_output s) (se_logs s).

Definition se_set_startedAt (x : option Date) (s : StepExecution) : StepExecution :=
  mkStepExecution (se_stepId s) (se_status s) (se_attempts s) x
    (se_completedAt s) (se_error s) (se_output s) (se_logs s).

Definition se_set_completedAt (x : option Date) (s : StepExecution) : StepExecution :=
  mkStepExecution (se_stepId s) (se_status s) (se_attempts s) (se_startedAt s)
    x (se_error s) (se_output s) (se_logs s).

Definition se_set_error (x : option string) (s : StepExecution) : StepExecution :=
  mkStepExecution (se_stepId s) (se_status s) (se_attempts s) (se_startedAt s)
    (se_completedAt s) x (se_output s) (se_logs s).

Definition se_set_output (x : Value) (s : StepExecution) : StepExecution :=
  mkStepExecution (se_stepId s) (se_status s) (se_attempts s) (se_startedAt s)
    (se_completedAt s) (se_error s) x (se_logs s).

Definition se_set_logs (x : list LogEntry) (s : StepExecution) : StepExecution :=
  mkStepExecution (se_stepId s) (se_status s) (se_attempts s) (se_startedAt s)
    (se_completedAt s) (se_error s) (se_output s) x.

Definition we_set_status (x : WorkflowStatus) (e : WorkflowExecution) : WorkflowExecution :=
  mkWorkflowExecution (we_id e) (we_workflowId e) x (we_currentStep e)
    (we_startedAt e) (we_completedAt e) (we_steps e).

Definition we_set_currentStep (x : option string) (e : WorkflowExecution) : WorkflowExecution :=
  mkWorkflowExecution (we_id e) (we_workflowId e) (we_status e) x
    (we_startedAt e) (we_completedAt e) (we_steps e).

Definition we_set_completedAt (x : option Date) (e : WorkflowExecution) : WorkflowExecution :=
  mkWorkflowExecution (we_id e) (we_workflowId e) (we_status e) (we_currentStep e)
    (we_startedAt e) x (we_steps e).

Definition we_set_steps (x : list StepExecution) (e : WorkflowExecution) : WorkflowExecution :=
  mkWorkflowExecution (we_id e) (we_workflowId e) (we_status e) (we_currentStep e)
    (we_startedAt e) (we_completedAt e) x.

(** The marker a handler puts in its error message to ask for a pause. *)
Definition PAUSE_MARKER : string := "WORKFLOW_PAUSED_WAITING_FOR_SIGNAL".

(** [errorMessage.includes('WORKFLOW_PAUSED_WAITING_FOR_SIGNAL')] *)
Definition isPause (errorMessage : string) : bool :=
  Str.includes errorMessage PAUSE_MARKER.

(** ** Step handlers

    A handler is an [async] function of its [StepContext]. What it can do to
    the engine goes through the context: [context.log], [context.getState],
    [context.setState]; it ends by returning a [StepResult] or by throwing an
    [Error] with a message. Everything else it does (user table, mail
    service, AI service, random sources) is an effect on collaborators
    outside the engine, whose state is the abstract type [Env]: [External act
    k] applies [act] to it and continues with [k] on the state it found. The
    handler of a step is therefore a program over these operations.

    A handler that rejects with a value that has no string [message]
    ([throw undefined], [throw 5]) is not a program of this type. On such
    a value the [catch] block of the retry executor fails itself, at
    [errorMessage.includes], and the step is left as the attempt began,
    [running] or [retrying]. Every statement below about handlers is
    about handlers that return or throw an [Error]. *)

Inductive Prog (Env A : Type) : Type :=
| Return (a : A)
| Throw (message : string)
| Log (message : string) (data : Value) (k : Prog Env A)
| GetState (key : string) (k : Value -> Prog Env A)
| SetState (key : string) (value : Value) (k : Prog Env A)
| External (act : Env -> Env) (k : Env -> Prog Env A).

Arguments Return {Env A} a.
Arguments Throw {Env A} message.
Arguments Log {Env A} message data k.
Arguments GetState {Env A} key k.
Arguments SetState {Env A} key value k.
Arguments External {Env A} act k.

Record StepDefinition (Env : Type) : Type := mkStepDefinition {
  sd_id : string;
  sd_name : string;
  sd_handler : StepContext -> Prog Env StepResult;
  sd_retryPolicy : option RetryPolicy;
}.

Arguments mkStepDefinition {Env} _ _ _ _.
Arguments sd_id {Env} _.
Arguments sd_name {Env} _.
Arguments sd_handler {Env} _ _.
Arguments sd_retryPolicy {Env} _.

Record WorkflowDefinition (Env : Type) : Type := mkWorkflowDefinition {
  wd_id : string;
  wd_name : string;
  wd_steps : list (StepDefinition Env);
}.

Arguments mkWorkflowDefinition {Env} _ _ _.
Arguments wd_id {Env} _.
Arguments wd_name {Env} _.
Arguments wd_steps {Env} _.

(** ** The state of the process

    The three private maps of [MotiaRuntime], the [workflows] table of the
    [database] singleton, the state of the outside collaborators, the number
    of clock readings and of identifiers drawn so far, and two traces kept
    for the statements: the arguments of the calls of [sleep], oldest first,
    and the handler invocations (step id and attempt number), oldest
    first. *)

Record Machine (Env : Type) : Type := mkMachine {
  stepDefinitions : gmap string (StepDefinition Env);
  workflowDefinitions : gmap string (WorkflowDefinition Env);
  workflowState : gmap string (gmap string Value);
  workflows : gmap string WorkflowExecution;
  env : Env;
  clockReads : nat;
  idsDrawn : nat;
  sleeps : list Z;
  calls : list (string * Z);
}.

Arguments mkMachine {Env} _ _ _ _ _ _ _ _ _.
Arguments stepDefinitions {Env} _.
Arguments workflowDefinitions {Env} _.
Arguments workflowState {Env} _.
Arguments workflows {Env} _.
Arguments env {Env} _.
Arguments clockReads {Env} _.
Arguments idsDrawn {Env} _.
Arguments sleeps {Env} _.
Arguments calls {Env} _.

Section MachineSetters.
Context {Env : Type}.
Implicit Type m : Machine Env.

Definition set_stepDefinitions x m : Machine Env :=
  mkMachine x (workflowDefinitions m) (workflowState m) (workflows m)
    (env m) (clockReads m) (idsDrawn m) (sleeps m) (calls m).

Definition set_workflowDefinitions x m : Machine Env :=
  mkMachine (stepDefinitions m) x (workflowState m) (workflows m)
    (env m) (clockReads m) (idsDrawn m) (sleeps m) (calls m).

Definition set_workflowState x m : Machine Env :=
  mkMachine (stepDefinitions m) (workflowDefinitions m) x (workflows m)
    (env m) (clockReads m) (idsDrawn m) (sleeps m) (calls m).

Definition set_workflows x m : Machine Env :=
  mkMachine (stepDefinitions m) (workflowDefinitions m) (workflowState m) x
    (env m) (clockReads m) (idsDrawn m) (sleeps m) (calls m).

Definition set_env x m : Machine Env :=
  mkMachine (stepDefinitions m) (workflowDefinitions m) (workflowState m)
    (workflows m) x (clockReads m) (idsDrawn m) (sleeps m) (calls m).

Definition set_clockReads x m : Machine Env :=
  mkMachine (stepDefinitions m) (workflowDefinitions m) (workflowState m)
    (workflows m) (env m) x (idsDrawn m) (sleeps m) (calls m).

Definition set_idsDrawn x m : Machine Env :=
  mkMachine (stepDefinitions m) (workflowDefinitions m) (workflowState m)
    (workflows m) (env m) (clockReads m) x (sleeps m) (calls m).

Definition set_sleeps x m : Machine Env :=
  mkMachine (stepDefinitions m) (workflowDefinitions m) (workflowState m)
    (workflows m) (env m) (clockReads m) (idsDrawn m) x (calls m).

Definition set_calls x m : Machine Env :=
  mkMachine (stepDefinitions m) (workflowDefinitions m) (workflowState m)
    (workflows m) (env m) (clockReads m) (idsDrawn m) (sleeps m) x.
End MachineSetters.

(** How a call ends: it returns a value or throws an [Error] with a
    message. *)
Inductive Outcome (A : Type) : Type :=
| Ok (a : A)
| Thrown (message : string).

Arguments Ok {A} a.
Arguments Thrown {A} message.

(** ** Sample workflows

    Concrete oracles, handlers, definitions and executions, used to run the
    engine on explicit inputs. The outside world is a single flag: whether
    the service that [flakyHandler] calls is up. *)

Module Demo.

Definition now (k : nat) : Date := Z.of_nat k.

Definition uuidv4 (k : nat) : string := "exec-" +:+ pretty k.

Definition toISOString (d : Date) : string := pretty d.

(** Returns a user id. *)
Definition createHandler (context : StepContext) : Prog bool StepResult :=
  Return (mkStepResult (VObj [("userId", VStr "u1")]) None).

(** A durable wait: succeeds once the signal is in the state of the
    workflow, asks for a pause before. *)
Definition waitHandler (context : StepContext) : Prog bool StepResult :=
  GetState "signal:verified" (fun signal =>
    if Js.truthy signal then
      Return (mkStepResult (VObj [("verified", VBool true)]) None)
    else
      Log "WORKFLOW_PAUSED_WAITING_FOR_SIGNAL: verified" VUndefined
        (SetState "waitingForVerification" (VBool true)
           (Throw "WORKFLOW_PAUSED_WAITING_FOR_SIGNAL:verified"))).

(** Always fails. *)
Definition failingHandler (context : StepContext) : Prog bool StepResult :=
  Throw "boom".

(** Fails while the outside service is down. *)
Definition flakyHandler (context : StepContext) : Prog bool StepResult :=
  External (fun up : bool => up)
    (fun up : bool =>
       if up then Return (mkStepResult (VStr "sent") None)
       else Throw "service down").

Definition createStep : StepDefinition bool :=
  mkStepDefinition "create" "Create user" createHandler None.

(** Same id as [createStep], another body. *)
Definition createStepV2 : StepDefinition bool :=
  mkStepDefinition "create" "Create user, second version" failingHandler None.

Definition waitStep : StepDefinition bool :=
  mkStepDefinition "wait" "Wait for verification" waitHandler None.

Definition chargeStep : StepDefinition bool :=
  mkStepDefinition "charge" "Charge" failingHandler
    (Some (mkRetryPolicy (Some 2) (Some 10))).

Definition notifyStep : StepDefinition bool :=
  mkStepDefinition "notify" "Notify" flakyHandler
    (Some (mkRetryPolicy (Some 2) (Some 10))).

Definition signup : WorkflowDefinition bool :=
  mkWorkflowDefinition "signup" "Signup" [createStep; waitStep; chargeStep].

(** Same id as [signup], another body. *)
Definition signupV2 : WorkflowDefinition bool :=
  mkWorkflowDefinition "signup" "Signup, second version" [createStep].

Definition notify : WorkflowDefinition bool :=
  mkWorkflowDefinition "notify" "Notify" [notifyStep].

(** Asks for a pause with the marker in the middle of its message. *)
Definition parkedHandler (context : StepContext) : Prog bool StepResult :=
  Throw "not yet: WORKFLOW_PAUSED_WAITING_FOR_SIGNAL (approval)".

Definition parkStep : StepDefinition bool :=
  mkStepDefinition "park" "Wait for approval" parkedHandler None.

Definition approval : WorkflowDefinition bool :=
  mkWorkflowDefinition "approval" "Approval" [parkStep; chargeStep].

Definition registry : gmap string (WorkflowDefinition bool) :=
  <["signup" := signup]> (<["notify" := notify]> (<["approval" := approval]> ∅)).

(** A process with the workflows registered, nothing stored, the outside
    service down. *)
Definition machine0 : Machine bool :=
  mkMachine ∅ registry ∅ ∅ false 0 0 [] [].

Definition pending (id : string) : StepExecution :=
  mkStepExecution id StepPending 0 None None None VUndefined [].

(** An execution of [signup] whose first step is completed and which waits
    at the second. *)
Definition pausedSignup : WorkflowExecution :=
  mkWorkflowExecution "exec-7" "signup" WfPaused (Some "wait") 0 None
    [mkStepExecution "create" StepCompleted 1 (Some 1) (Some 3) None
       (VObj [("userId", VStr "u1")]) [];
     mkStepExecution "wait" StepRunning 1 (Some 5) None None VUndefined [];
     pending "charge"].

(** An execution of [notify] that has completed. *)
Definition completedNotify : WorkflowExecution :=
  mkWorkflowExecution "exec-8" "notify" WfCompleted None 0 (Some 9)
    [mkStepExecution "notify" StepCompleted 1 (Some 1) (Some 3) None
       (VStr "sent") []].

(** The process with these two executions stored. *)
Definition machine1 : Machine bool :=
  mkMachine ∅ registry ∅
    (<["exec-7" := pausedSignup]> (<["exec-8" := completedNotify]> ∅))
    false 0 0 [] [].

End Demo.

(** ** Plain JSON values

    The values [JSON.parse] can return: no [undefined] and no [Date]
    anywhere inside. *)

Fixpoint isJSON (v : Value) : bool :=
  match v with
  | VUndefined | VDate _ => false
  | VNull | VBool _ | VNum _ | VStr _ => true
  | VArr items =>
      (fix all (l : list Value) : bool :=
         match l with
         | [] => true
         | x :: rest => isJSON x && all rest
         end) items
  | VObj fields =>
      (fix all (l : list (string * Value)) : bool :=
         match l with
         | [] => true
         | (_, x) :: rest => isJSON x && all rest
         end) fields
  end.

(** The number of constructors of a value, for inductions on values. *)
Fixpoint valueSize (v : Value) : nat :=
  match v with
  | VArr items =>
      S ((fix sum (l : list Value) : nat :=
            match l with
            | [] => O
            | x :: rest => (valueSize x + sum rest)%nat
            end) items)
  | VObj fields =>
      S ((fix sum (l : list (string * Value)) : nat :=
            match l with
            | [] => O
            | (_, x) :: rest => (valueSize x + sum rest)%nat
            end) fields)
  | _ => 1%nat
  end.

(** ** Identifiers ([uuidv4])

    [template.replace(/[xy]/g, f)] calls [f] on each [x] and [y] of the
    template, from left to right; each call draws one number.
    [random k] is the value of [(Math.random() * 16) | 0] at the [k]-th
    draw. In the engine above the identifiers drawn are an oracle; this is
    the function that produces them. *)

Module Uuid.

Definition template : string := "xxxxxxxx-xxxx-4xxx-yxxx-xxxxxxxxxxxx".

(** [v.toString(16)] *)
Definition toString16 (v : Z) : string :=
  HexadecimalString.NilZero.string_of_int (Z.to_hex_int v).

(** [c === 'x' ? r : (r & 0x3) | 0x8] *)
Definition digit (c : ascii) (r : Z) : Z :=
  if Ascii.eqb c "x" then r else Z.lor (Z.land r 3) 8.

Fixpoint replace (template : string) (random : nat -> Z) (k : nat) : string :=
  match template with
  | EmptyString => EmptyString
  | String c rest =>
      if Ascii.eqb c "x" || Ascii.eqb c "y" then
        toString16 (digit c (random k)) +:+ replace rest random (S k)
      else String c (replace rest random k)
  end.

Definition uuidv4 (random : nat -> Z) (k : nat) : string :=
  replace template random k.

Definition hexDigits : list ascii :=
  ["0"; "1"; "2"; "3"; "4"; "5"; "6"; "7"; "8"; "9"; "a"; "b"; "c"; "d"; "e"; "f"]%char.

Definition variantDigits : list ascii := ["8"; "9"; "a"; "b"]%char.

(** What stands at a position of the result where the template has [c]. *)
Definition fits (c : ascii) (result : option ascii) : Prop :=
  if Ascii.eqb c "x" then exists h, result = Some h /\ h ∈ hexDigits
  else if Ascii.eqb c "y" then exists h, result = Some h /\ h ∈ variantDigits
  else result = Some c.

End Uuid.

(** ** The waiting step ([steps/waitForVerification.step.ts]) *)

Module JsValue.

(** The values that are not objects: [===] compares them by value. *)
Definition primitive (v : Value) : bool :=
  match v with
  | VUndefined | VNull | VBool _ | VNum _ | VStr _ => true
  | VDate _ | VArr _ | VObj _ => false
  end.

(** [a === b]. Two objects are equal when they are the same object; the
    values here carry no identity, and two objects are taken to be
    distinct. The statements below compare with a primitive value only. *)
Definition strictEquals (a b : Value) : bool :=
  match a, b with
  | VUndefined, VUndefined => true
  | VNull, VNull => true
  | VBool x, VBool y => Bool.eqb x y
  | VNum x, VNum y => x =? y
  | VStr x, VStr y => String.eqb x y
  | _, _ => false
  end.

(** [v.key] for a [v] other than [undefined] and [null], and a [key] that
    names no built-in member: the own property, or [undefined]. *)
Definition property (key : string) (v : Value) : Value :=
  Js.getProp key (Js.spread v).

(** [const { key } = v]: a [TypeError] ([None]) on [undefined] and
    [null]. *)
Definition destructure (key : string) (v : Value) : option Value :=
  match v with
  | VUndefined | VNull => None
  | _ => Some (property key v)
  end.

End JsValue.

Section WaitForVerification.

Context {Env : Type}.

(** The handler reads the clock itself ([new Date()]), in the one case
    where the signal it finds carries no [timestamp]: [clock] is what it
    reads, a function of the state of the world outside the engine.
    [destructureError v] is the message of the [TypeError] that
    destructuring [v] throws. *)
Variable clock : Env -> Date.
Variable destructureError : Value -> string.

Definition waitForVerificationHandler (context : StepContext)
  : Prog Env StepResult :=
  match JsValue.destructure "userId" (ctx_input context) with
  | None => Throw (destructureError (ctx_input context))
  | Some userId =>
      Log "Checking for user verification" (VObj [("userId", userId)])
        (GetState "signal:verified" (fun verificationSignal =>
           if Js.truthy verificationSignal
              && JsValue.strictEquals
                   (JsValue.property "userId" verificationSignal) userId
           then
             Log "Verification signal received, proceeding"
               (VObj [("userId", userId)])
               (let output verifiedAt :=
                  VObj (Js.setProp "verifiedAt" verifiedAt
                          (Js.setProp "verified" (VBool true)
                             (Js.spread (ctx_input context)))) in
                let timestamp := JsValue.property "timestamp" verificationSignal in
                if Js.truthy timestamp then
                  Return (mkStepResult (output timestamp) None)
                else
                  External (fun e => e) (fun e =>
                    Return (mkStepResult (output (VDate (clock e))) None)))
           else
             Log "WORKFLOW_PAUSED_WAITING_FOR_SIGNAL: verified"
               (VObj [("userId", userId)])
               (SetState "waitingForVerification" (VBool true)
                  (SetState "waitingUserId" userId
                     (Throw "WORKFLOW_PAUSED_WAITING_FOR_SIGNAL:verified")))))
  end.

Definition waitForVerificationStep : StepDefinition Env :=
  mkStepDefinition "wait-for-verification" "Wait for User Verification"
    waitForVerificationHandler None.

End WaitForVerification.

(** ** The steps on the user table ([steps/createUser.step.ts],
    [steps/finalizeUser.step.ts])

    The two handlers call the [database] singleton. Its user operations
    are an interface over the state of the outside world: a lookup tells
    whether a row was found, or throws; a write changes the state, or
    throws. Nothing is assumed of them. *)

Class UserDatabase (Env : Type) : Type := {
  getUser : Value -> Env -> Outcome bool;
  getUserByEmail : Value -> Env -> Outcome bool;
  createUser : Value -> Env -> Outcome unit * Env;
  setUserWorkflow : Value -> string -> Env -> Outcome unit * Env;
  updateUser : Value -> Value -> Env -> Outcome unit * Env;
}.

Section UserSteps.

Context {Env : Type} `{UserDatabase Env}.

(** [clock] is what [new Date()] reads in a handler and [randomId] the
    [uuidv4()] of [createUser.step.ts], which draws from [Math.random];
    [display v] is the text of [v] in a template literal, and
    [destructureError v] the message of the [TypeError] that
    destructuring [v] throws. *)
Variable clock : Env -> Date.
Variable randomId : Env -> string * Env.
Variable display : Value -> string.
Variable destructureError : Value -> string.

Definition createUserHandler (context : StepContext) : Prog Env StepResult :=
  match JsValue.destructure "email" (ctx_input context),
        JsValue.destructure "name" (ctx_input context) with
  | Some email, Some name =>
      Log "Creating user account" (VObj [("email", email); ("name", name)])
        (if negb (Js.truthy email) || negb (Js.truthy name) then
           Throw "Email and name are required"
         else
           External (fun e => e) (fun e =>
             match getUserByEmail email e with
             | Thrown message => Throw message
             | Ok true =>
                 Throw ("User with email " +:+ display email +:+ " already exists")
             | Ok false =>
                 External (fun e => snd (randomId e)) (fun e =>
                   let id := VStr (fst (randomId e)) in
                   External (fun e => e) (fun e =>
                     let user :=
                       VObj [("id", id); ("email", email); ("name", name);
                             ("status", VStr "PENDING");
                             ("createdAt", VDate (clock e))] in
                     External (fun e => snd (createUser user e)) (fun e =>
                       match fst (createUser user e) with
                       | Thrown message => Throw message
                       | Ok _ =>
                           External
                             (fun e =>
                                snd (setUserWorkflow id (ctx_workflowId context) e))
                             (fun e =>
                                match fst (setUserWorkflow id
                                             (ctx_workflowId context) e) with
                                | Thrown message => Throw message
                                | Ok _ =>
                                    Log "User created successfully"
                                      (VObj [("userId", id)])
                                      (Return
                                         (mkStepResult
                                            (VObj [("userId", id); ("user", user)])
                                            None))
                                end)
                       end)))
             end))
  | _, _ => Throw (destructureError (ctx_input context))
  end.

Definition createUserStep : StepDefinition Env :=
  mkStepDefinition "create-user" "Create User" createUserHandler
    (Some (mkRetryPolicy (Some 3) (Some 500))).

(** [riskDecision === RiskDecision.ALLOW ? UserStatus.ACTIVE
    : UserStatus.FLAGGED] *)
Definition finalStatusOf (riskDecision : Value) : Value :=
  if JsValue.strictEquals riskDecision (VStr "ALLOW") then VStr "ACTIVE"
  else VStr "FLAGGED".

Definition finalizeUserHandler (context : StepContext) : Prog Env StepResult :=
  match JsValue.destructure "userId" (ctx_input context),
        JsValue.destructure "riskDecision" (ctx_input context),
        JsValue.destructure "verifiedAt" (ctx_input context) with
  | Some userId, Some riskDecision, Some verifiedAt =>
      Log "Finalizing user account"
        (VObj [("userId", userId); ("riskDecision", riskDecision)])
        (External (fun e => e) (fun e =>
           match getUser userId e with
           | Thrown message => Throw message
           | Ok false => Throw ("User " +:+ display userId +:+ " not found")
           | Ok true =>
               let finalStatus := finalStatusOf riskDecision in
               let updates e :=
                 VObj [("status", finalStatus);
                       ("verifiedAt", Js.or verifiedAt (VDate (clock e)))] in
               External (fun e => snd (updateUser userId (updates e) e)) (fun e =>
                 match fst (updateUser userId (updates e) e) with
                 | Thrown message => Throw message
                 | Ok _ =>
                     Log "User account finalized"
                       (VObj [("userId", userId); ("status", finalStatus);
                              ("riskDecision", riskDecision)])
                       (Return
                          (mkStepResult
                             (VObj (Js.setProp "completed" (VBool true)
                                      (Js.setProp "finalStatus" finalStatus
                                         (Js.spread (ctx_input context)))))
                             None))
                 end)
           end))
  | _, _, _ => Throw (destructureError (ctx_input context))
  end.

Definition finalizeUserStep : StepDefinition Env :=
  mkStepDefinition "finalize-user" "Finalize User" finalizeUserHandler
    (Some (mkRetryPolicy (Some 3) (Some 500))).

End UserSteps.

(** ** Sample workflows around the waiting step

    The outside world is the flag of [Demo]: whether the service is up. *)

Module Verification.

Definition clock (up : bool) : Date := 42.

Definition destructureError (v : Value) : string :=
  "Cannot destructure property 'userId'".

Definition waitStep : StepDefinition bool :=
  waitForVerificationStep clock destructureError.

(** Fails while the service is down, and brings it up. *)
Definition warmupHandler (context : StepContext) : Prog bool StepResult :=
  External (fun _ : bool => true)
    (fun up : bool =>
       if up then Return (mkStepResult (VStr "sent") None)
       else Throw "service down").

Definition warmupStep : StepDefinition bool :=
  mkStepDefinition "warmup" "Warm up" warmupHandler
    (Some (mkRetryPolicy (Some 3) (Some 10))).

(** A retry policy that allows no attempt. *)
Definition idleStep : StepDefinition bool :=
  mkStepDefinition "idle" "Never tried" Demo.createHandler
    (Some (mkRetryPolicy (Some 0) None)).

Definition increment (v : Value) : Value :=
  match v with
  | VNum n => VNum (n + 1)
  | _ => VUndefined
  end.

Definition timesTen (v : Value) : Value :=
  match v with
  | VNum n => VNum (n * 10)
  | _ => VUndefined
  end.

(** A step that returns a function of its input. *)
Definition pureStep (id : string) (f : Value -> Value) : StepDefinition bool :=
  mkStepDefinition id id
    (fun context => Return (mkStepResult (f (ctx_input context)) None)) None.

Definition arithmetic : WorkflowDefinition bool :=
  mkWorkflowDefinition "arithmetic" "Arithmetic"
    [pureStep "increment" increment; pureStep "times-ten" timesTen].

Definition userSignup : WorkflowDefinition bool :=
  mkWorkflowDefinition "user-signup" "User Signup Workflow"
    [Demo.createStep; waitStep; pureStep "finalize" (fun v => v)].

Definition waitOnly : WorkflowDefinition bool :=
  mkWorkflowDefinition "wait-only" "Wait only" [waitStep].

Definition registry : gmap string (WorkflowDefinition bool) :=
  <["arithmetic" := arithmetic]>
    (<["user-signup" := userSignup]> (<["wait-only" := waitOnly]> ∅)).

(** An execution of [userSignup] parked at the waiting step. *)
Definition parkedSignup : WorkflowExecution :=
  mkWorkflowExecution "exec-1" "user-signup" WfPaused
    (Some "wait-for-verification") 0 None
    [mkStepExecution "create" StepCompleted 1 (Some 1) (Some 3) None
       (VObj [("userId", VStr "u1")]) [];
     mkStepExecution "wait-for-verification" StepRunning 1 (Some 5) None None
       VUndefined [];
     Demo.pending "finalize"].

(** An execution of [waitOnly] parked at its only step. *)
Definition parkedWait : WorkflowExecution :=
  mkWorkflowExecution "exec-2" "wait-only" WfPaused
    (Some "wait-for-verification") 0 None
    [mkStepExecution "wait-for-verification" StepRunning 1 (Some 5) None None
       VUndefined []].

Definition machine : Machine bool :=
  mkMachine ∅ registry ∅
    (<["exec-1" := parkedSignup]> (<["exec-2" := parkedWait]> ∅))
    false 0 0 [] [].

(** The same process once the signal for [exec-1] is in. *)
Definition signalled : Machine bool :=
  mkMachine ∅ registry
    (<["exec-1" := <["signal:verified" :=
                       VObj [("userId", VStr "u1"); ("timestamp", VDate 7)]]> ∅]> ∅)
    (<["exec-1" := parkedSignup]> (<["exec-2" := parkedWait]> ∅))
    false 0 0 [] [].

End Verification.

(** ** Sample user table

    The outside world is the list of the users on file, each an id and
    an email. Linking a user fails for the workflow id [locked]. *)

Module Accounts.

Definition Table : Type := list (string * string).

Definition onFile (column : string * string -> string) (v : Value) (table : Table)
  : Outcome bool :=
  match v with
  | VStr s => Ok (existsb (fun row => String.eqb (column row) s) table)
  | _ => Thrown "unsupported parameter"
  end.

#[global] Instance database : UserDatabase Table := {|
  getUser := onFile fst;
  getUserByEmail := onFile snd;
  createUser user table :=
    match JsValue.property "id" user, JsValue.property "email" user with
    | VStr id, VStr email => (Ok tt, table ++ [(id, email)])
    | _, _ => (Thrown "unsupported row", table)
    end;
  setUserWorkflow id workflowId table :=
    if String.eqb workflowId "locked" then (Thrown "database is locked", table)
    else (Ok tt, table);
  updateUser id updates table := (Ok tt, table);
|}.

Definition clock (table : Table) : Date := 42.

Definition randomId (table : Table) : string * Table :=
  ("user-" +:+ pretty (length table), table).

Definition display (v : Value) : string :=
  match v with
  | VStr s => s
  | _ => "[object Object]"
  end.

Definition destructureError (v : Value) : string :=
  "Cannot destructure property of undefined".

Definition createStep : StepDefinition Table :=
  createUserStep clock randomId display destructureError.

Definition finalizeStep : StepDefinition Table :=
  finalizeUserStep clock display destructureError.

Definition userSignup : WorkflowDefinition Table :=
  mkWorkflowDefinition "user-signup" "User Signup Workflow"
    [createStep; finalizeStep].

(** Two users on file; the email of the second contains the pause
    marker. *)
Definition machine : Machine Table :=
  mkMachine ∅ (<["user-signup" := userSignup]> ∅) ∅ ∅
    [("user-0", "ann@example.org");
     ("user-1", "WORKFLOW_PAUSED_WAITING_FOR_SIGNAL@example.org")]
    0 0 [] [].

End Accounts.

Section Engine.

Context {Env : Type}.

(** [now k] is the instant the clock shows at its [k]-th reading,
    [uuidv4 k] the [k]-th identifier drawn from [Math.random], and
    [toISOString] the built-in of [Date]. No property of the three is
    assumed. *)
Variable now : nat -> Date.
Variable uuidv4 : nat -> string.
Variable toISOString : Date -> string.

Implicit Type m : Machine Env.

(** [new Date()] *)
Definition newDate m : Date * Machine Env :=
  (now (clockReads m), set_clockReads (S (clockReads m)) m).

(** [uuidv4()] *)
Definition drawId m : string * Machine Env :=
  (uuidv4 (idsDrawn m), set_idsDrawn (S (idsDrawn m)) m).

(** [sleep(ms)]: the call is recorded. *)
Definition sleep (ms : Z) m : Machine Env :=
  set_sleeps (sleeps m ++ [ms]) m.

(** *** Execution store ([DatabaseService], table [workflows])

    [saveWorkflow] writes a row keyed by the execution id, with
    [JSON.stringify] applied to the steps; [getWorkflow] reads it back
    with [JSON.parse]. The model stores the value that reading back
    yields: [undefined] properties are gone, a [Date] inside a value of
    type [any] has become its ISO string. The dates of the records
    themselves stay instants. *)

Fixpoint toJSON (v : Value) : option Value :=
  match v with
  | VUndefined => None
  | VNull => Some VNull
  | VBool b => Some (VBool b)
  | VNum n => Some (VNum n)
  | VStr s => Some (VStr s)
  | VDate d => Some (VStr (toISOString d))
  | VArr items =>
      Some (VArr ((fix elems (l : list Value) : list Value :=
                     match l with
                     | [] => []
                     | x :: rest =>
                         match toJSON x with
                         | Some y => y
                         | None => VNull
                         end :: elems rest
                     end) items))
  | VObj fields =>
      Some (VObj ((fix props (l : list (string * Value)) : list (string * Value) :=
                     match l with
                     | [] => []
                     | (k, x) :: rest =>
                         match toJSON x with
                         | Some y => (k, y) :: props rest
                         | None => props rest
                         end
                     end) fields))
  end.

(** A property of type [any] after [JSON.parse (JSON.stringify ...)]. *)
Definition jsonClone (v : Value) : Value :=
  match toJSON v with
  | Some y => y
  | None => VUndefined
  end.

Definition storedLog (l : LogEntry) : LogEntry :=
  mkLogEntry (log_timestamp l) (log_message l) (jsonClone (log_data l)).

Definition storedStep (s : StepExecution) : StepExecution :=
  mkStepExecution (se_stepId s) (se_status s) (se_attempts s) (se_startedAt s)
    (se_completedAt s) (se_error s) (jsonClone (se_output s))
    (map storedLog (se_logs s)).

(** [x || null] written, [x || undefined] read, on an optional string. *)
Definition truthyString (x : option string) : option string :=
  match x with
  | Some s => if String.eqb s "" then None else Some s
  | None => None
  end.

Definition storedWorkflow (e : WorkflowExecution) : WorkflowExecution :=
  mkWorkflowExecution (we_id e) (we_workflowId e) (we_status e)
    (truthyString (we_currentStep e)) (we_startedAt e) (we_completedAt e)
    (map storedStep (we_steps e)).

Definition saveWorkflow (workflow : WorkflowExecution) m : Machine Env :=
  set_workflows (<[we_id workflow := storedWorkflow workflow]> (workflows m)) m.

Definition getWorkflow (workflowId : string) m : option WorkflowExecution :=
  workflows m !! workflowId.

(** *** Registries *)

Definition registerStep (step : StepDefinition Env) m : Outcome unit * Machine Env :=
  (Ok tt, set_stepDefinitions (<[sd_id step := step]> (stepDefinitions m)) m).

Definition registerWorkflow (workflow : WorkflowDefinition Env) m
  : Outcome unit * Machine Env :=
  (Ok tt,
   set_workflowDefinitions (<[wd_id workflow := workflow]> (workflowDefinitions m)) m).

(** *** Logs and per-workflow state *)

Definition logStep (stepExecution : StepExecution) (message : string)
    (data : Value) m : StepExecution * Machine Env :=
  let '(t, m) := newDate m in
  (se_set_logs (se_logs stepExecution ++ [mkLogEntry t message data]) stepExecution,
   m).

Definition getWorkflowState (workflowId key : string) m : Value :=
  match workflowState m !! workflowId with
  | Some state => default VUndefined (state !! key)
  | None => VUndefined
  end.

Definition setWorkflowState (workflowId key : string) (value : Value) m
  : Machine Env :=
  let state := default ∅ (workflowState m !! workflowId) in
  set_workflowState (<[workflowId := <[key := value]> state]> (workflowState m)) m.

(** *** Running a handler

    [await stepDef.handler(context)] with the context the retry executor
    builds: [log] appends to the logs of the step execution, [getState]
    and [setState] address the state of the workflow [workflowId]. *)

Fixpoint runHandler {A} (workflowId : string) (p : Prog Env A)
    (stepExecution : StepExecution) m
  : Outcome A * StepExecution * Machine Env :=
  match p with
  | Return a => (Ok a, stepExecution, m)
  | Throw message => (Thrown message, stepExecution, m)
  | Log message data k =>
      let '(stepExecution, m) := logStep stepExecution message data m in
      runHandler workflowId k stepExecution m
  | GetState key k =>
      runHandler workflowId (k (getWorkflowState workflowId key m)) stepExecution m
  | SetState key value k =>
      runHandler workflowId k stepExecution (setWorkflowState workflowId key value m)
  | External act k =>
      runHandler workflowId (k (env m)) stepExecution (set_env (act (env m)) m)
  end.

(** *** Retry executor ([executeStepWithRetry]) *)

(** What one pass through the body of the [for] loop leads to. *)
Inductive Attempt : Type :=
| Succeeded (result : StepResult)   (* [return result] *)
| PauseRequested (message : string) (* [throw lastError], the pause *)
| Failed (message : string).        (* next iteration *)

(** The first half of the body of
    [for (let attempt = 1; attempt <= maxAttempts; attempt++)]: the
    bookkeeping of the attempt, then [await stepDef.handler(context)]. *)
Definition callHandler (stepDef : StepDefinition Env) (workflowId : string)
    (input : Value) (maxAttempts attempt : Z)
    (stepExecution : StepExecution) m
  : Outcome StepResult * StepExecution * Machine Env :=
  let stepExecution := se_set_attempts attempt stepExecution in
  let stepExecution :=
    se_set_status (if attempt =? 1 then StepRunning else StepRetrying) stepExecution in
  let '(t, m) := newDate m in
  let stepExecution := se_set_startedAt (Some t) stepExecution in
  let '(stepExecution, m) :=
    logStep stepExecution
      ("Attempt " +:+ pretty attempt +:+ "/" +:+ pretty maxAttempts) VUndefined m in
  let context := mkStepContext input (sd_id stepDef) workflowId attempt in
  let m := set_calls (calls m ++ [(sd_id stepDef, attempt)]) m in
  runHandler workflowId (sd_handler stepDef context) stepExecution m.

(** The whole body: the call, then the code after it in the [try] block
    or the [catch] block. What is caught is an [Error]: [lastError.message]
    is a string. *)
Definition attemptStep (stepDef : StepDefinition Env) (workflowId : string)
    (input : Value) (maxAttempts backoffMs attempt : Z)
    (stepExecution : StepExecution) m
  : Attempt * StepExecution * Machine Env :=
  match callHandler stepDef workflowId input maxAttempts attempt stepExecution m with
  | (Ok result, stepExecution, m) =>
      let stepExecution := se_set_status StepCompleted stepExecution in
      let '(t, m) := newDate m in
      let stepExecution := se_set_completedAt (Some t) stepExecution in
      let stepExecution := se_set_output (res_output result) stepExecution in
      let '(stepExecution, m) :=
        logStep stepExecution "Step completed successfully" VUndefined m in
      (Succeeded result, stepExecution, m)
  | (Thrown errorMessage, stepExecution, m) =>
      if isPause errorMessage then
        let stepExecution := se_set_status StepRunning stepExecution in
        let stepExecution := se_set_error None stepExecution in
        let '(stepExecution, m) :=
          logStep stepExecution "Workflow paused, waiting for signal" VUndefined m in
        (PauseRequested errorMessage, stepExecution, m)
      else
        let stepExecution := se_set_error (Some errorMessage) stepExecution in
        let '(stepExecution, m) :=
          logStep stepExecution
            ("Attempt " +:+ pretty attempt +:+ " failed: " +:+ errorMessage)
            VUndefined m in
        let m := if attempt <? maxAttempts then sleep (backoffMs * attempt) m else m in
        (Failed errorMessage, stepExecution, m)
  end.

(** The loop, from [attempt] on, with [remaining] iterations left before
    the test [attempt <= maxAttempts] fails; then the code after the
    loop. [lastError] holds the message of the last error caught. *)
Fixpoint retryLoop (stepDef : StepDefinition Env) (workflowId : string)
    (input : Value) (maxAttempts backoffMs : Z) (remaining : nat)
    (attempt : Z) (lastError : option string)
    (stepExecution : StepExecution) m
  : Outcome StepResult * StepExecution * Machine Env :=
  match remaining with
  | O =>
      let stepExecution := se_set_status StepFailed stepExecution in
      let '(t, m) := newDate m in
      let stepExecution := se_set_completedAt (Some t) stepExecution in
      (Thrown (default "Step failed after all retries" lastError), stepExecution, m)
  | S remaining =>
      match attemptStep stepDef workflowId input maxAttempts backoffMs attempt
              stepExecution m with
      | (Succeeded result, stepExecution, m) => (Ok result, stepExecution, m)
      | (PauseRequested message, stepExecution, m) =>
          (Thrown message, stepExecution, m)
      | (Failed message, stepExecution, m) =>
          retryLoop stepDef workflowId input maxAttempts backoffMs remaining
            (attempt + 1) (Some message) stepExecution m
      end
  end.

Definition policyMaxAttempts (stepDef : StepDefinition Env) : Z :=
  default 3 (sd_retryPolicy stepDef ≫= maxAttempts).

Definition policyBackoffMs (stepDef : StepDefinition Env) : Z :=
  default 1000 (sd_retryPolicy stepDef ≫= backoffMs).

(** The loop starts at [attempt = 1], so it has [maxAttempts] iterations
    before its test fails (none when [maxAttempts < 1]). *)
Definition executeStepWithRetry (stepDef : StepDefinition Env)
    (stepExecution : StepExecution) (workflowId : string) (input : Value) m
  : Outcome StepResult * StepExecution * Machine Env :=
  let maxAttempts := policyMaxAttempts stepDef in
  let backoffMs := policyBackoffMs stepDef in
  retryLoop stepDef workflowId input maxAttempts backoffMs
    (Z.to_nat maxAttempts) 1 None stepExecution m.

(** *** Workflow scheduler ([executeWorkflow]) *)

(** [execution.steps.find(s => s.stepId === id)], with the position of
    the element found: the object found is an element of
    [execution.steps], so what is assigned to it shows there. *)
Definition findStep (id : string) (steps : list StepExecution)
  : option (nat * StepExecution) :=
  list_find (fun s => se_stepId s = id) steps.

(** [logs.some(log => log.message.includes('WORKFLOW_PAUSED_...'))] *)
Definition hasPauseLog (logs : list LogEntry) : bool :=
  existsb (fun log => isPause (log_message log)) logs.

(** The loop [for (const stepDef of workflowDef.steps)] over the step
    definitions still to visit, then the code after it. The execution
    that comes back is the in-memory object as the call leaves it. *)
Fixpoint stepsLoop (defs : list (StepDefinition Env))
    (execution : WorkflowExecution) (currentInput : Value) m
  : Outcome unit * WorkflowExecution * Machine Env :=
  match defs with
  | [] =>
      let execution := we_set_status WfCompleted execution in
      let '(t, m) := newDate m in
      let execution := we_set_completedAt (Some t) execution in
      let execution := we_set_currentStep None execution in
      (Ok tt, execution, saveWorkflow execution m)
  | stepDef :: defs =>
      match findStep (sd_id stepDef) (we_steps execution) with
      | None => stepsLoop defs execution currentInput m
      | Some (i, stepExecution) =>
          if decide (se_status stepExecution = StepCompleted) then
            stepsLoop defs execution (se_output stepExecution) m
          else
            let execution := we_set_currentStep (Some (sd_id stepDef)) execution in
            let m := saveWorkflow execution m in
            let '(r, stepExecution, m) :=
              executeStepWithRetry stepDef stepExecution (we_id execution)
                currentInput m in
            let execution :=
              we_set_steps (<[i := stepExecution]> (we_steps execution)) execution in
            match r with
            | Ok result =>
                if decide (se_status stepExecution = StepFailed) then
                  let execution := we_set_status WfFailed execution in
                  (Ok tt, execution, saveWorkflow execution m)
                else if bool_decide (se_status stepExecution = StepRunning)
                        && hasPauseLog (se_logs stepExecution) then
                  let execution := we_set_status WfPaused execution in
                  (Ok tt, execution, saveWorkflow execution m)
                else stepsLoop defs execution (res_output result) m
            | Thrown errorMessage =>
                if isPause errorMessage then
                  let execution := we_set_status WfPaused execution in
                  (Ok tt, execution, saveWorkflow execution m)
                else (Thrown errorMessage, execution, m)
            end
      end
  end.

Definition executeWorkflow (execution : WorkflowExecution)
    (initialInput : Value) m
  : Outcome unit * WorkflowExecution * Machine Env :=
  match workflowDefinitions m !! we_workflowId execution with
  | None => (Ok tt, execution, m)
  | Some workflowDef =>
      stepsLoop (wd_steps workflowDef) (we_set_currentStep None execution)
        initialInput m
  end.

(** The step executions a new execution starts with. *)
Definition pendingStep (step : StepDefinition Env) : StepExecution :=
  mkStepExecution (sd_id step) StepPending 0 None None None VUndefined [].

(** [startWorkflow]. The promise of [executeWorkflow] is not awaited by
    the source; here it has settled, with its [catch] handler run, when
    the call returns, and the execution returned is the object in that
    state. *)
Definition startWorkflow (workflowId : string) (initialInput : Value) m
  : Outcome WorkflowExecution * Machine Env :=
  match workflowDefinitions m !! workflowId with
  | None => (Thrown ("Workflow " +:+ workflowId +:+ " not found"), m)
  | Some workflowDef =>
      let '(id, m) := drawId m in
      let '(t, m) := newDate m in
      let execution :=
        mkWorkflowExecution id workflowId WfRunning None t None
          (map pendingStep (wd_steps workflowDef)) in
      let m := saveWorkflow execution m in
      match executeWorkflow execution initialInput m with
      | (Ok _, execution, m) => (Ok execution, m)
      | (Thrown errorMessage, execution, m) =>
          if negb (isPause errorMessage) then
            let execution := we_set_status WfFailed execution in
            (Ok execution, saveWorkflow execution m)
          else (Ok execution, m)
      end
  end.

(** *** Signals ([signalWorkflow]) *)

(** [workflowDef.steps.findIndex(s => s.id === id)]; [None] is [-1]. *)
Definition findIndex (id : string) (defs : list (StepDefinition Env)) : option nat :=
  fst <$> list_find (fun s => sd_id s = id) defs.

(** The element before position [currentStepIndex] of the step
    executions, [null] when the index is [0] or [-1]; an index past the
    end reads [undefined]. Both are [None]. *)
Definition lastCompletedStep (currentStepIndex : option nat)
    (steps : list StepExecution) : option StepExecution :=
  match currentStepIndex with
  | Some (S lastCompletedIndex) => steps !! lastCompletedIndex
  | _ => None
  end.

(** [lastCompletedStep?.output || {}] *)
Definition resumeInputOf (step : option StepExecution) : Value :=
  Js.or (match step with Some s => se_output s | None => VUndefined end) (VObj []).

(** The waiting step set back to [pending] with its error cleared. *)
Definition resetWaitingStep (currentStep : string) (execution : WorkflowExecution)
  : WorkflowExecution :=
  match findStep currentStep (we_steps execution) with
  | Some (i, waitingStep) =>
      we_set_steps
        (<[i := se_set_error None (se_set_status StepPending waitingStep)]>
           (we_steps execution))
        execution
  | None => execution
  end.

(** [{ ...data, timestamp: new Date() }] *)
Definition signalValue (data : Value) (t : Date) : Value :=
  VObj (Js.setProp "timestamp" (VDate t) (Js.spread data)).

Definition signalWorkflow (workflowId event : string) (data : Value) m
  : Outcome unit * Machine Env :=
  match getWorkflow workflowId m with
  | None => (Ok tt, m)
  | Some execution =>
      if bool_decide (we_status execution <> WfRunning)
         && bool_decide (we_status execution <> WfPaused) then (Ok tt, m)
      else
        let '(t, m) := newDate m in
        let m := setWorkflowState workflowId ("signal:" +:+ event)
                   (signalValue data t) m in
        let execution := we_set_status WfRunning execution in
        match workflowDefinitions m !! we_workflowId execution,
              truthyString (we_currentStep execution) with
        | Some workflowDef, Some currentStep =>
            let currentStepIndex := findIndex currentStep (wd_steps workflowDef) in
            let resumeInput :=
              resumeInputOf (lastCompletedStep currentStepIndex (we_steps execution)) in
            let execution := resetWaitingStep currentStep execution in
            let '(r, _, m) := executeWorkflow execution resumeInput m in
            (r, m)
        | _, _ => (Ok tt, m)
        end
  end.

(** *** Predicates used in the statements *)

(** The registries, the execution store and the identifiers drawn are
    the same in [m] and [m']. *)
Definition sameStore m m' : Prop :=
  stepDefinitions m' = stepDefinitions m /\
  workflowDefinitions m' = workflowDefinitions m /\
  workflows m' = workflows m /\
  idsDrawn m' = idsDrawn m.

(** Moreover nothing slept and no handler ran between [m] and [m']: only
    the clock, the per-workflow state and the outside collaborators may
    differ. *)
Definition sameEngine m m' : Prop :=
  sameStore m m' /\ sleeps m' = sleeps m /\ calls m' = calls m.

(** [stepExecution'] is [stepExecution] with log entries appended. *)
Definition logsExtended (stepExecution stepExecution' : StepExecution) : Prop :=
  exists entries,
    stepExecution' = se_set_logs (se_logs stepExecution ++ entries) stepExecution.





(** The handler of [stepDef] throws [message] on every invocation. *)
Definition alwaysThrows (stepDef : StepDefinition Env) (message : string) : Prop :=
  forall workflowId context stepExecution m,
  exists stepExecution' m',
    runHandler workflowId (sd_handler stepDef context) stepExecution m
      = (Thrown message, stepExecution', m').

(** The log entry of a pause. *)
Definition pausedLog (t : Date) : LogEntry :=
  mkLogEntry t "Workflow paused, waiting for signal" VUndefined.

(** The step execution that [findStep] returns for [id], if any, is
    completed: the scheduler passes over such a step definition. *)
Definition passedOver (steps : list StepExecution) (id : string) : Prop :=
  match findStep id steps with
  | Some (_, s) => se_status s = StepCompleted
  | None => True
  end.

(** The execution as the code after the loop of [executeWorkflow] leaves
    it, [t] being the instant read there. *)
Definition completedAtInstant (t : Date) (execution : WorkflowExecution)
  : WorkflowExecution :=
  we_set_currentStep None
    (we_set_completedAt (Some t) (we_set_status WfCompleted execution)).

(** The input that reaches the step after the first [n] step executions
    when these are skipped: the output of the last of them, or the
    initial input when [n] is [0]. *)
Definition carriedInput (n : nat) (steps : list StepExecution)
    (initialInput : Value) : Value :=
  match n with
  | O => initialInput
  | S j =>
      match steps !! j with
      | Some s => se_output s
      | None => initialInput
      end
  end.

(** The step executions mirror the step definitions, whose ids are
    distinct (the invariant of the data model). *)
Definition mirrors (steps : list StepExecution)
    (defs : list (StepDefinition Env)) : Prop :=
  se_stepId <$> steps = sd_id <$> defs /\ NoDup (sd_id <$> defs).

(** How [stepsLoop defs] can end, [execution] being the execution it was
    entered with: returning, with the execution stored as it is left and
    either completed or paused at a running step of [defs]; or throwing a
    message that is no pause request, with the status untouched and the
    current step, one of [defs], failed. *)
Definition endsWell (defs : list (StepDefinition Env))
    (execution : WorkflowExecution) (r : Outcome unit)
    (execution' : WorkflowExecution) m' : Prop :=
  match r with
  | Ok _ =>
      workflows m' !! we_id execution = Some (storedWorkflow execution') /\
      ((we_status execution' = WfCompleted /\
        we_currentStep execution' = None /\
        is_Some (we_completedAt execution')) \/
       exists d i s,
         d ∈ defs /\
         we_status execution' = WfPaused /\
         we_currentStep execution' = Some (sd_id d) /\
         findStep (sd_id d) (we_steps execution') = Some (i, s) /\
         se_status s = StepRunning /\
         se_error s = None)
  | Thrown message =>
      isPause message = false /\
      we_status execution' = we_status execution /\
      exists d i s,
        d ∈ defs /\
        we_currentStep execution' = Some (sd_id d) /\
        findStep (sd_id d) (we_steps execution') = Some (i, s) /\
        se_status s = StepFailed
  end.

(** Between [m] and [m'] nothing changed for the executions other than
    [id]: their stored records and their per-workflow state are the same,
    and so are the registries. *)
Definition othersUntouched (id : string) m m' : Prop :=
  (forall other, other <> id ->
     workflows m' !! other = workflows m !! other /\
     workflowState m' !! other = workflowState m !! other) /\
  stepDefinitions m' = stepDefinitions m /\
  workflowDefinitions m' = workflowDefinitions m.

(** No step of the execution is [retrying]. *)
Definition settled (execution : WorkflowExecution) : Prop :=
  Forall (fun s => se_status s <> StepRetrying) (we_steps execution).

(** No stored record shows a step as [retrying]. *)
Definition storeSettled m : Prop :=
  map_Forall (fun _ execution => settled execution) (workflows m).

(** The handler of [stepDef] returns on every invocation, with the output
    [f input], and the retry policy allows an attempt. *)
Definition computes (stepDef : StepDefinition Env) (f : Value -> Value) : Prop :=
  1 <= policyMaxAttempts stepDef /\
  forall workflowId context stepExecution m,
  exists result stepExecution' m',
    runHandler workflowId (sd_handler stepDef context) stepExecution m
      = (Ok result, stepExecution', m') /\
    res_output result = f (ctx_input context).

(** The outputs of a chain of steps, each fed the output of the one
    before, the first fed [input]. *)
Fixpoint threaded (input : Value) (fs : list (Value -> Value)) : list Value :=
  match fs with
  | [] => []
  | f :: fs => f input :: threaded (f input) fs
  end.

(** ** Properties *)

(** *** Strings *)

Lemma Str_append_nil (s : string) : "" +:+ s = s.
Proof. reflexivity. Qed.

Lemma Str_append_cons c (a b : string) : String c a +:+ b = String c (a +:+ b).
Proof. reflexivity. Qed.

Lemma Str_startsWith_app needle post : Str.startsWith (needle +:+ post) needle = true.
Proof.
  induction needle as [|c n IH]; [reflexivity|].
  rewrite Str_append_cons. simpl. rewrite Ascii.eqb_refl. exact IH.
Qed.

Lemma Str_startsWith_inv s needle :
  Str.startsWith s needle = true -> exists post, s = needle +:+ post.
Proof.
  revert s. induction needle as [|c n IH]; intros s H.
  - exists s. reflexivity.
  - destruct s as [|d s']; [discriminate|]. simpl in H.
    destruct (Ascii.eqb_spec c d) as [->|]; [|discriminate].
    destruct (IH _ H) as [post ->]. exists post. reflexivity.
Qed.

Lemma Str_includes_app pre needle post :
  Str.includes (pre +:+ needle +:+ post) needle = true.
Proof.
  induction pre as [|c pre IH].
  - rewrite Str_append_nil.
    destruct (needle +:+ post) eqn:E; simpl; rewrite <- E;
      rewrite Str_startsWith_app; reflexivity.
  - rewrite Str_append_cons. simpl. rewrite IH. apply orb_true_r.
Qed.

Lemma Str_includes_inv s needle :
  Str.includes s needle = true -> exists pre post, s = pre +:+ needle +:+ post.
Proof.
  induction s as [|c s IH]; simpl; intros H.
  - rewrite orb_false_r in H. destruct (Str_startsWith_inv _ _ H) as [post E].
    exists EmptyString, post. exact E.
  - apply orb_true_iff in H as [H|H].
    + destruct (Str_startsWith_inv _ _ H) as [post E].
      exists EmptyString, post. exact E.
    + destruct (IH H) as (pre & post & ->).
      exists (String c pre), post. reflexivity.
Qed.

(** [Str.includes] decides the substring relation. *)
Lemma Str_includes_spec s needle :
  Str.includes s needle = true <-> exists pre post, s = pre +:+ needle +:+ post.
Proof.
  split; [apply Str_includes_inv|].
  intros (pre & post & ->). apply Str_includes_app.
Qed.

Lemma sameEngine_refl m : sameEngine m m.
Proof. repeat split. Qed.

Lemma sameStore_refl m : sameStore m m.
Proof. repeat split. Qed.

Lemma sameStore_trans m1 m2 m3 :
  sameStore m1 m2 -> sameStore m2 m3 -> sameStore m1 m3.
Proof.
  unfold sameStore. intros (?&?&?&?) (?&?&?&?). repeat split; congruence.
Qed.

Lemma sameEngine_trans m1 m2 m3 :
  sameEngine m1 m2 -> sameEngine m2 m3 -> sameEngine m1 m3.
Proof.
  unfold sameEngine. intros (?&?&?) (?&?&?).
  split; [eapply sameStore_trans; eassumption|split; congruence].
Qed.

Lemma logsExtended_refl se : logsExtended se se.
Proof. exists []. destruct se. unfold se_set_logs. simpl. by rewrite app_nil_r. Qed.

Lemma logStep_frame se message data m se' m' :
  logStep se message data m = (se', m') ->
  logsExtended se se' /\ sameEngine m m'.
Proof.
  unfold logStep, newDate. intros H. simplify_eq.
  split; [by eexists|repeat split].
Qed.

Lemma logsExtended_trans se1 se2 se3 :
  logsExtended se1 se2 -> logsExtended se2 se3 -> logsExtended se1 se3.
Proof.
  intros [l1 ->] [l2 ->]. exists (l1 ++ l2)%list.
  unfold se_set_logs. simpl. by rewrite app_assoc.
Qed.

(** A handler touches the logs of its step execution, the state of its
    workflow, the clock (through [log]) and the outside world, nothing
    else. *)
Lemma runHandler_frame {A} workflowId (p : Prog Env A) se m r se' m' :
  runHandler workflowId p se m = (r, se', m') ->
  logsExtended se se' /\ sameEngine m m'.
Proof.
  revert se m. induction p as [a|msg|msg data k IH|key k IH|key v k IH|act k IH];
    intros se m H; simpl in H.
  - simplify_eq. split; [apply logsExtended_refl|apply sameEngine_refl].
  - simplify_eq. split; [apply logsExtended_refl|apply sameEngine_refl].
  - apply IH in H as [Hl Hm]. split.
    + eapply logsExtended_trans; [|exact Hl]. by eexists.
    + eapply sameEngine_trans; [|exact Hm]. repeat split.
  - by apply IH in H.
  - apply IH in H as [Hl Hm]. split; [done|].
    eapply sameEngine_trans; [|exact Hm]. repeat split.
  - apply IH in H as [Hl Hm]. split; [done|].
    eapply sameEngine_trans; [|exact Hm]. repeat split.
Qed.

(** The bookkeeping before the handler sets [attempts], [status] and
    [startedAt] and records the invocation. *)
Lemma callHandler_frame stepDef workflowId input maxAttempts attempt se m r se1 m1 :
  callHandler stepDef workflowId input maxAttempts attempt se m = (r, se1, m1) ->
  (se_stepId se1 = se_stepId se /\
   se_attempts se1 = attempt /\
   se_status se1 = (if attempt =? 1 then StepRunning else StepRetrying) /\
   se_error se1 = se_error se /\
   se_output se1 = se_output se /\
   se_completedAt se1 = se_completedAt se) /\
  sameStore m m1 /\
  sleeps m1 = sleeps m /\
  calls m1 = calls m ++ [(sd_id stepDef, attempt)].
Proof.
  unfold callHandler. simpl. intros H.
  apply runHandler_frame in H as [[l ->] (Hs & Hsl & Hc)].
  split; [by repeat split|]. split; [|split].
  - eapply sameStore_trans; [|exact Hs]. repeat split.
  - rewrite Hsl. reflexivity.
  - rewrite Hc. reflexivity.
Qed.

(** The handler returned. *)
Lemma attemptStep_succeeded stepDef workflowId input maxAttempts backoffMs
    attempt se m result se1 m1 :
  callHandler stepDef workflowId input maxAttempts attempt se m = (Ok result, se1, m1) ->
  exists se2 m2,
    attemptStep stepDef workflowId input maxAttempts backoffMs attempt se m
      = (Succeeded result, se2, m2) /\
    se_status se2 = StepCompleted /\
    se_output se2 = res_output result /\
    se_stepId se2 = se_stepId se1 /\
    se_attempts se2 = se_attempts se1 /\
    se_error se2 = se_error se1 /\
    is_Some (se_completedAt se2) /\
    sameEngine m1 m2.
Proof.
  intros H. unfold attemptStep. rewrite H. simpl.
  eexists _, _. split; [reflexivity|]. simpl. by repeat split.
Qed.

(** The handler threw a message with the pause marker. *)
Lemma attemptStep_paused stepDef workflowId input maxAttempts backoffMs
    attempt se m message se1 m1 :
  callHandler stepDef workflowId input maxAttempts attempt se m
    = (Thrown message, se1, m1) ->
  isPause message = true ->
  exists se2 m2,
    attemptStep stepDef workflowId input maxAttempts backoffMs attempt se m
      = (PauseRequested message, se2, m2) /\
    se_status se2 = StepRunning /\
    se_error se2 = None /\
    se_logs se2 = se_logs se1 ++
      [mkLogEntry (now (clockReads m1)) "Workflow paused, waiting for signal" VUndefined] /\
    se_stepId se2 = se_stepId se1 /\
    se_attempts se2 = se_attempts se1 /\
    se_output se2 = se_output se1 /\
    se_completedAt se2 = se_completedAt se1 /\
    sameEngine m1 m2.
Proof.
  intros H Hp. unfold attemptStep. rewrite H, Hp. simpl.
  eexists _, _. split; [reflexivity|]. simpl. by repeat split.
Qed.

(** The handler threw any other message. *)
Lemma attemptStep_failed stepDef workflowId input maxAttempts backoffMs
    attempt se m message se1 m1 :
  callHandler stepDef workflowId input maxAttempts attempt se m
    = (Thrown message, se1, m1) ->
  isPause message = false ->
  exists se2 m2,
    attemptStep stepDef workflowId input maxAttempts backoffMs attempt se m
      = (Failed message, se2, m2) /\
    se_error se2 = Some message /\
    se_logs se2 = se_logs se1 ++
      [mkLogEntry (now (clockReads m1))
         ("Attempt " +:+ pretty attempt +:+ " failed: " +:+ message) VUndefined] /\
    se_status se2 = se_status se1 /\
    se_stepId se2 = se_stepId se1 /\
    se_attempts se2 = se_attempts se1 /\
    se_output se2 = se_output se1 /\
    se_completedAt se2 = se_completedAt se1 /\
    sameStore m1 m2 /\
    calls m2 = calls m1 /\
    sleeps m2 = sleeps m1 ++
      (if attempt <? maxAttempts then [backoffMs * attempt] else []).
Proof.
  intros H Hp. unfold attemptStep. rewrite H, Hp. simpl.
  eexists _, _. split; [reflexivity|].
  destruct (attempt <? maxAttempts); simpl; rewrite ?app_nil_r; by repeat split.
Qed.

(** What the retry executor leaves behind, by the way it ends. The
    hypothesis on [lastError] holds at every entry of the loop, since
    only the messages of ordinary failures are kept there. *)
Lemma retryLoop_outcome stepDef workflowId input maxAttempts backoffMs
    remaining attempt lastError se m r se' m' :
  (forall e, lastError = Some e -> isPause e = false) ->
  retryLoop stepDef workflowId input maxAttempts backoffMs remaining attempt
    lastError se m = (r, se', m') ->
  se_stepId se' = se_stepId se /\
  sameStore m m' /\
  (exists ks, calls m' = calls m ++ map (pair (sd_id stepDef)) ks) /\
  match r with
  | Ok result =>
      se_status se' = StepCompleted /\ se_output se' = res_output result
  | Thrown message =>
      if isPause message then
        se_status se' = StepRunning /\ se_error se' = None /\
        exists t, last (se_logs se') = Some (pausedLog t)
      else
        se_status se' = StepFailed /\ is_Some (se_completedAt se')
  end.
Proof.
  revert attempt lastError se m.
  induction remaining as [|remaining IH]; intros attempt lastError se m Hlast H;
    simpl in H.
  - simplify_eq. split; [done|]. split; [repeat split|].
    split; [exists []; simpl; by rewrite app_nil_r|].
    assert (isPause (default "Step failed after all retries" lastError) = false) as ->.
    { destruct lastError as [e|]; [by apply Hlast|reflexivity]. }
    by split.
  - destruct (callHandler stepDef workflowId input maxAttempts attempt se m)
      as [[r1 se1] m1] eqn:Hc.
    destruct (callHandler_frame _ _ _ _ _ _ _ _ _ _ Hc)
      as ((Hid & _) & Hs1 & _ & Hc1).
    destruct r1 as [result|message].
    + destruct (attemptStep_succeeded _ _ _ _ backoffMs _ _ _ _ _ _ Hc)
        as (se2 & m2 & Ha & Hst & Ho & Hid2 & _ & _ & _ & Hs2 & _ & Hc2).
      rewrite Ha in H. simplify_eq.
      split; [congruence|]. split; [eapply sameStore_trans; eassumption|].
      split; [|done]. exists [attempt]. rewrite Hc2, Hc1. reflexivity.
    + destruct (isPause message) eqn:Hp.
      * destruct (attemptStep_paused _ _ _ _ backoffMs _ _ _ _ _ _ Hc Hp)
          as (se2 & m2 & Ha & Hst & He & Hl & Hid2 & _ & _ & _ & Hs2 & _ & Hc2).
        rewrite Ha in H. simplify_eq. rewrite Hp.
        split; [congruence|]. split; [eapply sameStore_trans; eassumption|].
        split; [exists [attempt]; rewrite Hc2, Hc1; reflexivity|].
        split; [done|]. split; [done|].
        eexists. rewrite Hl. apply last_snoc.
      * destruct (attemptStep_failed _ _ _ _ backoffMs _ _ _ _ _ _ Hc Hp)
          as (se2 & m2 & Ha & _ & _ & _ & Hid2 & _ & _ & _ & Hs2 & Hc2 & _).
        rewrite Ha in H. apply IH in H as (Hid3 & Hs3 & [ks Hc3] & Hr).
        -- split; [congruence|].
           split; [eapply sameStore_trans; [|exact Hs3];
                   eapply sameStore_trans; eassumption|].
           split; [|exact Hr]. exists (attempt :: ks).
           rewrite Hc3, Hc2, Hc1, <- app_assoc. reflexivity.
        -- intros e [= <-]. exact Hp.
Qed.

Lemma executeStepWithRetry_outcome stepDef se workflowId input m r se' m' :
  executeStepWithRetry stepDef se workflowId input m = (r, se', m') ->
  se_stepId se' = se_stepId se /\
  sameStore m m' /\
  (exists ks, calls m' = calls m ++ map (pair (sd_id stepDef)) ks) /\
  match r with
  | Ok result =>
      se_status se' = StepCompleted /\ se_output se' = res_output result
  | Thrown message =>
      if isPause message then
        se_status se' = StepRunning /\ se_error se' = None /\
        exists t, last (se_logs se') = Some (pausedLog t)
      else
        se_status se' = StepFailed /\ is_Some (se_completedAt se')
  end.
Proof. unfold executeStepWithRetry. apply retryLoop_outcome. intros e [=]. Qed.

Lemma retryLoop_fail_exact stepDef workflowId input maxA backoff remaining attempt
    lastError se m message se1 m1 :
  callHandler stepDef workflowId input maxA attempt se m
    = (Thrown message, se1, m1) ->
  isPause message = false ->
  retryLoop stepDef workflowId input maxA backoff (S remaining)
    attempt lastError se m
  = retryLoop stepDef workflowId input maxA backoff remaining (attempt + 1)
      (Some message)
      (se_set_logs
         (se_logs se1 ++
          [mkLogEntry (now (clockReads m1))
             ("Attempt " +:+ pretty attempt +:+ " failed: " +:+ message)
             VUndefined])
         (se_set_error (Some message) se1))
      (if attempt <? maxA then
         sleep (backoff * attempt) (set_clockReads (S (clockReads m1)) m1)
       else set_clockReads (S (clockReads m1)) m1).
Proof.
  intros Hcall Hpause. cbn [retryLoop]. unfold attemptStep.
  rewrite Hcall, Hpause. reflexivity.
Qed.





(** *** One iteration of the scheduler *)

Lemma stepsLoop_missing stepDef defs execution input m :
  findStep (sd_id stepDef) (we_steps execution) = None ->
  stepsLoop (stepDef :: defs) execution input m = stepsLoop defs execution input m.
Proof. intros H. simpl. by rewrite H. Qed.

Lemma stepsLoop_skip stepDef defs execution input m i se :
  findStep (sd_id stepDef) (we_steps execution) = Some (i, se) ->
  se_status se = StepCompleted ->
  stepsLoop (stepDef :: defs) execution input m
  = stepsLoop defs execution (se_output se) m.
Proof. intros H Hst. simpl. rewrite H. by rewrite decide_True. Qed.

(** A step that is not completed goes through the retry executor. When
    the executor returns, the step is [completed], so the two tests that
    follow the call in the [try] block fail and the loop continues; when
    it throws, the [catch] block decides. *)
Lemma stepsLoop_run stepDef defs execution input m i se r se' m' :
  findStep (sd_id stepDef) (we_steps execution) = Some (i, se) ->
  se_status se <> StepCompleted ->
  executeStepWithRetry stepDef se (we_id execution) input
    (saveWorkflow (we_set_currentStep (Some (sd_id stepDef)) execution) m)
    = (r, se', m') ->
  let execution' :=
    we_set_steps (<[i := se']> (we_steps execution))
      (we_set_currentStep (Some (sd_id stepDef)) execution) in
  stepsLoop (stepDef :: defs) execution input m
  = match r with
    | Ok result => stepsLoop defs execution' (res_output result) m'
    | Thrown message =>
        if isPause message then
          (Ok tt, we_set_status WfPaused execution',
           saveWorkflow (we_set_status WfPaused execution') m')
        else (Thrown message, execution', m')
    end.
Proof.
  intros H Hst He. simpl. rewrite H. rewrite decide_False by done.
  change (we_id (we_set_currentStep (Some (sd_id stepDef)) execution))
    with (we_id execution).
  rewrite He. simpl.
  destruct r as [result|message]; [|reflexivity].
  apply executeStepWithRetry_outcome in He as (_ & _ & _ & Hc & _).
  rewrite decide_False by (rewrite Hc; discriminate).
  rewrite bool_decide_eq_false_2 by (rewrite Hc; discriminate).
  reflexivity.
Qed.

Lemma getWorkflow_saveWorkflow execution m :
  getWorkflow (we_id execution) (saveWorkflow execution m)
  = Some (storedWorkflow execution).
Proof. unfold getWorkflow, saveWorkflow. simpl. apply lookup_insert_eq. Qed.

(** A pause asked for at [attempt] ends the loop at once. *)
Lemma retryLoop_pause_at stepDef workflowId input maxA backoff remaining attempt
    lastError se m message se1 m1 :
  callHandler stepDef workflowId input maxA attempt se m
    = (Thrown message, se1, m1) ->
  isPause message = true ->
  exists se2 m2,
    attemptStep stepDef workflowId input maxA backoff attempt se m
      = (PauseRequested message, se2, m2) /\
    retryLoop stepDef workflowId input maxA backoff (S remaining)
      attempt lastError se m = (Thrown message, se2, m2) /\
    se_status se2 = StepRunning /\
    se_error se2 = None /\
    se_attempts se2 = attempt /\
    se_logs se2 = se_logs se1 ++ [pausedLog (now (clockReads m1))] /\
    calls m2 = calls m ++ [(sd_id stepDef, attempt)] /\
    sleeps m2 = sleeps m.
Proof.
  intros Hc Hp.
  destruct (callHandler_frame _ _ _ _ _ _ _ _ _ _ Hc)
    as ((_ & Hat & _) & _ & Hsl1 & Hc1).
  destruct (attemptStep_paused _ _ _ _ backoff _ _ _ _ _ _ Hc Hp)
    as (se2 & m2 & Ha & Hst & He & Hl & _ & Hat2 & _ & _ & _ & Hsl2 & Hc2).
  exists se2, m2. simpl. rewrite Ha.
  repeat split; try done; congruence.
Qed.

(** C1: a handler that asks for a pause at attempt [k], whatever [k] is
    and however many attempts remain, ends the retry loop at once: the
    executor rethrows the message, with the step [running], its error
    cleared and the log entry of the pause appended; the handler ran
    once for attempt [k] and nothing slept. In the scheduler, a pause
    thrown by the executor is not rethrown: the call returns, with the
    execution [paused] and persisted in that state, and nothing of the
    later steps is run (no handler invocation and no sleep after the
    executor has come back). *)
Theorem pause_short_circuits :
  (forall stepDef workflowId input maxAttempts backoffMs remaining attempt
          lastError se m message se1 m1,
      callHandler stepDef workflowId input maxAttempts attempt se m
        = (Thrown message, se1, m1) ->
      isPause message = true ->
      exists se2 m2,
        retryLoop stepDef workflowId input maxAttempts backoffMs (S remaining)
          attempt lastError se m = (Thrown message, se2, m2) /\
        se_status se2 = StepRunning /\
        se_error se2 = None /\
        se_logs se2 = se_logs se1 ++ [pausedLog (now (clockReads m1))] /\
        calls m2 = calls m ++ [(sd_id stepDef, attempt)] /\
        sleeps m2 = sleeps m) /\
  (forall stepDef defs execution input m i se message se' m',
      findStep (sd_id stepDef) (we_steps execution) = Some (i, se) ->
      se_status se <> StepCompleted ->
      executeStepWithRetry stepDef se (we_id execution) input
        (saveWorkflow (we_set_currentStep (Some (sd_id stepDef)) execution) m)
        = (Thrown message, se', m') ->
      isPause message = true ->
      exists execution' m'',
        stepsLoop (stepDef :: defs) execution input m = (Ok tt, execution', m'') /\
        we_status execution' = WfPaused /\
        we_currentStep execution' = Some (sd_id stepDef) /\
        we_steps execution' = <[i := se']> (we_steps execution) /\
        se_status se' = StepRunning /\
        se_error se' = None /\
        getWorkflow (we_id execution) m'' = Some (storedWorkflow execution') /\
        calls m'' = calls m' /\
        sleeps m'' = sleeps m').
Proof.
  split.
  - intros stepDef workflowId input maxA backoff remaining attempt lastError
      se m message se1 m1 Hc Hp.
    destruct (retryLoop_pause_at _ _ _ _ backoff remaining _ lastError _ _ _ _ _ Hc Hp)
      as (se2 & m2 & _ & Hloop & Hst & He & _ & Hl & Hcalls & Hsl).
    by exists se2, m2.
  - intros * Hfind Hst He Hp.
    rewrite (stepsLoop_run _ defs _ _ _ _ _ _ _ _ Hfind Hst He). rewrite Hp.
    apply executeStepWithRetry_outcome in He as (_ & _ & _ & Hr).
    rewrite Hp in Hr. destruct Hr as (Hrun & Herr & _).
    eexists _, _. split; [reflexivity|]. simpl.
    repeat split; try done.
    apply (getWorkflow_saveWorkflow
             (we_set_status WfPaused
                (we_set_steps (<[i:=se']> (we_steps execution))
                   (we_set_currentStep (Some (sd_id stepDef)) execution)))).
Qed.

(** *** Finding step executions *)

Lemma findStep_Some id steps i se :
  findStep id steps = Some (i, se) ->
  steps !! i = Some se /\ se_stepId se = id.
Proof.
  unfold findStep. intros H. apply list_find_Some in H as (H1 & H2 & _). done.
Qed.

(** Replacing a step execution by one of the same [stepId] does not move
    what [findStep] finds. *)
Lemma findStep_insert id steps i se se' :
  steps !! i = Some se ->
  se_stepId se' = se_stepId se ->
  findStep id (<[i := se']> steps)
  = match findStep id steps with
    | Some (j, s) => Some (j, if decide (j = i) then se' else s)
    | None => None
    end.
Proof.
  unfold findStep. revert i. induction steps as [|x steps IH]; intros i Hi Hid.
  - done.
  - destruct i as [|i]; simpl in *.
    + simplify_eq. rewrite Hid.
      destruct (decide (se_stepId se = id)); simpl; [done|].
      destruct (list_find _ steps) as [[j s]|]; simpl; done.
    + destruct (decide (se_stepId x = id)); simpl; [done|].
      rewrite (IH i Hi Hid).
      destruct (list_find _ steps) as [[j s]|]; simpl; [|done].
      destruct (decide (j = i)); destruct (decide (S j = S i)); done || lia.
Qed.

Lemma passedOver_insert id steps i se se' :
  steps !! i = Some se ->
  se_stepId se' = se_stepId se ->
  se_status se' = StepCompleted ->
  passedOver steps id -> passedOver (<[i := se']> steps) id.
Proof.
  unfold passedOver. intros Hi Hid Hst. rewrite (findStep_insert _ _ _ _ _ Hi Hid).
  destruct (findStep id steps) as [[j s]|]; [|done].
  destruct (decide (j = i)); done.
Qed.

(** *** Executions with nothing left to run *)

(** When every step definition is passed over, the loop runs no handler
    and the execution is marked completed and persisted. *)
Lemma stepsLoop_passedOver defs execution input m :
  Forall (fun d => passedOver (we_steps execution) (sd_id d)) defs ->
  stepsLoop defs execution input m
  = (Ok tt, completedAtInstant (now (clockReads m)) execution,
     saveWorkflow (completedAtInstant (now (clockReads m)) execution)
       (set_clockReads (S (clockReads m)) m)).
Proof.
  revert input. induction defs as [|d defs IH]; intros input H.
  - reflexivity.
  - apply Forall_cons in H as [Hd H]. unfold passedOver in Hd.
    destruct (findStep (sd_id d) (we_steps execution)) as [[i s]|] eqn:E.
    + rewrite (stepsLoop_skip _ _ _ _ _ _ _ E Hd). by apply IH.
    + rewrite (stepsLoop_missing _ _ _ _ _ E). by apply IH.
Qed.

(** An execution that the loop has marked completed has every step
    definition of the loop passed over, and what was passed over before
    the loop still is. *)
Lemma stepsLoop_completed defs execution input m execution' m' :
  stepsLoop defs execution input m = (Ok tt, execution', m') ->
  we_status execution' = WfCompleted ->
  (forall id, passedOver (we_steps execution) id ->
              passedOver (we_steps execution') id) /\
  Forall (fun d => passedOver (we_steps execution') (sd_id d)) defs.
Proof.
  revert execution input m.
  induction defs as [|d defs IH]; intros execution input m H Hst.
  - simpl in H. simplify_eq. split; [done|constructor].
  - destruct (findStep (sd_id d) (we_steps execution)) as [[i s]|] eqn:E.
    + destruct (decide (se_status s = StepCompleted)) as [Hs|Hs].
      * rewrite (stepsLoop_skip _ _ _ _ _ _ _ E Hs) in H.
        destruct (IH _ _ _ H Hst) as [Hmono Hall]. split; [done|].
        constructor; [|done]. apply Hmono. unfold passedOver. by rewrite E.
      * destruct (executeStepWithRetry d s (we_id execution) input
                    (saveWorkflow (we_set_currentStep (Some (sd_id d)) execution) m))
          as [[r s'] m1] eqn:He.
        rewrite (stepsLoop_run _ defs _ _ _ _ _ _ _ _ E Hs He) in H.
        apply executeStepWithRetry_outcome in He as (Hid & _ & _ & Hr).
        destruct (findStep_Some _ _ _ _ E) as [Hi Hsid].
        destruct r as [result|message].
        -- destruct Hr as [Hc _].
           destruct (IH _ _ _ H Hst) as [Hmono Hall]. simpl in Hmono.
           split.
           ++ intros id Hp. apply Hmono. by eapply passedOver_insert.
           ++ constructor; [|done]. apply Hmono. unfold passedOver.
              rewrite (findStep_insert _ _ _ _ _ Hi Hid), E.
              by rewrite decide_True.
        -- destruct (isPause message); simplify_eq.
    + rewrite (stepsLoop_missing _ _ _ _ _ E) in H.
      destruct (IH _ _ _ H Hst) as [Hmono Hall]. split; [done|].
      constructor; [|done]. apply Hmono. unfold passedOver. by rewrite E.
Qed.

(** *** What the scheduler leaves alone *)

Lemma stepIds_insert (steps : list StepExecution) i se se' :
  steps !! i = Some se ->
  se_stepId se' = se_stepId se ->
  se_stepId <$> <[i := se']> steps = se_stepId <$> steps.
Proof.
  intros Hi Hid. rewrite list_fmap_insert, Hid.
  apply list_insert_id. by rewrite list_lookup_fmap, Hi.
Qed.

(** The loop over [defs] keeps the identity of the execution, the
    registries and the step ids; it changes no step execution whose id is
    not among [defs], and invokes handlers of [defs] only. *)
Lemma stepsLoop_frame defs execution input m r execution' m' :
  stepsLoop defs execution input m = (r, execution', m') ->
  we_id execution' = we_id execution /\
  we_workflowId execution' = we_workflowId execution /\
  stepDefinitions m' = stepDefinitions m /\
  workflowDefinitions m' = workflowDefinitions m /\
  se_stepId <$> we_steps execution' = se_stepId <$> we_steps execution /\
  (forall j s, we_steps execution !! j = Some s ->
               se_stepId s ∉ sd_id <$> defs ->
               we_steps execution' !! j = Some s) /\
  exists cs, calls m' = calls m ++ cs /\
             Forall (fun c => c.1 ∈ sd_id <$> defs) cs.
Proof.
  revert execution input m.
  induction defs as [|d defs IH]; intros execution input m H.
  - simpl in H. simplify_eq. repeat split; try done.
    exists []. split; [by rewrite app_nil_r|constructor].
  - assert (forall e0 i0 m0,
              stepsLoop defs e0 i0 m0 = (r, execution', m') ->
              we_id e0 = we_id execution ->
              we_workflowId e0 = we_workflowId execution ->
              stepDefinitions m0 = stepDefinitions m ->
              workflowDefinitions m0 = workflowDefinitions m ->
              se_stepId <$> we_steps e0 = se_stepId <$> we_steps execution ->
              (forall j s, we_steps execution !! j = Some s ->
                           se_stepId s ∉ sd_id <$> d :: defs ->
                           we_steps e0 !! j = Some s) ->
              (exists ks, calls m0 = calls m ++ map (pair (sd_id d)) ks) ->
              we_id execution' = we_id execution /\
              we_workflowId execution' = we_workflowId execution /\
              stepDefinitions m' = stepDefinitions m /\
              workflowDefinitions m' = workflowDefinitions m /\
              se_stepId <$> we_steps execution' = se_stepId <$> we_steps execution /\
              (forall j s, we_steps execution !! j = Some s ->
                           se_stepId s ∉ sd_id <$> d :: defs ->
                           we_steps execution' !! j = Some s) /\
              exists cs, calls m' = calls m ++ cs /\
                         Forall (fun c => c.1 ∈ sd_id <$> d :: defs) cs) as Hrest.
    { intros e0 i0 m0 H0 E1 E2 E3 E4 E5 E6 [ks E7].
      apply IH in H0 as (F1 & F2 & F3 & F4 & F5 & F6 & cs & F7 & F8).
      split; [congruence|]. split; [congruence|]. split; [congruence|].
      split; [congruence|]. split; [congruence|]. split.
      - intros j s Hj Hn. apply F6; [by apply E6|].
        intros Hin. apply Hn. rewrite fmap_cons. by right.
      - exists (map (pair (sd_id d)) ks ++ cs). split.
        + rewrite F7, E7. by rewrite app_assoc.
        + apply Forall_app. split.
          * apply Forall_forall. intros c Hc.
            apply list_elem_of_In, in_map_iff in Hc as (k & <- & _).
            simpl. by left.
          * eapply Forall_impl; [exact F8|]. intros c Hc.
            rewrite fmap_cons. by right. }
    destruct (findStep (sd_id d) (we_steps execution)) as [[i s]|] eqn:E.
    + destruct (decide (se_status s = StepCompleted)) as [Hs|Hs].
      * rewrite (stepsLoop_skip _ _ _ _ _ _ _ E Hs) in H.
        apply (Hrest _ _ _ H); try done. exists []. simpl. by rewrite app_nil_r.
      * destruct (executeStepWithRetry d s (we_id execution) input
                    (saveWorkflow (we_set_currentStep (Some (sd_id d)) execution) m))
          as [[r1 s'] m1] eqn:He.
        rewrite (stepsLoop_run _ defs _ _ _ _ _ _ _ _ E Hs He) in H.
        apply executeStepWithRetry_outcome in He
          as (Hid & (G1 & G2 & _) & [ks Hks] & _).
        simpl in G1, G2, Hks.
        destruct (findStep_Some _ _ _ _ E) as [Hi Hsid].
        assert (forall j s0, we_steps execution !! j = Some s0 ->
                  se_stepId s0 ∉ sd_id <$> d :: defs ->
                  <[i := s']> (we_steps execution) !! j = Some s0) as Hkeep.
        { intros j s0 Hj Hn. rewrite list_lookup_insert_ne; [done|].
          intros <-. apply Hn. rewrite fmap_cons. apply elem_of_cons. left. congruence. }
        destruct r1 as [result|message].
        -- apply (Hrest _ _ _ H); try done.
           ++ simpl. by eapply stepIds_insert.
           ++ by exists ks.
        -- assert (we_id execution' = we_id execution /\
                   we_workflowId execution' = we_workflowId execution /\
                   we_steps execution' = <[i := s']> (we_steps execution) /\
                   stepDefinitions m' = stepDefinitions m1 /\
                   workflowDefinitions m' = workflowDefinitions m1 /\
                   calls m' = calls m1) as (K1 & K2 & K3 & K4 & K5 & K6).
           { destruct (isPause message); simplify_eq; by repeat split. }
           split; [done|]. split; [done|]. split; [congruence|].
           split; [congruence|]. rewrite K3.
           split; [by eapply stepIds_insert|]. split; [done|].
           exists (map (pair (sd_id d)) ks). split; [congruence|].
           apply Forall_forall. intros c Hc.
           apply list_elem_of_In, in_map_iff in Hc as (k & <- & _).
           simpl. by left.
    + rewrite (stepsLoop_missing _ _ _ _ _ E) in H.
      apply (Hrest _ _ _ H); try done. exists []. simpl. by rewrite app_nil_r.
Qed.

(** *** The invariant of the data model

    The step executions of an execution that [startWorkflow] creates mirror
    the definition, and the scheduler, the store and the reset of a waiting
    step keep the step ids in place. *)

Lemma mirrors_pendingStep defs :
  NoDup (sd_id <$> defs) -> mirrors (map pendingStep defs) defs.
Proof.
  intros Hnd. split; [|done].
  induction defs as [|d defs IH]; [done|].
  simpl. f_equal. apply IH. by apply NoDup_cons in Hnd as [_ Hnd].
Qed.

Lemma mirrors_executeWorkflow execution input m r execution' m' defs :
  executeWorkflow execution input m = (r, execution', m') ->
  mirrors (we_steps execution) defs -> mirrors (we_steps execution') defs.
Proof.
  unfold executeWorkflow. intros H [Hm Hnd]. split; [|done].
  destruct (workflowDefinitions m !! we_workflowId execution); [|by simplify_eq].
  apply stepsLoop_frame in H as (_ & _ & _ & _ & Hids & _). by rewrite Hids.
Qed.

Lemma mirrors_storedWorkflow execution defs :
  mirrors (we_steps execution) defs ->
  mirrors (we_steps (storedWorkflow execution)) defs.
Proof.
  intros [Hm Hnd]. split; [|done]. rewrite <- Hm. simpl. clear Hm.
  induction (we_steps execution) as [|s steps IH]; [done|].
  simpl. f_equal. exact IH.
Qed.

Lemma mirrors_resetWaitingStep currentStep execution defs :
  mirrors (we_steps execution) defs ->
  mirrors (we_steps (resetWaitingStep currentStep execution)) defs.
Proof.
  intros [Hm Hnd]. split; [|done]. unfold resetWaitingStep.
  destruct (findStep currentStep (we_steps execution)) as [[i w]|] eqn:E; [|done].
  apply findStep_Some in E as [Hi _]. simpl.
  by rewrite (stepIds_insert _ _ w).
Qed.

(** *** Skipping completed steps *)

(** Under the invariant, the step execution found for the definition at
    position [j] is the one at position [j]. *)
Lemma mirrors_findStep steps defs j d :
  mirrors steps defs ->
  defs !! j = Some d ->
  exists s, steps !! j = Some s /\ findStep (sd_id d) steps = Some (j, s).
Proof.
  intros [Hm Hnd] Hd.
  assert ((se_stepId <$> steps) !! j = Some (sd_id d)) as Hj.
  { rewrite Hm, list_lookup_fmap, Hd. done. }
  rewrite list_lookup_fmap in Hj.
  destruct (steps !! j) as [s|] eqn:Hs; [|done]. simpl in Hj.
  exists s. split; [done|]. unfold findStep. apply list_find_Some.
  split; [done|]. split; [congruence|].
  intros j' s' Hs' Hlt Heq.
  assert (j' = j) as ->; [|lia].
  rewrite <- Hm in Hnd. eapply NoDup_lookup; [exact Hnd| |].
  - rewrite list_lookup_fmap, Hs'. simpl. by rewrite Heq.
  - rewrite list_lookup_fmap, Hs. simpl. congruence.
Qed.

Lemma stepsLoop_skip_range steps defs execution m n :
  we_steps execution = steps ->
  mirrors steps defs ->
  forall k input,
  (k + n <= length defs)%nat ->
  (forall j s, (k <= j < k + n)%nat -> steps !! j = Some s ->
               se_status s = StepCompleted) ->
  stepsLoop (drop k defs) execution input m
  = stepsLoop (drop (k + n) defs) execution
      (match n with O => input | S _ => carriedInput (k + n) steps input end) m.
Proof.
  intros <- Hmir. induction n as [|n IH]; intros k input Hlen Hdone.
  - by rewrite Nat.add_0_r.
  - destruct (lookup_lt_is_Some_2 defs k ltac:(lia)) as [d Hd].
    destruct (mirrors_findStep _ _ _ _ Hmir Hd) as (s & Hs & Hfind).
    rewrite (drop_S _ _ _ Hd).
    rewrite (stepsLoop_skip _ _ _ _ _ _ _ Hfind (Hdone k s ltac:(lia) Hs)).
    rewrite (IH (S k) (se_output s)); [|lia|].
    + replace (S k + n)%nat with (k + S n)%nat by lia. f_equal.
      destruct n as [|n].
      * unfold carriedInput. replace (k + 1)%nat with (S k) by lia.
        by rewrite Hs.
      * unfold carriedInput. replace (k + S (S n))%nat with (S (k + S n)) by lia.
        destruct (lookup_lt_is_Some_2 (we_steps execution) (k + S n)) as [s' Hs'].
        { destruct Hmir as [Hm _].
          rewrite <- (length_fmap se_stepId), Hm, length_fmap. lia. }
        by rewrite Hs'.
    + intros j s' Hj. apply Hdone. lia.
Qed.

(** With the first [n] step executions completed, the loop is the loop
    over the step definitions after them, entered with the input they
    carry; the state of the process is the one the call started from. *)
Lemma stepsLoop_skip_completed defs execution input m n :
  mirrors (we_steps execution) defs ->
  (n <= length defs)%nat ->
  Forall (fun s => se_status s = StepCompleted) (take n (we_steps execution)) ->
  stepsLoop defs execution input m
  = stepsLoop (drop n defs) execution
      (carriedInput n (we_steps execution) input) m.
Proof.
  intros Hmir Hlen Hdone.
  rewrite <- (drop_0 defs) at 1.
  rewrite (stepsLoop_skip_range (we_steps execution) defs execution m n
             eq_refl Hmir 0%nat input); [|lia|].
  - simpl. destruct n; reflexivity.
  - intros j s Hj Hs. rewrite Forall_forall in Hdone. apply Hdone.
    apply (list_elem_of_lookup_2 _ j). rewrite lookup_take_lt by lia. done.
Qed.

Lemma executeWorkflow_registered execution input m workflowDef :
  workflowDefinitions m !! we_workflowId execution = Some workflowDef ->
  executeWorkflow execution input m
  = stepsLoop (wd_steps workflowDef) (we_set_currentStep None execution) input m.
Proof. intros H. unfold executeWorkflow. by rewrite H. Qed.

Lemma ids_take_drop (defs : list (StepDefinition Env)) n x :
  NoDup (sd_id <$> defs) ->
  x ∈ sd_id <$> take n defs -> x ∉ sd_id <$> drop n defs.
Proof.
  intros Hnd. rewrite <- (take_drop n defs), fmap_app in Hnd.
  apply NoDup_app in Hnd as (_ & Hdisj & _). apply Hdisj.
Qed.

(** C4 (as amended): on an execution whose step executions mirror the
    definition and whose first [n] are completed, [executeWorkflow] is the
    loop over the step definitions after the first [n], entered in the
    state of the call with the output of step [n] as input (the initial
    input when [n] is 0). When step [n + 1] is not completed, the call
    makes it the current step, saves, and runs it through the retry
    executor with that input, whatever the initial input was: a result
    is stored in the step execution and its output goes to the steps
    after [n + 1], a pause request leaves the execution paused and
    saved, and any other error is thrown on, with the step execution as
    the executor left it in each case. The call leaves the first [n]
    step executions as they are and invokes no handler of theirs. When
    it returns with the execution completed, a further call changes
    neither the steps nor the status and runs no handler. *)
Theorem completed_steps_skipped m execution workflowDef initialInput n :
  workflowDefinitions m !! we_workflowId execution = Some workflowDef ->
  mirrors (we_steps execution) (wd_steps workflowDef) ->
  (n <= length (wd_steps workflowDef))%nat ->
  Forall (fun s => se_status s = StepCompleted) (take n (we_steps execution)) ->
  executeWorkflow execution initialInput m
  = stepsLoop (drop n (wd_steps workflowDef)) (we_set_currentStep None execution)
      (carriedInput n (we_steps execution) initialInput) m /\
  (forall stepDef se r se' m',
      wd_steps workflowDef !! n = Some stepDef ->
      we_steps execution !! n = Some se ->
      se_status se <> StepCompleted ->
      executeStepWithRetry stepDef se (we_id execution)
        (carriedInput n (we_steps execution) initialInput)
        (saveWorkflow (we_set_currentStep (Some (sd_id stepDef)) execution) m)
      = (r, se', m') ->
      let execution' :=
        we_set_steps (<[n := se']> (we_steps execution))
          (we_set_currentStep (Some (sd_id stepDef)) execution) in
      executeWorkflow execution initialInput m
      = match r with
        | Ok result =>
            stepsLoop (drop (S n) (wd_steps workflowDef)) execution'
              (res_output result) m'
        | Thrown message =>
            if isPause message then
              (Ok tt, we_set_status WfPaused execution',
               saveWorkflow (we_set_status WfPaused execution') m')
            else (Thrown message, execution', m')
        end) /\
  forall r execution' m',
    executeWorkflow execution initialInput m = (r, execution', m') ->
    take n (we_steps execution') = take n (we_steps execution) /\
    (exists cs,
        calls m' = calls m ++ cs /\
        Forall (fun c => c.1 ∈ sd_id <$> drop n (wd_steps workflowDef) /\
                         c.1 ∉ sd_id <$> take n (wd_steps workflowDef)) cs) /\
    (r = Ok tt -> we_status execution' = WfCompleted ->
     forall input,
     exists execution'' m'',
       executeWorkflow execution' input m' = (Ok tt, execution'', m'') /\
       we_steps execution'' = we_steps execution' /\
       we_status execution'' = we_status execution' /\
       calls m'' = calls m' /\
       sleeps m'' = sleeps m').
Proof.
  intros Hdef Hmir Hlen Hdone.
  rewrite (executeWorkflow_registered _ _ _ _ Hdef).
  assert (stepsLoop (wd_steps workflowDef) (we_set_currentStep None execution)
            initialInput m
          = stepsLoop (drop n (wd_steps workflowDef))
              (we_set_currentStep None execution)
              (carriedInput n (we_steps execution) initialInput) m) as Hskip.
  { by apply (stepsLoop_skip_completed (wd_steps workflowDef)
                (we_set_currentStep None execution)). }
  split; [exact Hskip|]. split.
  { intros stepDef se r se' m' Hd Hse Hst Hrun execution'.
    rewrite Hskip, (drop_S _ _ _ Hd).
    destruct (mirrors_findStep _ _ _ _ Hmir Hd) as (s & Hs & Hfind).
    rewrite Hse in Hs. injection Hs as <-.
    exact (stepsLoop_run stepDef _ (we_set_currentStep None execution) _ m n se
             r se' m' Hfind Hst Hrun). }
  intros r execution' m' Hrun.
  pose proof Hrun as Hfull. pose proof Hrun as Hfull2. rewrite Hskip in Hrun.
  apply stepsLoop_frame in Hrun as (_ & _ & _ & _ & Hids & Hkeep & cs & Hcs & Hin).
  apply stepsLoop_frame in Hfull as (_ & Hwf & _ & Hdefs & _).
  simpl in Hids, Hkeep, Hwf. destruct Hmir as [Hm Hnd].
  split; [|split].
  - apply list_eq. intros j. rewrite !lookup_take. case_decide; [|done].
    destruct (lookup_lt_is_Some_2 (we_steps execution) j) as [s Hs].
    { rewrite <- (length_fmap se_stepId), Hm, length_fmap. lia. }
    rewrite Hs. apply Hkeep; [done|].
    apply ids_take_drop; [done|].
    rewrite fmap_take, <- Hm. apply (list_elem_of_lookup_2 _ j).
    rewrite lookup_take_lt by lia. by rewrite list_lookup_fmap, Hs.
  - exists cs. split; [done|]. eapply Forall_impl; [exact Hin|].
    intros c Hc. split; [done|]. intros Hc'.
    by apply (ids_take_drop _ n _ Hnd) in Hc'.
  - intros -> Hst input.
    rewrite (executeWorkflow_registered execution' _ _ workflowDef)
      by (rewrite Hdefs, Hwf; exact Hdef).
    destruct (stepsLoop_completed _ _ _ _ _ _ Hfull2 Hst) as [_ Hall].
    rewrite stepsLoop_passedOver by exact Hall.
    eexists _, _. split; [reflexivity|]. simpl. by rewrite Hst.
Qed.

(** *** Terminal executions, unknown ids, registries *)

Lemma signalWorkflow_terminal m execution executionId event data :
  we_status execution = WfCompleted \/ we_status execution = WfFailed ->
  getWorkflow executionId m = Some execution ->
  signalWorkflow executionId event data m = (Ok tt, m).
Proof.
  intros Hterminal Hget. unfold signalWorkflow. rewrite Hget.
  rewrite !bool_decide_eq_true_2 by (destruct Hterminal as [-> | ->]; done).
  reflexivity.
Qed.

(** C3 (as amended): for an execution stored as [completed] or [failed],
    [signalWorkflow] returns without changing anything of the process:
    the guard is in [signalWorkflow]. [executeWorkflow] has no guard of
    its own; on a [completed] execution whose step executions are all
    completed it changes neither the steps nor the status and runs no
    handler. *)
Theorem terminal_executions m execution :
  we_status execution = WfCompleted \/ we_status execution = WfFailed ->
  (forall executionId event data,
      getWorkflow executionId m = Some execution ->
      signalWorkflow executionId event data m = (Ok tt, m)) /\
  (we_status execution = WfCompleted ->
   Forall (fun s => se_status s = StepCompleted) (we_steps execution) ->
   forall input,
   exists execution' m',
     executeWorkflow execution input m = (Ok tt, execution', m') /\
     we_steps execution' = we_steps execution /\
     we_status execution' = we_status execution /\
     calls m' = calls m /\
     sleeps m' = sleeps m).
Proof.
  intros Hterminal. split.
  - intros executionId event data Hget.
    by apply (signalWorkflow_terminal m execution).
  - intros Hst Hall input.
    destruct (workflowDefinitions m !! we_workflowId execution)
      as [workflowDef|] eqn:Hdef.
    + rewrite (executeWorkflow_registered _ _ _ _ Hdef).
      rewrite stepsLoop_passedOver.
      * eexists _, _. split; [reflexivity|]. simpl. by rewrite Hst.
      * apply Forall_forall. intros d _. unfold passedOver. simpl.
        destruct (findStep (sd_id d) (we_steps execution)) as [[i s]|] eqn:E;
          [|done].
        apply findStep_Some in E as [Hi _].
        by apply (Forall_lookup_1 _ _ _ _ Hall Hi).
    + unfold executeWorkflow. rewrite Hdef. by eexists _, _.
Qed.

(** C6: [startWorkflow] on an id that is not registered throws
    "Workflow <id> not found" and leaves the process as it was, so no
    execution is created or stored; [signalWorkflow] on an id that is not
    stored returns, with the process as it was. *)
Theorem unknown_ids m workflowId initialInput executionId event data :
  workflowDefinitions m !! workflowId = None ->
  getWorkflow executionId m = None ->
  startWorkflow workflowId initialInput m
    = (Thrown ("Workflow " +:+ workflowId +:+ " not found"), m) /\
  signalWorkflow executionId event data m = (Ok tt, m).
Proof.
  intros Hdef Hget. unfold startWorkflow, signalWorkflow.
  by rewrite Hdef, Hget.
Qed.

Lemma set_stepDefinitions_id m :
  set_stepDefinitions (stepDefinitions m) m = m.
Proof. by destruct m. Qed.

Lemma set_workflowDefinitions_id m :
  set_workflowDefinitions (workflowDefinitions m) m = m.
Proof. by destruct m. Qed.

(** C7 (as amended): registering stores the definition under its id and
    leaves the other ids alone; it always returns. Registering another
    definition under an id already taken replaces the one stored: the
    last registration wins. Registering again a definition that is
    stored under its id changes nothing. This holds for both
    registries. *)
Theorem register_last_wins m :
  (forall step : StepDefinition Env,
      (registerStep step m).1 = Ok tt /\
      stepDefinitions (registerStep step m).2 !! sd_id step = Some step /\
      (forall id, id <> sd_id step ->
         stepDefinitions (registerStep step m).2 !! id = stepDefinitions m !! id) /\
      (forall other, sd_id other = sd_id step ->
         (registerStep other (registerStep step m).2).1 = Ok tt /\
         stepDefinitions (registerStep other (registerStep step m).2).2
           !! sd_id step = Some other) /\
      (stepDefinitions m !! sd_id step = Some step ->
         registerStep step m = (Ok tt, m))) /\
  (forall workflow : WorkflowDefinition Env,
      (registerWorkflow workflow m).1 = Ok tt /\
      workflowDefinitions (registerWorkflow workflow m).2 !! wd_id workflow
        = Some workflow /\
      (forall id, id <> wd_id workflow ->
         workflowDefinitions (registerWorkflow workflow m).2 !! id
         = workflowDefinitions m !! id) /\
      (forall other, wd_id other = wd_id workflow ->
         (registerWorkflow other (registerWorkflow workflow m).2).1 = Ok tt /\
         workflowDefinitions (registerWorkflow other (registerWorkflow workflow m).2).2
           !! wd_id workflow = Some other) /\
      (workflowDefinitions m !! wd_id workflow = Some workflow ->
         registerWorkflow workflow m = (Ok tt, m))).
Proof.
  split.
  - intros step. unfold registerStep. simpl.
    split; [done|]. split; [apply lookup_insert_eq|]. split; [|split].
    + intros id Hne. by rewrite lookup_insert_ne.
    + intros other Hid. split; [done|]. rewrite Hid. apply lookup_insert_eq.
    + intros Hin. rewrite insert_id by done. by rewrite set_stepDefinitions_id.
  - intros workflow. unfold registerWorkflow. simpl.
    split; [done|]. split; [apply lookup_insert_eq|]. split; [|split].
    + intros id Hne. by rewrite lookup_insert_ne.
    + intros other Hid. split; [done|]. rewrite Hid. apply lookup_insert_eq.
    + intros Hin. rewrite insert_id by done. by rewrite set_workflowDefinitions_id.
Qed.

(** *** Pause detection *)

Lemma findStep_head id (s : StepExecution) steps :
  se_stepId s = id -> findStep id (s :: steps) = Some (0%nat, s).
Proof. intros H. unfold findStep. simpl. by rewrite decide_True. Qed.

(** C10: an error message with the marker
    WORKFLOW_PAUSED_WAITING_FOR_SIGNAL anywhere in it, whatever precedes
    and follows the marker, is a pause request. In the retry executor, at
    any attempt, the step is left [running] with its error cleared, only
    the log entry of the pause is appended, nothing sleeps and the loop
    ends with that one invocation. Through [startWorkflow], a first step
    whose handler throws such a message leaves the execution [paused]
    and persisted, with the handler invoked once. Conversely only
    messages with the marker in them are pause requests. *)
Theorem pause_detection_by_substring pre post :
  let message := pre +:+ PAUSE_MARKER +:+ post in
  isPause message = true /\
  (forall other,
      isPause other = true <->
      exists pre' post', other = pre' +:+ PAUSE_MARKER +:+ post') /\
  (forall stepDef workflowId input maxA backoff remaining attempt lastError
          se m se1 m1,
      callHandler stepDef workflowId input maxA attempt se m
        = (Thrown message, se1, m1) ->
      exists se2 m2,
        attemptStep stepDef workflowId input maxA backoff attempt se m
          = (PauseRequested message, se2, m2) /\
        retryLoop stepDef workflowId input maxA backoff (S remaining)
          attempt lastError se m = (Thrown message, se2, m2) /\
        se_status se2 = StepRunning /\
        se_error se2 = None /\
        se_logs se2 = se_logs se1 ++ [pausedLog (now (clockReads m1))] /\
        calls m2 = calls m ++ [(sd_id stepDef, attempt)] /\
        sleeps m2 = sleeps m) /\
  (forall m workflowId workflowDef stepDef rest input,
      workflowDefinitions m !! workflowId = Some workflowDef ->
      wd_steps workflowDef = stepDef :: rest ->
      1 <= policyMaxAttempts stepDef ->
      alwaysThrows stepDef message ->
      exists execution m' se',
        startWorkflow workflowId input m = (Ok execution, m') /\
        we_status execution = WfPaused /\
        getWorkflow (we_id execution) m' = Some (storedWorkflow execution) /\
        we_steps execution = se' :: map pendingStep rest /\
        se_status se' = StepRunning /\
        se_error se' = None /\
        se_attempts se' = 1 /\
        calls m' = calls m ++ [(sd_id stepDef, 1)] /\
        sleeps m' = sleeps m).
Proof.
  intros message.
  assert (isPause message = true) as Hp.
  { unfold isPause, message. apply Str_includes_app. }
  split; [exact Hp|]. split; [intros other; apply Str_includes_spec|]. split.
  - intros stepDef workflowId input maxA backoff remaining attempt lastError
      se m se1 m1 Hc.
    destruct (retryLoop_pause_at _ _ _ _ backoff remaining _ lastError _ _ _ _ _ Hc Hp)
      as (se2 & m2 & Ha & Hloop & Hst & He & _ & Hl & Hcalls & Hsl).
    by exists se2, m2.
  - intros m workflowId workflowDef stepDef rest input Hdef Hsteps Hmax Hthrows.
    unfold startWorkflow. rewrite Hdef. unfold drawId, newDate. simpl.
    set (execution := mkWorkflowExecution (uuidv4 (idsDrawn m)) workflowId
                        WfRunning None (now (clockReads m)) None
                        (map pendingStep (wd_steps workflowDef))).
    set (m0 := saveWorkflow execution
                 (set_clockReads (S (clockReads m))
                    (set_idsDrawn (S (idsDrawn m)) m))).
    assert (workflowDefinitions m0 !! we_workflowId execution = Some workflowDef)
      as Hdef0 by exact Hdef.
    rewrite (executeWorkflow_registered _ _ _ _ Hdef0). rewrite Hsteps.
    assert (findStep (sd_id stepDef)
              (we_steps (we_set_currentStep None execution))
            = Some (0%nat, pendingStep stepDef)) as Hfind.
    { simpl. rewrite Hsteps. by apply findStep_head. }
    set (m1 := saveWorkflow
                 (we_set_currentStep (Some (sd_id stepDef))
                    (we_set_currentStep None execution)) m0).
    assert (exists se1 m2,
              callHandler stepDef (we_id execution) input
                (policyMaxAttempts stepDef) 1 (pendingStep stepDef) m1
              = (Thrown message, se1, m2)) as (se1 & m2 & Hc).
    { unfold callHandler. simpl. edestruct Hthrows as (se1 & m2 & Hrun).
      exists se1, m2. exact Hrun. }
    destruct (Z.to_nat (policyMaxAttempts stepDef)) as [|remaining] eqn:Hrem;
      [lia|].
    destruct (retryLoop_pause_at _ _ _ _ (policyBackoffMs stepDef) remaining _
                None _ _ _ _ _ Hc Hp)
      as (se2 & m3 & _ & Hloop & Hst & He & Hat & _ & Hcalls & Hsl).
    assert (executeStepWithRetry stepDef (pendingStep stepDef)
              (we_id (we_set_currentStep None execution)) input m1
            = (Thrown message, se2, m3)) as Hexec.
    { unfold executeStepWithRetry. rewrite Hrem. exact Hloop. }
    rewrite (stepsLoop_run _ rest _ _ _ _ _ _ _ _ Hfind ltac:(done) Hexec).
    rewrite Hp. simpl.
    eexists _, _, se2. split; [reflexivity|]. simpl.
    split; [done|]. split; [apply lookup_insert_eq|].
    split; [by rewrite Hsteps|].
    repeat split; try done.
Qed.

(** *** Signals *)

Lemma getProp_setProp_eq key v fields :
  Js.getProp key (Js.setProp key v fields) = v.
Proof.
  induction fields as [|[k x] fields IH]; simpl.
  - by rewrite String.eqb_refl.
  - destruct (String.eqb k key) eqn:E; simpl; by rewrite E.
Qed.

Lemma getProp_setProp_ne key key' v fields :
  key' <> key ->
  Js.getProp key' (Js.setProp key v fields) = Js.getProp key' fields.
Proof.
  intros Hne. induction fields as [|[k x] fields IH]; simpl.
  - destruct (String.eqb_spec key key'); [congruence|done].
  - destruct (String.eqb_spec k key) as [->|]; simpl.
    + destruct (String.eqb_spec key key'); [congruence|done].
    + destruct (String.eqb_spec k key'); done.
Qed.

Lemma getWorkflowState_setWorkflowState workflowId key value m :
  getWorkflowState workflowId key (setWorkflowState workflowId key value m) = value.
Proof.
  unfold getWorkflowState, setWorkflowState. simpl.
  by rewrite !lookup_insert_eq.
Qed.

Lemma truthyString_nonempty s : s <> "" -> truthyString (Some s) = Some s.
Proof. intros H. simpl. by destruct (String.eqb_spec s ""). Qed.

(** The machine on which [signalWorkflow] re-invokes the scheduler. *)
Lemma signalWorkflow_resume m executionId event data execution workflowDef currentStep :
  getWorkflow executionId m = Some execution ->
  we_status execution = WfRunning \/ we_status execution = WfPaused ->
  workflowDefinitions m !! we_workflowId execution = Some workflowDef ->
  we_currentStep execution = Some currentStep ->
  currentStep <> "" ->
  signalWorkflow executionId event data m
  = (let '(r, _, m') :=
       executeWorkflow
         (resetWaitingStep currentStep (we_set_status WfRunning execution))
         (resumeInputOf
            (lastCompletedStep (findIndex currentStep (wd_steps workflowDef))
               (we_steps execution)))
         (setWorkflowState executionId ("signal:" +:+ event)
            (signalValue data (now (clockReads m)))
            (set_clockReads (S (clockReads m)) m)) in
     (r, m')).
Proof.
  intros Hget Hst Hdef Hcur Hne. unfold signalWorkflow. rewrite Hget.
  assert (bool_decide (we_status execution <> WfRunning)
          && bool_decide (we_status execution <> WfPaused) = false) as ->.
  { destruct Hst as [-> | ->]; reflexivity. }
  unfold newDate. simpl. rewrite Hdef, Hcur.
  by rewrite (truthyString_nonempty _ Hne).
Qed.

(** Without a registered definition or a recorded current step the signal
    is stored and nothing else happens. *)
Lemma signalWorkflow_no_resume m executionId event data execution :
  getWorkflow executionId m = Some execution ->
  we_status execution = WfRunning \/ we_status execution = WfPaused ->
  workflowDefinitions m !! we_workflowId execution = None \/
  truthyString (we_currentStep execution) = None ->
  signalWorkflow executionId event data m
  = (Ok tt,
     setWorkflowState executionId ("signal:" +:+ event)
       (signalValue data (now (clockReads m)))
       (set_clockReads (S (clockReads m)) m)).
Proof.
  intros Hget Hst Hno. unfold signalWorkflow. rewrite Hget.
  assert (bool_decide (we_status execution <> WfRunning)
          && bool_decide (we_status execution <> WfPaused) = false) as ->.
  { destruct Hst as [-> | ->]; reflexivity. }
  unfold newDate. simpl.
  destruct Hno as [-> | ->]; [reflexivity|].
  by destruct (workflowDefinitions m !! we_workflowId execution).
Qed.

Lemma resetWaitingStep_found currentStep execution i waiting :
  findStep currentStep (we_steps execution) = Some (i, waiting) ->
  we_steps (resetWaitingStep currentStep execution)
  = <[i := se_set_error None (se_set_status StepPending waiting)]>
      (we_steps execution).
Proof. intros H. unfold resetWaitingStep. by rewrite H. Qed.

Lemma findIndex_Some id (defs : list (StepDefinition Env)) j :
  findIndex id defs = Some j ->
  exists d, defs !! j = Some d /\ sd_id d = id.
Proof.
  unfold findIndex. intros H.
  destruct (list_find _ defs) as [[i d]|] eqn:E; [|done].
  simpl in H. simplify_eq. apply list_find_Some in E as (E1 & E2 & _).
  by exists d.
Qed.

(** On resume, under the invariant of the data model and with the steps
    before the waiting one completed, the scheduler skips to the waiting
    step and enters it with the stored output of the step before it,
    whatever input [executeWorkflow] was called with. *)
Lemma resume_effective_input m execution workflowDef currentStep j :
  workflowDefinitions m !! we_workflowId execution = Some workflowDef ->
  mirrors (we_steps execution) (wd_steps workflowDef) ->
  findIndex currentStep (wd_steps workflowDef) = Some (S j) ->
  Forall (fun s => se_status s = StepCompleted) (take (S j) (we_steps execution)) ->
  exists prior waiting,
    lastCompletedStep (Some (S j)) (we_steps execution) = Some prior /\
    findStep currentStep (we_steps execution) = Some (S j, waiting) /\
    forall input,
      executeWorkflow
        (resetWaitingStep currentStep (we_set_status WfRunning execution)) input m
      = stepsLoop (drop (S j) (wd_steps workflowDef))
          (we_set_currentStep None
             (resetWaitingStep currentStep (we_set_status WfRunning execution)))
          (se_output prior) m.
Proof.
  intros Hdef Hmir Hidx Hdone.
  destruct (findIndex_Some _ _ _ Hidx) as (d & Hd & Hid).
  destruct (mirrors_findStep _ _ _ _ Hmir Hd) as (waiting & Hw & Hfind).
  rewrite Hid in Hfind.
  destruct (lookup_lt_is_Some_2 (we_steps execution) j) as [prior Hprior].
  { apply lookup_lt_Some in Hw. lia. }
  exists prior, waiting. split; [exact Hprior|]. split; [exact Hfind|].
  intros input. unfold resetWaitingStep. simpl. rewrite Hfind.
  set (waiting' := se_set_error None (se_set_status StepPending waiting)).
  rewrite (executeWorkflow_registered _ _ _ workflowDef) by exact Hdef.
  rewrite (stepsLoop_skip_completed _ _ _ _ (S j)).
  - f_equal. unfold carriedInput. simpl.
    rewrite list_lookup_insert_ne by lia. by rewrite Hprior.
  - destruct Hmir as [Hm Hnd]. split; [|done]. simpl.
    by rewrite (stepIds_insert _ _ waiting).
  - apply lookup_lt_Some in Hd. lia.
  - simpl. by rewrite take_insert_ge by lia.
Qed.

(** C5: [signalWorkflow] returns at once, changing nothing, when the
    execution is not stored or is stored as [completed] or [failed].
    When it is stored as [running] or [paused], the payload is written
    with a timestamp into the state of the execution under the key
    "signal:<event>": the value stored is the payload's properties with
    [timestamp] set to the instant read. Then, for a registered
    definition and a recorded current step, the call is the scheduler
    re-invoked on the execution with status [running] and the current
    step set back to [pending] with its error cleared, with the output of
    the step before the current one as input (the empty object when that
    output is falsy or there is no such step). Under the invariant of the
    data model the scheduler then enters the current step with exactly
    the stored output of the step before it. (Without a registered
    definition or a recorded current step there is nothing to resume: the
    signal is stored and the call returns.) *)
Theorem resume_contract m executionId event data :
  (getWorkflow executionId m = None ->
   signalWorkflow executionId event data m = (Ok tt, m)) /\
  forall execution,
    getWorkflow executionId m = Some execution ->
    (we_status execution = WfCompleted \/ we_status execution = WfFailed ->
     signalWorkflow executionId event data m = (Ok tt, m)) /\
    (we_status execution = WfRunning \/ we_status execution = WfPaused ->
     let t := now (clockReads m) in
     let m1 := setWorkflowState executionId ("signal:" +:+ event)
                 (signalValue data t) (set_clockReads (S (clockReads m)) m) in
     getWorkflowState executionId ("signal:" +:+ event) m1 = signalValue data t /\
     (exists fields,
         signalValue data t = VObj fields /\
         Js.getProp "timestamp" fields = VDate t /\
         forall key, key <> "timestamp" ->
                     Js.getProp key fields = Js.getProp key (Js.spread data)) /\
     sameEngine m m1 /\
     (workflowDefinitions m !! we_workflowId execution = None \/
      truthyString (we_currentStep execution) = None ->
      signalWorkflow executionId event data m = (Ok tt, m1)) /\
     forall workflowDef currentStep,
       workflowDefinitions m !! we_workflowId execution = Some workflowDef ->
       we_currentStep execution = Some currentStep ->
       currentStep <> "" ->
       let resumed :=
         resetWaitingStep currentStep (we_set_status WfRunning execution) in
       let prior :=
         lastCompletedStep (findIndex currentStep (wd_steps workflowDef))
           (we_steps execution) in
       signalWorkflow executionId event data m
       = (let '(r, _, m') := executeWorkflow resumed (resumeInputOf prior) m1 in
          (r, m')) /\
       we_status resumed = WfRunning /\
       (forall i waiting,
           findStep currentStep (we_steps execution) = Some (i, waiting) ->
           we_steps resumed
           = <[i := se_set_error None (se_set_status StepPending waiting)]>
               (we_steps execution)) /\
       (forall p, prior = Some p -> Js.truthy (se_output p) = true ->
                  resumeInputOf prior = se_output p) /\
       (forall j,
           mirrors (we_steps execution) (wd_steps workflowDef) ->
           findIndex currentStep (wd_steps workflowDef) = Some (S j) ->
           Forall (fun s => se_status s = StepCompleted)
             (take (S j) (we_steps execution)) ->
           exists p,
             prior = Some p /\
             executeWorkflow resumed (resumeInputOf prior) m1
             = stepsLoop (drop (S j) (wd_steps workflowDef))
                 (we_set_currentStep None resumed) (se_output p) m1)).
Proof.
  split.
  - intros Hget. unfold signalWorkflow. by rewrite Hget.
  - intros execution Hget. split.
    + intros Hterminal.
      by apply (signalWorkflow_terminal m execution).
    + intros Hst t m1. split; [apply getWorkflowState_setWorkflowState|].
      split.
      { eexists. split; [reflexivity|].
        split; [apply getProp_setProp_eq|].
        intros key Hne. by apply getProp_setProp_ne. }
      split; [repeat split|].
      split; [intros Hno; by apply (signalWorkflow_no_resume m _ _ _ execution)|].
      intros workflowDef currentStep Hdef Hcur Hne resumed prior.
      split; [by apply signalWorkflow_resume|].
      split.
      { unfold resumed, resetWaitingStep.
        by destruct (findStep currentStep _) as [[i w]|]. }
      split.
      { intros i waiting Hfind.
        exact (resetWaitingStep_found _ (we_set_status WfRunning execution)
                 _ _ Hfind). }
      split.
      { intros p -> Htruthy. unfold resumeInputOf, Js.or. by rewrite Htruthy. }
      intros j Hmir Hidx Hdone.
      destruct (resume_effective_input m1 execution workflowDef currentStep j
                  Hdef Hmir Hidx Hdone) as (p & waiting & Hp & _ & Hrun).
      exists p. unfold prior. rewrite Hidx. split; [exact Hp|]. apply Hrun.
Qed.

(** *** Terminal failure of a step *)

(** When the retry executor throws an ordinary error, the scheduler
    rethrows it: the status of the execution is not touched and nothing is
    stored after the record written before the step ran, which still shows
    the step as it was then. Marking the execution failed is left to the
    caller. *)
Lemma stepsLoop_terminal_failure stepDef defs execution input m i se message se' m' :
  findStep (sd_id stepDef) (we_steps execution) = Some (i, se) ->
  se_status se <> StepCompleted ->
  executeStepWithRetry stepDef se (we_id execution) input
    (saveWorkflow (we_set_currentStep (Some (sd_id stepDef)) execution) m)
    = (Thrown message, se', m') ->
  isPause message = false ->
  exists execution',
    stepsLoop (stepDef :: defs) execution input m = (Thrown message, execution', m') /\
    we_status execution' = we_status execution /\
    we_steps execution' = <[i := se']> (we_steps execution) /\
    se_status se' = StepFailed /\
    getWorkflow (we_id execution) m'
    = Some (storedWorkflow (we_set_currentStep (Some (sd_id stepDef)) execution)).
Proof.
  intros Hfind Hst He Hp.
  rewrite (stepsLoop_run _ defs _ _ _ _ _ _ _ _ Hfind Hst He). rewrite Hp.
  apply executeStepWithRetry_outcome in He as (_ & (_ & _ & Hw & _) & _ & Hr).
  rewrite Hp in Hr. destruct Hr as [Hfailed _].
  eexists. split; [reflexivity|]. simpl. repeat split; try done.
  unfold getWorkflow. rewrite Hw.
  apply (getWorkflow_saveWorkflow
           (we_set_currentStep (Some (sd_id stepDef)) execution)).
Qed.

(** On the start path the caller is the [catch] handler of
    [startWorkflow]: whenever [executeWorkflow] throws, the execution
    returned is [failed] and stored in that state. *)
Lemma startWorkflow_failure_recorded workflowId input m workflowDef :
  workflowDefinitions m !! workflowId = Some workflowDef ->
  let started :=
    mkWorkflowExecution (uuidv4 (idsDrawn m)) workflowId WfRunning None
      (now (clockReads m)) None (map pendingStep (wd_steps workflowDef)) in
  let m0 := saveWorkflow started
              (set_clockReads (S (clockReads m)) (set_idsDrawn (S (idsDrawn m)) m)) in
  forall message execution' m',
    executeWorkflow started input m0 = (Thrown message, execution', m') ->
    isPause message = false ->
    startWorkflow workflowId input m
    = (Ok (we_set_status WfFailed execution'),
       saveWorkflow (we_set_status WfFailed execution') m') /\
    getWorkflow (we_id execution')
      (saveWorkflow (we_set_status WfFailed execution') m')
    = Some (storedWorkflow (we_set_status WfFailed execution')).
Proof.
  intros Hdef started m0 message execution' m' Hrun Hp.
  unfold startWorkflow. rewrite Hdef. unfold drawId, newDate. simpl.
  fold started. fold m0. rewrite Hrun, Hp. simpl.
  split; [reflexivity|].
  apply (getWorkflow_saveWorkflow (we_set_status WfFailed execution')).
Qed.

(** ** Further properties of the engine *)

(** *** What the retry executor keeps *)

Lemma callHandler_logs stepDef workflowId input maxA attempt se m r se1 m1 :
  callHandler stepDef workflowId input maxA attempt se m = (r, se1, m1) ->
  exists entries, se_logs se1 = se_logs se ++ entries.
Proof.
  unfold callHandler. simpl. intros H.
  apply runHandler_frame in H as [[l ->] _]. simpl.
  eexists. rewrite <- app_assoc. reflexivity.
Qed.

Lemma attemptStep_logs stepDef workflowId input maxA backoff attempt se m a se2 m2 :
  attemptStep stepDef workflowId input maxA backoff attempt se m = (a, se2, m2) ->
  exists entries, se_logs se2 = se_logs se ++ entries.
Proof.
  unfold attemptStep. intros H.
  destruct (callHandler stepDef workflowId input maxA attempt se m)
    as [[r se1] m1] eqn:Hc.
  apply callHandler_logs in Hc as [l Hl].
  destruct r as [result|message]; [|destruct (isPause message)];
    simpl in H; simplify_eq; simpl; rewrite Hl, <- app_assoc; by eexists.
Qed.

(** The loop entered at [attempt]: the handler is invoked for the attempt
    numbers [attempt], [attempt + 1], ... in turn, [n] times in all. *)
Lemma retryLoop_trace stepDef workflowId input maxA backoff remaining attempt
    lastError se m r se' m' :
  retryLoop stepDef workflowId input maxA backoff remaining attempt lastError se m
    = (r, se', m') ->
  exists n : nat,
    (n <= remaining)%nat /\
    calls m' = calls m ++ map (pair (sd_id stepDef)) (seqZ attempt (Z.of_nat n)) /\
    (n = 0%nat -> se_attempts se' = se_attempts se) /\
    ((0 < n)%nat -> se_attempts se' = attempt + Z.of_nat n - 1) /\
    (exists entries, se_logs se' = se_logs se ++ entries) /\
    match r with
    | Ok _ => (0 < n)%nat
    | Thrown _ => se_output se' = se_output se
    end.
Proof.
  revert attempt lastError se m.
  induction remaining as [|remaining IH]; intros attempt lastError se m H;
    simpl in H.
  - simplify_eq. exists 0%nat. simpl. rewrite !app_nil_r.
    repeat split; try done; try lia. exists []. by rewrite app_nil_r.
  - destruct (attemptStep stepDef workflowId input maxA backoff attempt se m)
      as [[a se2] m2] eqn:Ha.
    pose proof (attemptStep_logs _ _ _ _ _ _ _ _ _ _ _ Ha) as [l2 Hl2].
    unfold attemptStep in Ha.
    destruct (callHandler stepDef workflowId input maxA attempt se m)
      as [[r1 se1] m1] eqn:Hc.
    destruct (callHandler_frame _ _ _ _ _ _ _ _ _ _ Hc)
      as ((_ & Hat & _ & _ & Hout & _) & _ & _ & Hc1).
    assert (se_attempts se2 = attempt /\ calls m2 = calls m ++ [(sd_id stepDef, attempt)]
            /\ match a with
               | Succeeded _ => True
               | _ => se_output se2 = se_output se
               end)
      as (Hat2 & Hc2 & Ho2).
    { destruct r1 as [result|message]; [|destruct (isPause message)];
        simpl in Ha; injection Ha as <- <- <-; simpl; repeat split; try done.
      destruct (attempt <? maxA); done. }
    assert (seqZ attempt (Z.of_nat 1) = [attempt]) as Hone.
    { rewrite (seqZ_cons attempt) by lia. simpl. by rewrite seqZ_nil by lia. }
    destruct a as [result|message|message];
      [injection H as <- <- <-|injection H as <- <- <-|].
    + exists 1%nat. rewrite Hone. simpl. split; [lia|]. split; [done|].
      split; [lia|]. split; [intros _; lia|]. split; [by eexists|lia].
    + exists 1%nat. rewrite Hone. simpl. split; [lia|]. split; [done|].
      split; [lia|]. split; [intros _; lia|]. split; [by eexists|done].
    + apply IH in H as (n & Hn & Hcalls & H0 & Hpos & [l3 Hl3] & Hr).
      exists (S n). split; [lia|]. split.
      { rewrite Hcalls, Hc2, <- app_assoc. f_equal.
        rewrite (seqZ_cons attempt) by lia. simpl. repeat f_equal; lia. }
      split; [lia|]. split.
      { intros _. destruct n as [|n]; [rewrite H0 by done; lia|].
        rewrite Hpos by lia. lia. }
      split; [exists (l2 ++ l3); by rewrite Hl3, Hl2, app_assoc|].
      destruct r as [result|msg]; [lia|].
      by rewrite Hr.
Qed.

(** X1: for a handler that returns or throws an [Error] at each
    invocation, in whatever order and with whatever effects,
    [executeStepWithRetry] keeps the step id, only appends to the logs,
    leaves the step [completed], [running] or [failed] (never [pending]
    or [retrying]), stores nothing, and has invoked the handler
    [n <= maxAttempts] times, for the attempt numbers 1 to [n];
    [attempts] is [n] when the handler was invoked and is left alone
    otherwise. The output is the result's when the call returns and is
    left alone when it throws. *)
Theorem executor_invariants stepDef se workflowId input m r se' m' :
  executeStepWithRetry stepDef se workflowId input m = (r, se', m') ->
  se_stepId se' = se_stepId se /\
  (exists entries, se_logs se' = se_logs se ++ entries) /\
  (se_status se' = StepCompleted \/ se_status se' = StepRunning \/
   se_status se' = StepFailed) /\
  workflows m' = workflows m /\
  (exists n : nat,
      (n <= Z.to_nat (policyMaxAttempts stepDef))%nat /\
      calls m' = calls m ++ map (pair (sd_id stepDef)) (seqZ 1 (Z.of_nat n)) /\
      (n = 0%nat -> se_attempts se' = se_attempts se) /\
      ((0 < n)%nat -> se_attempts se' = Z.of_nat n)) /\
  match r with
  | Ok result => se_status se' = StepCompleted /\ se_output se' = res_output result
  | Thrown _ => se_output se' = se_output se
  end.
Proof.
  intros H. pose proof H as H2.
  apply executeStepWithRetry_outcome in H as (Hid & (_ & _ & Hw & _) & _ & Hr).
  unfold executeStepWithRetry in H2.
  apply retryLoop_trace in H2 as (n & Hn & Hcalls & H0 & Hpos & Hlogs & Hout).
  split; [done|]. split; [done|]. split.
  { destruct r as [result|message]; [left; tauto|].
    destruct (isPause message); [right; left; tauto|right; right; tauto]. }
  split; [done|]. split.
  { exists n. split; [done|]. split; [done|]. split; [done|].
    intros Hlt. rewrite Hpos by done. lia. }
  destruct r as [result|message]; done.
Qed.

(** X2: a step that fails at one attempt and whose handler returns at the
    next ends [completed] with the result as output, and still carries
    the message of the failed attempt in [error]: a success does not clear
    the error. *)
Theorem success_keeps_error stepDef workflowId input maxA backoff remaining
    attempt lastError se m message se2 m2 result se3 m3 :
  attemptStep stepDef workflowId input maxA backoff attempt se m
    = (Failed message, se2, m2) ->
  callHandler stepDef workflowId input maxA (attempt + 1) se2 m2
    = (Ok result, se3, m3) ->
  exists se4 m4,
    retryLoop stepDef workflowId input maxA backoff (S (S remaining)) attempt
      lastError se m = (Ok result, se4, m4) /\
    se_status se4 = StepCompleted /\
    se_output se4 = res_output result /\
    se_attempts se4 = attempt + 1 /\
    se_error se4 = Some message.
Proof.
  intros Ha Hc.
  assert (se_error se2 = Some message) as He2.
  { unfold attemptStep in Ha.
    destruct (callHandler stepDef workflowId input maxA attempt se m)
      as [[r1 se1] m1].
    destruct r1 as [result'|message']; [by simplify_eq|].
    destruct (isPause message'); simpl in Ha; [by simplify_eq|].
    by injection Ha as <- <- <-. }
  destruct (callHandler_frame _ _ _ _ _ _ _ _ _ _ Hc)
    as ((_ & Hat & _ & He3 & _) & _).
  destruct (attemptStep_succeeded _ _ _ _ backoff _ _ _ _ _ _ Hc)
    as (se4 & m4 & Ha4 & Hst & Ho & _ & Hat4 & He4 & _).
  exists se4, m4. simpl. rewrite Ha. simpl. rewrite Ha4.
  repeat split; try done; congruence.
Qed.

(** X3: with a retry policy that allows no attempt ([maxAttempts] below
    1) the handler is never invoked: the step is marked [failed] with
    [completedAt] set and the generic error is thrown; [attempts], [error],
    the output and the logs stay as they were. *)
Theorem no_attempt_policy stepDef se workflowId input m :
  policyMaxAttempts stepDef < 1 ->
  exists se' m',
    executeStepWithRetry stepDef se workflowId input m
      = (Thrown "Step failed after all retries", se', m') /\
    se_status se' = StepFailed /\
    se_completedAt se' = Some (now (clockReads m)) /\
    se_attempts se' = se_attempts se /\
    se_error se' = se_error se /\
    se_output se' = se_output se /\
    se_logs se' = se_logs se /\
    calls m' = calls m /\
    sleeps m' = sleeps m.
Proof.
  intros Hmax. unfold executeStepWithRetry.
  replace (Z.to_nat (policyMaxAttempts stepDef)) with 0%nat by lia.
  eexists _, _. split; [reflexivity|]. by repeat split.
Qed.

(** *** How a call of the scheduler ends *)

Lemma findStep_insert_same id steps i se se' :
  findStep id steps = Some (i, se) ->
  se_stepId se' = se_stepId se ->
  findStep id (<[i := se']> steps) = Some (i, se').
Proof.
  intros Hfind Hid. destruct (findStep_Some _ _ _ _ Hfind) as [Hi _].
  rewrite (findStep_insert _ _ _ _ _ Hi Hid), Hfind. by rewrite decide_True.
Qed.

Lemma stepsLoop_ends defs execution input m r execution' m' :
  stepsLoop defs execution input m = (r, execution', m') ->
  endsWell defs execution r execution' m'.
Proof.
  revert execution input m.
  induction defs as [|d defs IH]; intros execution input m H.
  - simpl in H. simplify_eq. unfold endsWell. simpl.
    split; [|left; by repeat split]. apply lookup_insert_eq.
  - assert (forall e0 i0 m0,
              stepsLoop defs e0 i0 m0 = (r, execution', m') ->
              we_id e0 = we_id execution -> we_status e0 = we_status execution ->
              endsWell (d :: defs) execution r execution' m') as Hrest.
    { intros e0 i0 m0 H0 Eid Est. apply IH in H0. unfold endsWell in *.
      destruct r as [[]|message].
      - destruct H0 as [Hsaved Hcases]. split; [by rewrite <- Eid|].
        destruct Hcases as [Hc|(d' & i & s & Hin & Hrest')]; [by left|].
        right. exists d', i, s. split; [by right|done].
      - destruct H0 as (Hp & Hst & d' & i & s & Hin & Hrest').
        split; [done|]. split; [congruence|].
        exists d', i, s. split; [by right|done]. }
    destruct (findStep (sd_id d) (we_steps execution)) as [[i s]|] eqn:E.
    + destruct (decide (se_status s = StepCompleted)) as [Hs|Hs].
      * rewrite (stepsLoop_skip _ _ _ _ _ _ _ E Hs) in H. by apply (Hrest _ _ _ H).
      * destruct (executeStepWithRetry d s (we_id execution) input
                    (saveWorkflow (we_set_currentStep (Some (sd_id d)) execution) m))
          as [[r1 s'] m1] eqn:He.
        rewrite (stepsLoop_run _ defs _ _ _ _ _ _ _ _ E Hs He) in H.
        apply executeStepWithRetry_outcome in He as (Hid & _ & _ & Hr).
        pose proof (findStep_insert_same _ _ _ _ s' E Hid) as Hfind'.
        destruct r1 as [result|message].
        -- by apply (Hrest _ _ _ H).
        -- destruct (isPause message) eqn:Hp.
           ++ destruct Hr as (Hrun & Herr & _). simplify_eq. unfold endsWell.
              split; [apply lookup_insert_eq|]. right.
              exists d, i, s'. split; [by left|]. by repeat split.
           ++ destruct Hr as [Hfailed _]. simplify_eq. unfold endsWell.
              split; [done|]. split; [done|].
              exists d, i, s'. split; [by left|]. by repeat split.
    + rewrite (stepsLoop_missing _ _ _ _ _ E) in H. by apply (Hrest _ _ _ H).
Qed.

(** X4: how a call of [executeWorkflow] for a registered workflow ends,
    when the handlers return or throw an [Error]. When it returns, the
    execution is stored as the call leaves it, and it is either
    [completed], with no current step and [completedAt] set, or [paused]
    at a current step that is [running] with no error. When it throws,
    the message is never a pause request, the status is the one the call
    found, and the current step is [failed]. *)
Theorem execute_outcomes execution input m workflowDef r execution' m' :
  workflowDefinitions m !! we_workflowId execution = Some workflowDef ->
  executeWorkflow execution input m = (r, execution', m') ->
  endsWell (wd_steps workflowDef) execution r execution' m'.
Proof.
  intros Hdef H. rewrite (executeWorkflow_registered _ _ _ _ Hdef) in H.
  apply stepsLoop_ends in H. unfold endsWell in *. simpl in H. exact H.
Qed.

Lemma stepIds_pendingStep (defs : list (StepDefinition Env)) :
  se_stepId <$> map pendingStep defs = sd_id <$> defs.
Proof. induction defs as [|d defs IH]; [done|]. simpl. by f_equal. Qed.

(** X5: [startWorkflow] on a registered workflow always returns. The
    execution returned carries the identifier drawn and the workflow id,
    has one step execution per step definition, in order, is [completed],
    [paused] or [failed], and is stored in the state returned. *)
Theorem start_outcomes workflowId input m workflowDef :
  workflowDefinitions m !! workflowId = Some workflowDef ->
  exists execution m',
    startWorkflow workflowId input m = (Ok execution, m') /\
    we_id execution = uuidv4 (idsDrawn m) /\
    we_workflowId execution = workflowId /\
    se_stepId <$> we_steps execution = sd_id <$> wd_steps workflowDef /\
    (we_status execution = WfCompleted \/ we_status execution = WfPaused \/
     we_status execution = WfFailed) /\
    getWorkflow (we_id execution) m' = Some (storedWorkflow execution).
Proof.
  intros Hdef. unfold startWorkflow. rewrite Hdef. unfold drawId, newDate. simpl.
  set (started := mkWorkflowExecution (uuidv4 (idsDrawn m)) workflowId
                    WfRunning None (now (clockReads m)) None
                    (map pendingStep (wd_steps workflowDef))).
  set (m0 := saveWorkflow started
               (set_clockReads (S (clockReads m)) (set_idsDrawn (S (idsDrawn m)) m))).
  destruct (executeWorkflow started input m0) as [[r execution'] m'] eqn:Hrun.
  assert (workflowDefinitions m0 !! we_workflowId started = Some workflowDef)
    as Hdef0 by exact Hdef.
  pose proof (execute_outcomes _ _ _ _ _ _ _ Hdef0 Hrun) as Hends.
  rewrite (executeWorkflow_registered _ _ _ _ Hdef0) in Hrun.
  apply stepsLoop_frame in Hrun as (Hid & Hwf & _ & _ & Hids & _).
  simpl in Hid, Hwf, Hids.
  assert (se_stepId <$> we_steps execution' = sd_id <$> wd_steps workflowDef)
    as Hmirror.
  { rewrite Hids. apply stepIds_pendingStep. }
  unfold endsWell in Hends. destruct r as [[]|message].
  - destruct Hends as [Hsaved Hcases]. eexists _, _. split; [reflexivity|].
    split; [done|]. split; [done|]. split; [done|]. split.
    + destruct Hcases as [(-> & _)|(d & i & s & _ & -> & _)]; tauto.
    + unfold getWorkflow. by rewrite Hid.
  - destruct Hends as (Hp & _). rewrite Hp. simpl.
    eexists _, _. split; [reflexivity|]. simpl.
    split; [done|]. split; [done|]. split; [done|]. split; [tauto|].
    unfold getWorkflow. simpl. apply lookup_insert_eq.
Qed.

(** *** Other executions are left alone *)

Lemma othersUntouched_refl id m : othersUntouched id m m.
Proof. by repeat split. Qed.

Lemma othersUntouched_trans id m1 m2 m3 :
  othersUntouched id m1 m2 -> othersUntouched id m2 m3 -> othersUntouched id m1 m3.
Proof.
  intros (H1 & H2 & H3) (K1 & K2 & K3). split; [|split; congruence].
  intros other Hne. destruct (H1 other Hne), (K1 other Hne). split; congruence.
Qed.

Lemma othersUntouched_setWorkflowState id key value m :
  othersUntouched id m (setWorkflowState id key value m).
Proof.
  split; [|done]. intros other Hne. split; [done|].
  unfold setWorkflowState. simpl. by rewrite lookup_insert_ne.
Qed.

Lemma othersUntouched_saveWorkflow execution m :
  othersUntouched (we_id execution) m (saveWorkflow execution m).
Proof.
  split; [|done]. intros other Hne. split; [|done].
  unfold saveWorkflow. simpl. by rewrite lookup_insert_ne.
Qed.

(** The [setState] of a context writes to the state of the workflow the
    context was built for. *)
Lemma runHandler_others {A} workflowId (p : Prog Env A) se m r se' m' :
  runHandler workflowId p se m = (r, se', m') -> othersUntouched workflowId m m'.
Proof.
  revert se m. induction p as [a|msg|msg data k IH|key k IH|key v k IH|act k IH];
    intros se m H; simpl in H.
  - simplify_eq. apply othersUntouched_refl.
  - simplify_eq. apply othersUntouched_refl.
  - apply IH in H. eapply othersUntouched_trans; [|exact H]. by repeat split.
  - by apply IH in H.
  - apply IH in H. eapply othersUntouched_trans; [|exact H].
    apply othersUntouched_setWorkflowState.
  - apply IH in H. eapply othersUntouched_trans; [|exact H]. by repeat split.
Qed.

Lemma attemptStep_others stepDef workflowId input maxA backoff attempt se m a se2 m2 :
  attemptStep stepDef workflowId input maxA backoff attempt se m = (a, se2, m2) ->
  othersUntouched workflowId m m2.
Proof.
  unfold attemptStep, callHandler. simpl. intros H.
  destruct (runHandler workflowId _ _ _) as [[r se1] m1] eqn:Hrun.
  apply runHandler_others in Hrun.
  eapply othersUntouched_trans; [eapply othersUntouched_trans; [|exact Hrun]|].
  - by repeat split.
  - destruct r as [result|message]; [|destruct (isPause message)];
      simpl in H; simplify_eq; try by repeat split.
    destruct (attempt <? maxA); by repeat split.
Qed.

Lemma retryLoop_others stepDef workflowId input maxA backoff remaining attempt
    lastError se m r se' m' :
  retryLoop stepDef workflowId input maxA backoff remaining attempt lastError se m
    = (r, se', m') ->
  othersUntouched workflowId m m'.
Proof.
  revert attempt lastError se m.
  induction remaining as [|remaining IH]; intros attempt lastError se m H;
    simpl in H.
  - simplify_eq. by repeat split.
  - destruct (attemptStep stepDef workflowId input maxA backoff attempt se m)
      as [[a se2] m2] eqn:Ha.
    apply attemptStep_others in Ha.
    destruct a as [result|message|message]; simplify_eq; try done.
    apply IH in H. by eapply othersUntouched_trans.
Qed.

Lemma stepsLoop_others defs execution input m r execution' m' :
  stepsLoop defs execution input m = (r, execution', m') ->
  othersUntouched (we_id execution) m m'.
Proof.
  revert execution input m.
  induction defs as [|d defs IH]; intros execution input m H.
  - simpl in H. simplify_eq.
    eapply othersUntouched_trans;
      [|apply (othersUntouched_saveWorkflow
                 (completedAtInstant (now (clockReads m)) execution))].
    by repeat split.
  - destruct (findStep (sd_id d) (we_steps execution)) as [[i s]|] eqn:E.
    + destruct (decide (se_status s = StepCompleted)) as [Hs|Hs].
      * rewrite (stepsLoop_skip _ _ _ _ _ _ _ E Hs) in H. by apply IH in H.
      * destruct (executeStepWithRetry d s (we_id execution) input
                    (saveWorkflow (we_set_currentStep (Some (sd_id d)) execution) m))
          as [[r1 s'] m1] eqn:He.
        rewrite (stepsLoop_run _ defs _ _ _ _ _ _ _ _ E Hs He) in H.
        apply retryLoop_others in He.
        assert (othersUntouched (we_id execution) m m1) as Hm1.
        { eapply othersUntouched_trans; [|exact He].
          apply (othersUntouched_saveWorkflow
                   (we_set_currentStep (Some (sd_id d)) execution)). }
        destruct r1 as [result|message].
        -- apply IH in H. by eapply othersUntouched_trans.
        -- destruct (isPause message); simplify_eq; [|done].
           eapply othersUntouched_trans; [exact Hm1|].
           apply (othersUntouched_saveWorkflow
                    (we_set_status WfPaused
                       (we_set_steps (<[i:=s']> (we_steps execution))
                          (we_set_currentStep (Some (sd_id d)) execution)))).
    + rewrite (stepsLoop_missing _ _ _ _ _ E) in H. by apply IH in H.
Qed.

(** X6: a run of the engine for one execution leaves every other
    execution alone. [executeWorkflow] changes neither the stored record
    nor the per-workflow state of any id but the execution's own, and no
    registry; likewise [startWorkflow] for every id but the one it draws,
    and [signalWorkflow] for every id but the one signalled, when the
    record stored under that id carries it. *)
Theorem engine_isolation m :
  (forall execution input r execution' m',
      executeWorkflow execution input m = (r, execution', m') ->
      othersUntouched (we_id execution) m m') /\
  (forall workflowId input r m',
      startWorkflow workflowId input m = (r, m') ->
      othersUntouched (uuidv4 (idsDrawn m)) m m') /\
  (forall executionId event data execution r m',
      getWorkflow executionId m = Some execution ->
      we_id execution = executionId ->
      signalWorkflow executionId event data m = (r, m') ->
      othersUntouched executionId m m').
Proof.
  assert (forall execution input m0 r execution' m',
             executeWorkflow execution input m0 = (r, execution', m') ->
             othersUntouched (we_id execution) m0 m') as Hexec.
  { intros execution input m0 r execution' m' H. unfold executeWorkflow in H.
    destruct (workflowDefinitions m0 !! we_workflowId execution);
      [|simplify_eq; apply othersUntouched_refl].
    by apply stepsLoop_others in H. }
  split; [intros; by eapply Hexec|]. split.
  - intros workflowId input r m' H. unfold startWorkflow in H.
    destruct (workflowDefinitions m !! workflowId) as [workflowDef|];
      [|simplify_eq; apply othersUntouched_refl].
    unfold drawId, newDate in H. simpl in H.
    set (started := mkWorkflowExecution (uuidv4 (idsDrawn m)) workflowId
                      WfRunning None (now (clockReads m)) None
                      (map pendingStep (wd_steps workflowDef))) in *.
    set (m0 := saveWorkflow started
                 (set_clockReads (S (clockReads m))
                    (set_idsDrawn (S (idsDrawn m)) m))) in *.
    assert (othersUntouched (uuidv4 (idsDrawn m)) m m0) as H0.
    { eapply othersUntouched_trans; [|apply (othersUntouched_saveWorkflow started)].
      by repeat split. }
    destruct (executeWorkflow started input m0) as [[r1 execution'] m1] eqn:Hrun.
    pose proof (Hexec _ _ _ _ _ _ Hrun) as H1.
    assert (we_id execution' = uuidv4 (idsDrawn m)) as Hid.
    { unfold executeWorkflow in Hrun.
      destruct (workflowDefinitions m0 !! we_workflowId started);
        [|by simplify_eq].
      by apply stepsLoop_frame in Hrun as (Hid & _). }
    destruct r1 as [[]|message]; [|destruct (isPause message)];
      simpl in H; simplify_eq; try by eapply othersUntouched_trans.
    eapply othersUntouched_trans; [eapply othersUntouched_trans; [exact H0|exact H1]|].
    rewrite <- Hid.
    apply (othersUntouched_saveWorkflow (we_set_status WfFailed execution')).
  - intros executionId event data execution r m' Hget Hid H.
    unfold signalWorkflow in H. rewrite Hget in H.
    destruct (bool_decide (we_status execution <> WfRunning)
              && bool_decide (we_status execution <> WfPaused));
      [simplify_eq; apply othersUntouched_refl|].
    unfold newDate in H. simpl in H.
    set (m1 := setWorkflowState executionId ("signal:" +:+ event)
                 (signalValue data (now (clockReads m)))
                 (set_clockReads (S (clockReads m)) m)) in *.
    assert (othersUntouched executionId m m1) as H1.
    { eapply othersUntouched_trans; [|apply othersUntouched_setWorkflowState].
      by repeat split. }
    destruct (workflowDefinitions m !! we_workflowId execution) as [workflowDef|];
      [|by simplify_eq].
    destruct (truthyString (we_currentStep execution)) as [currentStep|];
      [|by simplify_eq].
    destruct (executeWorkflow _ _ m1) as [[r1 execution'] m2] eqn:Hrun.
    simplify_eq. apply Hexec in Hrun.
    assert (we_id (resetWaitingStep currentStep (we_set_status WfRunning execution))
            = we_id execution) as Hid'.
    { unfold resetWaitingStep. by destruct (findStep _ _) as [[i w]|]. }
    rewrite Hid' in Hrun. by eapply othersUntouched_trans.
Qed.

(** *** Retries are not visible in the store *)

Lemma settled_storedWorkflow execution :
  settled execution -> settled (storedWorkflow execution).
Proof.
  unfold settled. simpl. intros H.
  induction H as [|s steps Hs _ IH]; simpl; by constructor.
Qed.

Lemma storeSettled_saveWorkflow execution m :
  storeSettled m -> settled execution -> storeSettled (saveWorkflow execution m).
Proof.
  intros Hm He. unfold storeSettled, saveWorkflow. simpl.
  apply map_Forall_insert_2; [by apply settled_storedWorkflow|done].
Qed.

Lemma settled_insert execution i s' :
  settled execution -> se_status s' <> StepRetrying ->
  settled (we_set_steps (<[i := s']> (we_steps execution)) execution).
Proof. intros He Hs. unfold settled. simpl. by apply Forall_insert. Qed.

(** The scheduler saves between steps only, and the retry executor never
    leaves a step [retrying]. *)
Lemma stepsLoop_settled defs execution input m r execution' m' :
  storeSettled m -> settled execution ->
  stepsLoop defs execution input m = (r, execution', m') ->
  storeSettled m' /\ settled execution'.
Proof.
  revert execution input m.
  induction defs as [|d defs IH]; intros execution input m Hm He H.
  - simpl in H. simplify_eq. split; [|done].
    apply (storeSettled_saveWorkflow
             (completedAtInstant (now (clockReads m)) execution)); done.
  - destruct (findStep (sd_id d) (we_steps execution)) as [[i s]|] eqn:E.
    + destruct (decide (se_status s = StepCompleted)) as [Hs|Hs].
      * rewrite (stepsLoop_skip _ _ _ _ _ _ _ E Hs) in H. by eapply IH.
      * destruct (executeStepWithRetry d s (we_id execution) input
                    (saveWorkflow (we_set_currentStep (Some (sd_id d)) execution) m))
          as [[r1 s'] m1] eqn:He1.
        rewrite (stepsLoop_run _ defs _ _ _ _ _ _ _ _ E Hs He1) in H.
        apply executor_invariants in He1 as (_ & _ & Hst & Hw & _).
        assert (se_status s' <> StepRetrying) as Hs'.
        { destruct Hst as [-> | [-> | ->]]; discriminate. }
        assert (storeSettled m1) as Hm1.
        { unfold storeSettled. rewrite Hw.
          apply (storeSettled_saveWorkflow
                   (we_set_currentStep (Some (sd_id d)) execution)); done. }
        pose proof (settled_insert (we_set_currentStep (Some (sd_id d)) execution)
                      i s' He Hs') as He2.
        destruct r1 as [result|message].
        -- by eapply IH.
        -- destruct (isPause message); simplify_eq; [|done].
           split; [|done].
           by apply (storeSettled_saveWorkflow
                       (we_set_status WfPaused
                          (we_set_steps (<[i:=s']> (we_steps execution))
                             (we_set_currentStep (Some (sd_id d)) execution)))).
    + rewrite (stepsLoop_missing _ _ _ _ _ E) in H. by eapply IH.
Qed.

Lemma executeWorkflow_settled execution input m r execution' m' :
  storeSettled m -> settled execution ->
  executeWorkflow execution input m = (r, execution', m') ->
  storeSettled m' /\ settled execution'.
Proof.
  intros Hm He H. unfold executeWorkflow in H.
  destruct (workflowDefinitions m !! we_workflowId execution);
    [|by simplify_eq].
  eapply stepsLoop_settled; [exact Hm| |exact H]. exact He.
Qed.

(** X7: with handlers that return or throw an [Error], the store never
    shows a retry in progress. If no stored record has a step [retrying],
    then none has after [startWorkflow] or [signalWorkflow], however many
    attempts the steps took: the status [retrying] exists only in memory,
    between two saves. *)
Theorem retrying_never_stored m :
  storeSettled m ->
  (forall workflowId input r m',
      startWorkflow workflowId input m = (r, m') -> storeSettled m') /\
  (forall executionId event data r m',
      signalWorkflow executionId event data m = (r, m') -> storeSettled m').
Proof.
  intros Hm. split.
  - intros workflowId input r m' H. unfold startWorkflow in H.
    destruct (workflowDefinitions m !! workflowId) as [workflowDef|];
      [|by simplify_eq].
    unfold drawId, newDate in H. simpl in H.
    set (started := mkWorkflowExecution (uuidv4 (idsDrawn m)) workflowId
                      WfRunning None (now (clockReads m)) None
                      (map pendingStep (wd_steps workflowDef))) in *.
    assert (settled started) as Hs.
    { unfold settled. simpl. clear.
      induction (wd_steps workflowDef) as [|d l IH]; simpl; by constructor. }
    assert (storeSettled
              (saveWorkflow started
                 (set_clockReads (S (clockReads m))
                    (set_idsDrawn (S (idsDrawn m)) m)))) as H0.
    { by apply (storeSettled_saveWorkflow started). }
    destruct (executeWorkflow started input _) as [[r1 execution'] m1] eqn:Hrun.
    destruct (executeWorkflow_settled _ _ _ _ _ _ H0 Hs Hrun) as [Hm1 He1].
    destruct r1 as [[]|message]; [|destruct (isPause message)];
      simpl in H; simplify_eq; try done.
    by apply (storeSettled_saveWorkflow (we_set_status WfFailed execution')).
  - intros executionId event data r m' H. unfold signalWorkflow in H.
    destruct (getWorkflow executionId m) as [execution|] eqn:Hget;
      [|by simplify_eq].
    destruct (bool_decide (we_status execution <> WfRunning)
              && bool_decide (we_status execution <> WfPaused));
      [by simplify_eq|].
    unfold newDate in H. simpl in H.
    destruct (workflowDefinitions m !! we_workflowId execution) as [workflowDef|];
      [|by simplify_eq].
    destruct (truthyString (we_currentStep execution)) as [currentStep|];
      [|by simplify_eq].
    destruct (executeWorkflow _ _ _) as [[r1 execution'] m2] eqn:Hrun.
    simplify_eq.
    assert (settled execution) as He by exact (Hm executionId execution Hget).
    eapply executeWorkflow_settled in Hrun as [Hm2 _]; [done|done|].
    unfold resetWaitingStep.
    destruct (findStep currentStep _) as [[i w]|]; [|done].
    by apply (settled_insert (we_set_status WfRunning execution)).
Qed.

(** *** Output threading *)

Lemma executeStepWithRetry_computes stepDef f se workflowId input m :
  computes stepDef f ->
  exists result se' m',
    executeStepWithRetry stepDef se workflowId input m = (Ok result, se', m') /\
    res_output result = f input /\
    se_status se' = StepCompleted /\
    se_output se' = f input /\
    se_stepId se' = se_stepId se /\
    se_attempts se' = 1 /\
    calls m' = calls m ++ [(sd_id stepDef, 1)] /\
    sleeps m' = sleeps m.
Proof.
  intros [Hmax Hf]. unfold executeStepWithRetry.
  destruct (Z.to_nat (policyMaxAttempts stepDef)) as [|remaining] eqn:E; [lia|].
  assert (exists result se1 m1,
             callHandler stepDef workflowId input (policyMaxAttempts stepDef) 1 se m
             = (Ok result, se1, m1) /\ res_output result = f input)
    as (result & se1 & m1 & Hc & Hout).
  { unfold callHandler. simpl.
    edestruct Hf as (result & se1 & m1 & Hrun & Hout).
    exists result, se1, m1. split; [exact Hrun|exact Hout]. }
  destruct (callHandler_frame _ _ _ _ _ _ _ _ _ _ Hc)
    as ((Hid & Hat & _) & _ & Hsl & Hcalls).
  destruct (attemptStep_succeeded _ _ _ _ (policyBackoffMs stepDef) _ _ _ _ _ _ Hc)
    as (se2 & m2 & Ha & Hst & Ho & Hid2 & Hat2 & _ & _ & _ & Hsl2 & Hc2).
  exists result, se2, m2. simpl. rewrite Ha.
  repeat split; try done; congruence.
Qed.

Lemma stepsLoop_threaded rest fs :
  Forall2 computes rest fs ->
  forall defs k execution input m,
  mirrors (we_steps execution) defs ->
  drop k defs = rest ->
  (forall j s, (k <= j)%nat -> we_steps execution !! j = Some s ->
               se_status s <> StepCompleted) ->
  exists execution' m',
    stepsLoop rest execution input m = (Ok tt, execution', m') /\
    we_status execution' = WfCompleted /\
    we_currentStep execution' = None /\
    take k (we_steps execution') = take k (we_steps execution) /\
    se_output <$> drop k (we_steps execution') = threaded input fs /\
    Forall (fun s => se_status s = StepCompleted) (drop k (we_steps execution')) /\
    length (we_steps execution') = length (we_steps execution) /\
    calls m' = calls m ++ ((fun d => (sd_id d, 1)) <$> rest) /\
    sleeps m' = sleeps m.
Proof.
  induction 1 as [|d f rest fs Hd Hrest IH];
    intros defs k execution input m Hmir Hdrop Hpending.
  - eexists _, _. split; [reflexivity|]. simpl.
    assert (drop k (we_steps execution) = []) as ->.
    { apply drop_ge. destruct Hmir as [Hm _].
      rewrite <- (length_fmap se_stepId), Hm, length_fmap.
      apply (f_equal length) in Hdrop. rewrite length_drop in Hdrop.
      simpl in Hdrop. lia. }
    rewrite app_nil_r. by repeat split.
  - assert (defs !! k = Some d) as Hk.
    { rewrite <- (Nat.add_0_r k), <- lookup_drop, Hdrop. done. }
    assert (drop (S k) defs = rest) as Hdrop'.
    { rewrite (drop_S _ _ _ Hk) in Hdrop. by injection Hdrop. }
    destruct (mirrors_findStep _ _ _ _ Hmir Hk) as (s & Hs & Hfind).
    pose proof (Hpending k s ltac:(lia) Hs) as Hnot.
    destruct (executeStepWithRetry_computes d f s (we_id execution) input
                (saveWorkflow (we_set_currentStep (Some (sd_id d)) execution) m) Hd)
      as (result & s' & m1 & He & Hres & Hst & Hout & Hid & _ & Hcalls & Hsl).
    rewrite (stepsLoop_run _ rest _ _ _ _ _ _ _ _ Hfind Hnot He).
    set (execution2 := we_set_steps (<[k:=s']> (we_steps execution))
                         (we_set_currentStep (Some (sd_id d)) execution)).
    destruct (IH defs (S k) execution2 (res_output result) m1)
      as (execution' & m' & Hloop & Hc & Hcur & Htake & Houts & Hall & Hlen
          & Hcalls' & Hsl').
    { destruct Hmir as [Hm Hnd]. split; [|done]. simpl.
      by rewrite (stepIds_insert _ _ s). }
    { exact Hdrop'. }
    { intros j s0 Hj Hs0. simpl in Hs0.
      rewrite list_lookup_insert_ne in Hs0 by lia. apply (Hpending j); [lia|done]. }
    simpl in Htake, Hlen. rewrite length_insert in Hlen.
    assert (we_steps execution' !! k = Some s') as Hk'.
    { rewrite <- (lookup_take_lt _ (S k)) by lia. rewrite Htake.
      rewrite lookup_take_lt by lia. apply list_lookup_insert_eq.
      by apply lookup_lt_Some in Hs. }
    exists execution', m'. split; [exact Hloop|]. split; [done|]. split; [done|].
    split.
    { assert (forall l : list StepExecution, take k l = take k (take (S k) l)) as Ht.
      { intros l. rewrite take_take. f_equal. lia. }
      rewrite (Ht (we_steps execution')), Htake, <- Ht.
      apply take_insert_ge. lia. }
    split.
    { rewrite (drop_S _ _ _ Hk'), fmap_cons, Houts, Hout, Hres. reflexivity. }
    split; [rewrite (drop_S _ _ _ Hk'); by constructor|].
    split; [done|]. split.
    { rewrite Hcalls', Hcalls. simpl. by rewrite <- app_assoc. }
    rewrite Hsl', Hsl. reflexivity.
Qed.

(** X8: output threading. For a registered workflow with distinct step
    ids whose handlers all return, the handler of step [i] computing
    [f_i], [startWorkflow] runs every handler once, in order, without
    sleeping, and returns the execution [completed] and stored, every
    step [completed]; the output of step 1 is [f_1 input] and the output
    of each later step is its function applied to the output of the step
    before. A workflow without steps completes at once. *)
Theorem output_threading workflowId input m workflowDef fs :
  workflowDefinitions m !! workflowId = Some workflowDef ->
  NoDup (sd_id <$> wd_steps workflowDef) ->
  Forall2 computes (wd_steps workflowDef) fs ->
  exists execution m',
    startWorkflow workflowId input m = (Ok execution, m') /\
    we_status execution = WfCompleted /\
    we_currentStep execution = None /\
    Forall (fun s => se_status s = StepCompleted) (we_steps execution) /\
    se_stepId <$> we_steps execution = sd_id <$> wd_steps workflowDef /\
    se_output <$> we_steps execution = threaded input fs /\
    getWorkflow (we_id execution) m' = Some (storedWorkflow execution) /\
    calls m' = calls m ++ ((fun d => (sd_id d, 1)) <$> wd_steps workflowDef) /\
    sleeps m' = sleeps m.
Proof.
  intros Hdef Hnd Hfs.
  destruct (start_outcomes workflowId input m workflowDef Hdef)
    as (execution0 & m0' & Hstart0 & _ & _ & Hids & _ & Hstored).
  unfold startWorkflow in *. rewrite Hdef in *. unfold drawId, newDate in *.
  simpl in *.
  set (started := mkWorkflowExecution (uuidv4 (idsDrawn m)) workflowId
                    WfRunning None (now (clockReads m)) None
                    (map pendingStep (wd_steps workflowDef))) in *.
  set (m0 := saveWorkflow started
               (set_clockReads (S (clockReads m)) (set_idsDrawn (S (idsDrawn m)) m)))
    in *.
  assert (workflowDefinitions m0 !! we_workflowId started = Some workflowDef)
    as Hdef0 by exact Hdef.
  rewrite (executeWorkflow_registered _ _ _ _ Hdef0) in *.
  destruct (stepsLoop_threaded (wd_steps workflowDef) fs Hfs (wd_steps workflowDef)
              0%nat (we_set_currentStep None started) input m0)
    as (execution' & m' & Hloop & Hc & Hcur & _ & Houts & Hall & _ & Hcalls & Hsl).
  { by apply mirrors_pendingStep. }
  { apply drop_0. }
  { intros j s _ Hs. simpl in Hs.
    assert (se_status s = StepPending) as ->; [|discriminate].
    clear -Hs. revert j Hs.
    induction (wd_steps workflowDef) as [|d l IH]; intros [|j] Hs; simpl in Hs;
      try done; [by simplify_eq|by eapply IH]. }
  rewrite Hloop in *. simplify_eq.
  eexists _, _. split; [reflexivity|]. rewrite !drop_0 in *.
  by repeat split.
Qed.

(** *** The round trip through the store *)

Lemma toJSON_plain_bounded n :
  forall v y, (valueSize v <= n)%nat -> toJSON v = Some y ->
              isJSON y = true /\ toJSON y = Some y.
Proof.
  induction n as [|n IH]; intros v y Hsize Hv.
  - destruct v; simpl in Hsize; lia.
  - destruct v as [| |b|k|s|d|items|fields]; simpl in Hv; simplify_eq;
      try (split; reflexivity).
    + (* arrays *)
      simpl in Hsize. apply le_S_n in Hsize.
      induction items as [|x items IHitems]; [split; reflexivity|].
      destruct IHitems as [Hall Hfix]; [lia|].
      simpl in Hall, Hfix. injection Hfix as Hfix.
      destruct (toJSON x) as [y|] eqn:Hx.
      * destruct (IH x y ltac:(lia) Hx) as [Hy Hy']. split.
        -- simpl. by rewrite Hy, Hall.
        -- simpl. by rewrite Hy', Hfix.
      * split; simpl; [by rewrite Hall|by rewrite Hfix].
    + (* objects *)
      simpl in Hsize. apply le_S_n in Hsize.
      induction fields as [|[key x] fields IHfields]; [split; reflexivity|].
      destruct IHfields as [Hall Hfix]; [lia|].
      simpl in Hall, Hfix. injection Hfix as Hfix.
      destruct (toJSON x) as [y|] eqn:Hx.
      * destruct (IH x y ltac:(lia) Hx) as [Hy Hy']. split.
        -- simpl. by rewrite Hy, Hall.
        -- simpl. by rewrite Hy', Hfix.
      * split; simpl; [exact Hall|by rewrite Hfix].
Qed.

Lemma toJSON_plain v y :
  toJSON v = Some y -> isJSON y = true /\ toJSON y = Some y.
Proof. by apply (toJSON_plain_bounded (valueSize v)). Qed.

Lemma jsonClone_idemp v : jsonClone (jsonClone v) = jsonClone v.
Proof.
  unfold jsonClone. destruct (toJSON v) as [y|] eqn:Hv; [|reflexivity].
  apply toJSON_plain in Hv as [_ ->]. reflexivity.
Qed.

Lemma jsonClone_plain v :
  jsonClone v = VUndefined \/ isJSON (jsonClone v) = true.
Proof.
  unfold jsonClone. destruct (toJSON v) as [y|] eqn:Hv; [|by left].
  right. by apply toJSON_plain in Hv as [-> _].
Qed.

Lemma storedStep_idemp s : storedStep (storedStep s) = storedStep s.
Proof.
  unfold storedStep. simpl. f_equal; [apply jsonClone_idemp|].
  induction (se_logs s) as [|l logs IH]; [reflexivity|].
  simpl. f_equal; [|exact IH]. unfold storedLog. simpl.
  by rewrite jsonClone_idemp.
Qed.

Lemma truthyString_idemp x : truthyString (truthyString x) = truthyString x.
Proof.
  destruct x as [s|]; [|reflexivity]. simpl.
  destruct (String.eqb s "") eqn:E; [reflexivity|]. simpl. by rewrite E.
Qed.

Lemma storedWorkflow_idemp execution :
  storedWorkflow (storedWorkflow execution) = storedWorkflow execution.
Proof.
  unfold storedWorkflow. simpl. f_equal; [apply truthyString_idemp|].
  induction (we_steps execution) as [|s steps IH]; [reflexivity|].
  simpl. f_equal; [apply storedStep_idemp|exact IH].
Qed.

Lemma storedStep_field {B} (g : StepExecution -> B) steps :
  (forall s, g (storedStep s) = g s) ->
  g <$> map storedStep steps = g <$> steps.
Proof.
  intros Hg. induction steps as [|s steps IH]; [reflexivity|].
  change (map storedStep (s :: steps)) with (storedStep s :: map storedStep steps).
  rewrite !fmap_cons, Hg. by f_equal.
Qed.

Lemma storedLog_messages logs :
  log_message <$> map storedLog logs = log_message <$> logs.
Proof.
  induction logs as [|l logs IH]; [reflexivity|].
  change (map storedLog (l :: logs)) with (storedLog l :: map storedLog logs).
  rewrite !fmap_cons. by f_equal.
Qed.

(** X9: the round trip through the store. What [getWorkflow] returns
    after [saveWorkflow] is a fixed point of the round trip: saving it
    again leaves the store as it is. In that record every step output and
    every log datum is [undefined] or a plain JSON value (no [Date], no
    [undefined] inside), the current step is never the empty string, and
    the ids, statuses, attempts, errors and log messages are those
    saved. *)
Theorem store_round_trip execution m :
  exists stored,
    getWorkflow (we_id execution) (saveWorkflow execution m) = Some stored /\
    saveWorkflow stored (saveWorkflow execution m) = saveWorkflow execution m /\
    we_id stored = we_id execution /\
    we_status stored = we_status execution /\
    we_currentStep stored <> Some "" /\
    se_stepId <$> we_steps stored = se_stepId <$> we_steps execution /\
    se_status <$> we_steps stored = se_status <$> we_steps execution /\
    se_attempts <$> we_steps stored = se_attempts <$> we_steps execution /\
    se_error <$> we_steps stored = se_error <$> we_steps execution /\
    (fun s => log_message <$> se_logs s) <$> we_steps stored
      = (fun s => log_message <$> se_logs s) <$> we_steps execution /\
    Forall (fun s =>
              (se_output s = VUndefined \/ isJSON (se_output s) = true) /\
              Forall (fun l => log_data l = VUndefined \/ isJSON (log_data l) = true)
                (se_logs s))
      (we_steps stored).
Proof.
  exists (storedWorkflow execution).
  split; [apply getWorkflow_saveWorkflow|]. split.
  { unfold saveWorkflow. simpl. rewrite storedWorkflow_idemp.
    by rewrite insert_insert_eq. }
  split; [done|]. split; [done|]. split.
  { simpl. destruct (we_currentStep execution) as [s|]; [|done]. simpl.
    destruct (String.eqb_spec s ""); [done|congruence]. }
  simpl.
  split; [by apply storedStep_field|]. split; [by apply storedStep_field|].
  split; [by apply storedStep_field|]. split; [by apply storedStep_field|].
  split.
  { apply storedStep_field. intros s. apply storedLog_messages. }
  induction (we_steps execution) as [|s steps IH]; simpl; constructor; [|exact IH].
  simpl. split; [apply jsonClone_plain|].
  induction (se_logs s) as [|l logs IHl]; simpl; constructor; [|exact IHl].
  apply jsonClone_plain.
Qed.

(** *** Per-workflow state *)

Lemma getWorkflowState_setWorkflowState_ne workflowId key value workflowId' key' m :
  workflowId' <> workflowId \/ key' <> key ->
  getWorkflowState workflowId' key' (setWorkflowState workflowId key value m)
  = getWorkflowState workflowId' key' m.
Proof.
  intros Hne. unfold getWorkflowState, setWorkflowState. simpl.
  destruct (decide (workflowId' = workflowId)) as [->|Hw].
  - rewrite lookup_insert_eq. destruct Hne as [Hne|Hne]; [done|].
    rewrite lookup_insert_ne by done.
    by destruct (workflowState m !! workflowId).
  - by rewrite lookup_insert_ne.
Qed.

(** X10: the per-workflow state is a two-level map. A value set under a
    workflow id and a key is the value read there; setting it again
    replaces it; every other key and every other workflow id reads as
    before; and a key of a workflow that has no state yet reads
    [undefined]. *)
Theorem workflow_state_laws m workflowId key value :
  getWorkflowState workflowId key (setWorkflowState workflowId key value m) = value /\
  (forall value',
      setWorkflowState workflowId key value' (setWorkflowState workflowId key value m)
      = setWorkflowState workflowId key value' m) /\
  (forall workflowId' key',
      workflowId' <> workflowId \/ key' <> key ->
      getWorkflowState workflowId' key' (setWorkflowState workflowId key value m)
      = getWorkflowState workflowId' key' m) /\
  (workflowState m !! workflowId = None ->
   getWorkflowState workflowId key m = VUndefined).
Proof.
  split; [apply getWorkflowState_setWorkflowState|]. split; [|split].
  - intros value'. unfold setWorkflowState. simpl.
    rewrite lookup_insert_eq. simpl. by rewrite !insert_insert_eq.
  - intros workflowId' key' Hne. by apply getWorkflowState_setWorkflowState_ne.
  - intros Hnone. unfold getWorkflowState. by rewrite Hnone.
Qed.

(** *** Identifiers *)

Lemma toString16_digit v :
  0 <= v < 16 ->
  exists h, Uuid.toString16 v = String h EmptyString /\ h ∈ Uuid.hexDigits /\
            (8 <= v < 12 -> h ∈ Uuid.variantDigits).
Proof.
  intros Hv.
  assert (v = 0 \/ v = 1 \/ v = 2 \/ v = 3 \/ v = 4 \/ v = 5 \/ v = 6 \/ v = 7 \/
          v = 8 \/ v = 9 \/ v = 10 \/ v = 11 \/ v = 12 \/ v = 13 \/ v = 14 \/ v = 15)
    as Hcases by lia.
  unfold Uuid.hexDigits, Uuid.variantDigits.
  repeat (destruct Hcases as [->|Hcases]); try subst v;
    (eexists; split; [reflexivity|]; split;
     [repeat ((by left) || right)|intros ?; try lia; repeat ((by left) || right)]).
Qed.

Lemma variant_digit_range r : 0 <= r < 16 -> 8 <= Z.lor (Z.land r 3) 8 < 12.
Proof.
  intros Hr.
  assert (r = 0 \/ r = 1 \/ r = 2 \/ r = 3 \/ r = 4 \/ r = 5 \/ r = 6 \/ r = 7 \/
          r = 8 \/ r = 9 \/ r = 10 \/ r = 11 \/ r = 12 \/ r = 13 \/ r = 14 \/ r = 15)
    as Hcases by lia.
  repeat (destruct Hcases as [->|Hcases]); try subst r;
    vm_compute; split; (discriminate || reflexivity).
Qed.

Lemma replace_shape random template k :
  (forall i, 0 <= random i < 16) ->
  String.length (Uuid.replace template random k) = String.length template /\
  forall i c, String.get i template = Some c ->
              Uuid.fits c (String.get i (Uuid.replace template random k)).
Proof.
  intros Hr. revert k. induction template as [|c0 rest IH]; intros k.
  - split; [reflexivity|]. intros i c H. by destruct i.
  - simpl. destruct (Ascii.eqb c0 "x" || Ascii.eqb c0 "y") eqn:Hxy.
    + assert (0 <= Uuid.digit c0 (random k) < 16 /\
              (Ascii.eqb c0 "x" = false -> 8 <= Uuid.digit c0 (random k) < 12))
        as [Hd Hy].
      { unfold Uuid.digit. destruct (Ascii.eqb c0 "x"); [split; [apply Hr|done]|].
        pose proof (variant_digit_range _ (Hr k)). split; [lia|done]. }
      destruct (toString16_digit _ Hd) as (h & -> & Hh & Hv).
      destruct (IH (S k)) as [Hlen Hget].
      rewrite Str_append_cons, Str_append_nil. simpl. split; [by f_equal|].
      intros [|i] c H; simpl in *; [|by apply Hget].
      injection H as <-. unfold Uuid.fits.
      destruct (Ascii.eqb c0 "x") eqn:Hx; [by exists h|].
      simpl in Hxy. rewrite Hxy. exists h. split; [done|]. by apply Hv, Hy.
    + destruct (IH k) as [Hlen Hget]. simpl. split; [by f_equal|].
      intros [|i] c H; simpl in *; [|by apply Hget].
      injection H as <-. unfold Uuid.fits.
      apply orb_false_iff in Hxy as [-> ->]. done.
Qed.

(** X11: the identifier has the shape of its template when every draw is
    in 0..15: 36 characters, a hyphen at positions 8, 13, 18 and 23, the
    version digit 4 at position 14, one of 8, 9, a, b at position 19, and
    a lower-case hexadecimal digit everywhere else. *)
Theorem uuid_format random k :
  (forall i, 0 <= random i < 16) ->
  let id := Uuid.uuidv4 random k in
  String.length id = 36%nat /\
  (forall i c, String.get i Uuid.template = Some c -> Uuid.fits c (String.get i id)) /\
  String.get 8 id = Some "-"%char /\
  String.get 13 id = Some "-"%char /\
  String.get 18 id = Some "-"%char /\
  String.get 23 id = Some "-"%char /\
  String.get 14 id = Some "4"%char /\
  (exists h, String.get 19 id = Some h /\ h ∈ Uuid.variantDigits).
Proof.
  intros Hr id.
  destruct (replace_shape random Uuid.template k Hr) as [Hlen Hget].
  split; [exact Hlen|]. split; [exact Hget|].
  split; [exact (Hget 8%nat "-"%char eq_refl)|].
  split; [exact (Hget 13%nat "-"%char eq_refl)|].
  split; [exact (Hget 18%nat "-"%char eq_refl)|].
  split; [exact (Hget 23%nat "-"%char eq_refl)|].
  split; [exact (Hget 14%nat "4"%char eq_refl)|].
  exact (Hget 19%nat "y"%char eq_refl).
Qed.

(** *** The waiting step *)

Lemma retryLoop_pause_exact stepDef workflowId input maxA backoff remaining attempt
    lastError se m message se1 m1 :
  callHandler stepDef workflowId input maxA attempt se m
    = (Thrown message, se1, m1) ->
  isPause message = true ->
  retryLoop stepDef workflowId input maxA backoff (S remaining)
    attempt lastError se m
  = (Thrown message,
     se_set_logs (se_logs se1 ++ [pausedLog (now (clockReads m1))])
       (se_set_error None (se_set_status StepRunning se1)),
     set_clockReads (S (clockReads m1)) m1).
Proof.
  intros Hcall Hpause. cbn [retryLoop]. unfold attemptStep.
  rewrite Hcall, Hpause. reflexivity.
Qed.

Lemma retryLoop_success_exact stepDef workflowId input maxA backoff remaining attempt
    lastError se m result se1 m1 :
  callHandler stepDef workflowId input maxA attempt se m = (Ok result, se1, m1) ->
  retryLoop stepDef workflowId input maxA backoff (S remaining)
    attempt lastError se m
  = (Ok result,
     se_set_logs
       (se_logs se1 ++
        [mkLogEntry (now (S (clockReads m1))) "Step completed successfully"
           VUndefined])
       (se_set_output (res_output result)
          (se_set_completedAt (Some (now (clockReads m1)))
             (se_set_status StepCompleted se1))),
     set_clockReads (S (S (clockReads m1))) m1).
Proof.
  intros Hcall. cbn [retryLoop]. unfold attemptStep.
  rewrite Hcall. reflexivity.
Qed.

Lemma wait_handler_pauses clock destructureError workflowId context se m userId :
  JsValue.destructure "userId" (ctx_input context) = Some userId ->
  Js.truthy (getWorkflowState workflowId "signal:verified" m)
  && JsValue.strictEquals
       (JsValue.property "userId" (getWorkflowState workflowId "signal:verified" m))
       userId = false ->
  runHandler workflowId (waitForVerificationHandler clock destructureError context)
    se m
  = (Thrown "WORKFLOW_PAUSED_WAITING_FOR_SIGNAL:verified",
     se_set_logs
       (se_logs se ++
        [mkLogEntry (now (clockReads m)) "Checking for user verification"
           (VObj [("userId", userId)]);
         mkLogEntry (now (S (clockReads m)))
           "WORKFLOW_PAUSED_WAITING_FOR_SIGNAL: verified"
           (VObj [("userId", userId)])])
       se,
     setWorkflowState workflowId "waitingUserId" userId
       (setWorkflowState workflowId "waitingForVerification" (VBool true)
          (set_clockReads (S (S (clockReads m))) m))).
Proof.
  intros Hdes Hsig. unfold waitForVerificationHandler. rewrite Hdes.
  cbn [runHandler logStep newDate].
  change (getWorkflowState workflowId "signal:verified"
            (set_clockReads (S (clockReads m)) m))
    with (getWorkflowState workflowId "signal:verified" m).
  rewrite Hsig. cbn [runHandler logStep newDate].
  f_equal. f_equal. unfold se_set_logs. simpl. by rewrite <- app_assoc.
Qed.

Lemma wait_handler_proceeds clock destructureError workflowId context se m userId :
  JsValue.destructure "userId" (ctx_input context) = Some userId ->
  Js.truthy (getWorkflowState workflowId "signal:verified" m)
  && JsValue.strictEquals
       (JsValue.property "userId" (getWorkflowState workflowId "signal:verified" m))
       userId = true ->
  let timestamp :=
    JsValue.property "timestamp" (getWorkflowState workflowId "signal:verified" m) in
  runHandler workflowId (waitForVerificationHandler clock destructureError context)
    se m
  = (Ok (mkStepResult
           (VObj (Js.setProp "verifiedAt"
                    (if Js.truthy timestamp then timestamp else VDate (clock (env m)))
                    (Js.setProp "verified" (VBool true)
                       (Js.spread (ctx_input context)))))
           None),
     se_set_logs
       (se_logs se ++
        [mkLogEntry (now (clockReads m)) "Checking for user verification"
           (VObj [("userId", userId)]);
         mkLogEntry (now (S (clockReads m)))
           "Verification signal received, proceeding"
           (VObj [("userId", userId)])])
       se,
     set_clockReads (S (S (clockReads m))) m).
Proof.
  intros Hdes Hsig timestamp. unfold waitForVerificationHandler. rewrite Hdes.
  cbn [runHandler logStep newDate].
  change (getWorkflowState workflowId "signal:verified"
            (set_clockReads (S (clockReads m)) m))
    with (getWorkflowState workflowId "signal:verified" m).
  rewrite Hsig. cbn [runHandler logStep newDate]. fold timestamp.
  destruct (Js.truthy timestamp); cbn [runHandler].
  - f_equal. f_equal. unfold se_set_logs. simpl. by rewrite <- app_assoc.
  - f_equal. f_equal. unfold se_set_logs. simpl. by rewrite <- app_assoc.
Qed.

Lemma strictEquals_primitive a b :
  JsValue.primitive b = true ->
  JsValue.strictEquals a b = true <-> a = b.
Proof.
  intros Hb. destruct a, b; simpl in *; try discriminate; try (split; [done|congruence]).
  all: try (split; [discriminate|congruence]).
  - rewrite Bool.eqb_true_iff. split; congruence.
  - rewrite Z.eqb_eq. split; congruence.
  - rewrite String.eqb_eq. split; congruence.
Qed.

Lemma signal_mismatch signal userId :
  JsValue.primitive userId = true ->
  Js.truthy signal = false \/ JsValue.property "userId" signal <> userId ->
  Js.truthy signal && JsValue.strictEquals (JsValue.property "userId" signal) userId
  = false.
Proof.
  intros Hp [->|Hne]; [done|].
  apply andb_false_iff. right. apply not_true_is_false.
  by rewrite strictEquals_primitive.
Qed.

Lemma signal_match signal userId :
  JsValue.primitive userId = true ->
  Js.truthy signal = true ->
  JsValue.property "userId" signal = userId ->
  Js.truthy signal && JsValue.strictEquals (JsValue.property "userId" signal) userId
  = true.
Proof.
  intros Hp -> Heq. simpl. by apply strictEquals_primitive.
Qed.

Lemma wait_step_stalls clock destructureError se workflowId input m userId :
  JsValue.destructure "userId" input = Some userId ->
  let signal := getWorkflowState workflowId "signal:verified" m in
  Js.truthy signal && JsValue.strictEquals (JsValue.property "userId" signal) userId
  = false ->
  exists se' m',
    executeStepWithRetry (waitForVerificationStep clock destructureError) se
      workflowId input m
    = (Thrown "WORKFLOW_PAUSED_WAITING_FOR_SIGNAL:verified", se', m') /\
    se_status se' = StepRunning /\
    se_attempts se' = 1 /\
    se_error se' = None /\
    se_output se' = se_output se /\
    log_message <$> se_logs se'
    = (log_message <$> se_logs se) ++
      ["Attempt 1/3"; "Checking for user verification";
       "WORKFLOW_PAUSED_WAITING_FOR_SIGNAL: verified";
       "Workflow paused, waiting for signal"] /\
    calls m' = calls m ++ [("wait-for-verification", 1)] /\
    sleeps m' = sleeps m /\
    workflows m' = workflows m /\
    getWorkflowState workflowId "waitingForVerification" m' = VBool true /\
    getWorkflowState workflowId "waitingUserId" m' = userId /\
    getWorkflowState workflowId "signal:verified" m' = signal.
Proof.
  intros Hdes signal Hcond.
  unfold executeStepWithRetry.
  change (policyMaxAttempts _) with 3. change (policyBackoffMs _) with 1000.
  change (Z.to_nat 3) with 3%nat.
  erewrite retryLoop_pause_exact; cycle 1.
  { unfold callHandler. cbn [newDate logStep].
    eapply wait_handler_pauses; [exact Hdes|exact Hcond]. }
  { reflexivity. }
  eexists _, _. split; [reflexivity|].
  repeat split.
  - cbn [se_logs se_set_logs se_set_error se_set_status se_set_startedAt
         se_set_attempts].
    rewrite !fmap_app, <- !app_assoc. reflexivity.
  - match goal with
    | |- getWorkflowState _ _ (set_clockReads _ ?m0) = _ =>
        change (getWorkflowState workflowId "waitingForVerification" m0 = VBool true)
    end.
    rewrite getWorkflowState_setWorkflowState_ne by (by right).
    apply getWorkflowState_setWorkflowState.
  - match goal with
    | |- getWorkflowState _ _ (set_clockReads _ ?m0) = _ =>
        change (getWorkflowState workflowId "waitingUserId" m0 = userId)
    end.
    apply getWorkflowState_setWorkflowState.
  - match goal with
    | |- getWorkflowState _ _ (set_clockReads _ ?m0) = _ =>
        change (getWorkflowState workflowId "signal:verified" m0 = signal)
    end.
    rewrite !getWorkflowState_setWorkflowState_ne by (by right).
    reflexivity.
Qed.

(** X12: the waiting step run without a matching signal. When the state
    of the workflow holds no signal [verified], or one whose [userId]
    differs from the [userId] of the input (a primitive value), the retry
    executor calls the handler once and rethrows its pause request: the
    step stays [running] at attempt 1 with no error and its output
    untouched, four log entries are appended, nothing sleeps, the
    execution store is not written, and the state of the workflow now
    holds [waitingForVerification = true] and [waitingUserId], the
    signal entry being as before. *)
Theorem wait_step_pauses clock destructureError se workflowId input m userId :
  JsValue.destructure "userId" input = Some userId ->
  JsValue.primitive userId = true ->
  let signal := getWorkflowState workflowId "signal:verified" m in
  Js.truthy signal = false \/ JsValue.property "userId" signal <> userId ->
  exists se' m',
    executeStepWithRetry (waitForVerificationStep clock destructureError) se
      workflowId input m
    = (Thrown "WORKFLOW_PAUSED_WAITING_FOR_SIGNAL:verified", se', m') /\
    se_status se' = StepRunning /\
    se_attempts se' = 1 /\
    se_error se' = None /\
    se_output se' = se_output se /\
    log_message <$> se_logs se'
    = (log_message <$> se_logs se) ++
      ["Attempt 1/3"; "Checking for user verification";
       "WORKFLOW_PAUSED_WAITING_FOR_SIGNAL: verified";
       "Workflow paused, waiting for signal"] /\
    calls m' = calls m ++ [("wait-for-verification", 1)] /\
    sleeps m' = sleeps m /\
    workflows m' = workflows m /\
    getWorkflowState workflowId "waitingForVerification" m' = VBool true /\
    getWorkflowState workflowId "waitingUserId" m' = userId /\
    getWorkflowState workflowId "signal:verified" m' = signal.
Proof.
  intros Hdes Hprim signal Hsig.
  apply (wait_step_stalls clock destructureError se workflowId input m userId Hdes).
  by apply signal_mismatch.
Qed.

Lemma wait_step_run clock destructureError se workflowId input m userId :
  JsValue.destructure "userId" input = Some userId ->
  Js.truthy (getWorkflowState workflowId "signal:verified" m)
  && JsValue.strictEquals
       (JsValue.property "userId" (getWorkflowState workflowId "signal:verified" m))
       userId = true ->
  let timestamp :=
    JsValue.property "timestamp" (getWorkflowState workflowId "signal:verified" m) in
  let output :=
    VObj (Js.setProp "verifiedAt"
            (if Js.truthy timestamp then timestamp else VDate (clock (env m)))
            (Js.setProp "verified" (VBool true) (Js.spread input))) in
  exists se' m',
    executeStepWithRetry (waitForVerificationStep clock destructureError) se
      workflowId input m
    = (Ok (mkStepResult output None), se', m') /\
    se_stepId se' = se_stepId se /\
    se_status se' = StepCompleted /\
    se_output se' = output /\
    se_attempts se' = 1 /\
    se_error se' = se_error se /\
    log_message <$> se_logs se'
    = (log_message <$> se_logs se) ++
      ["Attempt 1/3"; "Checking for user verification";
       "Verification signal received, proceeding";
       "Step completed successfully"] /\
    calls m' = calls m ++ [("wait-for-verification", 1)] /\
    sleeps m' = sleeps m /\
    workflows m' = workflows m /\
    workflowState m' = workflowState m /\
    workflowDefinitions m' = workflowDefinitions m.
Proof.
  intros Hdes Hcond timestamp output.
  unfold executeStepWithRetry.
  change (policyMaxAttempts _) with 3. change (policyBackoffMs _) with 1000.
  change (Z.to_nat 3) with 3%nat.
  erewrite retryLoop_success_exact; cycle 1.
  { unfold callHandler. cbn [newDate logStep].
    eapply wait_handler_proceeds; [exact Hdes|exact Hcond]. }
  eexists _, _. split; [reflexivity|].
  repeat split.
  cbn [se_logs se_set_logs se_set_error se_set_status se_set_startedAt
       se_set_attempts se_set_output se_set_completedAt].
  rewrite !fmap_app, <- !app_assoc. reflexivity.
Qed.

(** X13: the waiting step run with a matching signal. When the state of
    the workflow holds a truthy signal [verified] whose [userId] is the
    [userId] of the input (a primitive value), the step completes at its
    first attempt. Its output is the input with [verified] set to [true]
    and [verifiedAt] set to the [timestamp] of the signal, or to the
    handler's own clock reading when that is falsy; every other property
    of the input is carried over. The state of the workflow and the
    execution store are not written, and nothing sleeps. *)
Theorem wait_step_proceeds clock destructureError se workflowId input m userId :
  JsValue.destructure "userId" input = Some userId ->
  JsValue.primitive userId = true ->
  let signal := getWorkflowState workflowId "signal:verified" m in
  Js.truthy signal = true ->
  JsValue.property "userId" signal = userId ->
  exists result se' m' fields,
    executeStepWithRetry (waitForVerificationStep clock destructureError) se
      workflowId input m
    = (Ok result, se', m') /\
    res_output result = VObj fields /\
    Js.getProp "verified" fields = VBool true /\
    Js.getProp "verifiedAt" fields
    = Js.or (JsValue.property "timestamp" signal) (VDate (clock (env m))) /\
    (forall key, key <> "verified" -> key <> "verifiedAt" ->
                 Js.getProp key fields = JsValue.property key input) /\
    se_status se' = StepCompleted /\
    se_output se' = VObj fields /\
    se_attempts se' = 1 /\
    log_message <$> se_logs se'
    = (log_message <$> se_logs se) ++
      ["Attempt 1/3"; "Checking for user verification";
       "Verification signal received, proceeding";
       "Step completed successfully"] /\
    calls m' = calls m ++ [("wait-for-verification", 1)] /\
    sleeps m' = sleeps m /\
    workflows m' = workflows m /\
    workflowState m' = workflowState m.
Proof.
  intros Hdes Hprim signal Htruthy Huser.
  pose proof (signal_match signal userId Hprim Htruthy Huser) as Hcond.
  destruct (wait_step_run clock destructureError se workflowId input m userId
              Hdes Hcond)
    as (se' & m' & Hrun & _ & Hst & Hout & Hatt & _ & Hlogs & Hcalls & Hsl & Hwf & Hws & _).
  eexists _, se', m', _. split; [exact Hrun|].
  split; [reflexivity|].
  split.
  { rewrite getProp_setProp_ne by done. apply getProp_setProp_eq. }
  split; [apply getProp_setProp_eq|].
  split.
  { intros key Hk1 Hk2. rewrite !getProp_setProp_ne by done. reflexivity. }
  done.
Qed.

Lemma findIndex_at (defs : list (StepDefinition Env)) j d :
  NoDup (sd_id <$> defs) ->
  defs !! j = Some d ->
  findIndex (sd_id d) defs = Some j.
Proof.
  intros Hnd Hd. unfold findIndex.
  destruct (list_find (fun s => sd_id s = sd_id d) defs) as [[i x]|] eqn:E.
  - apply list_find_Some in E as (Hi & Hid & _). simpl. f_equal.
    eapply (NoDup_lookup _ i j (sd_id d)); [exact Hnd| |].
    + by rewrite list_lookup_fmap, Hi, <- Hid.
    + by rewrite list_lookup_fmap, Hd.
  - apply list_find_None in E. rewrite Forall_forall in E.
    destruct (E d); [by eapply list_elem_of_lookup_2|done].
Qed.

Lemma resetWaitingStep_id currentStep execution :
  we_id (resetWaitingStep currentStep execution) = we_id execution /\
  we_status (resetWaitingStep currentStep execution) = we_status execution /\
  we_workflowId (resetWaitingStep currentStep execution) = we_workflowId execution.
Proof.
  unfold resetWaitingStep.
  by destruct (findStep currentStep (we_steps execution)) as [[i s]|].
Qed.

(** X14: the verification signal resumes a workflow parked at the waiting
    step. The execution is stored under its own id, running or paused,
    with [wait-for-verification] as its current step at a position after
    the first, every step before it completed, and the output of the
    step before it holding a primitive [userId]; the signal [verified]
    comes with data holding the same [userId] (what the verification
    endpoint sends). Then the waiting step is run once and completes;
    its output is the output of the step before it with [verified] set
    and [verifiedAt] set to the instant the signal was received; and the
    run goes on with the step definitions after it, with that output as
    their input. When the waiting step is the last one, the execution
    is stored as completed. *)
Theorem verification_resumes clock destructureError m executionId data execution
    workflowDef j prior userId :
  getWorkflow executionId m = Some execution ->
  we_id execution = executionId ->
  we_status execution = WfRunning \/ we_status execution = WfPaused ->
  workflowDefinitions m !! we_workflowId execution = Some workflowDef ->
  mirrors (we_steps execution) (wd_steps workflowDef) ->
  wd_steps workflowDef !! S j = Some (waitForVerificationStep clock destructureError) ->
  we_currentStep execution = Some "wait-for-verification" ->
  Forall (fun s => se_status s = StepCompleted) (take (S j) (we_steps execution)) ->
  we_steps execution !! j = Some prior ->
  JsValue.destructure "userId" (se_output prior) = Some userId ->
  JsValue.primitive userId = true ->
  Js.getProp "userId" (Js.spread data) = userId ->
  let output :=
    VObj (Js.setProp "verifiedAt" (VDate (now (clockReads m)))
            (Js.setProp "verified" (VBool true) (Js.spread (se_output prior)))) in
  exists waited resumed m1,
    signalWorkflow executionId "verified" data m
    = (let '(r, _, m') :=
         stepsLoop (drop (S (S j)) (wd_steps workflowDef)) resumed output m1 in
       (r, m')) /\
    we_steps resumed !! S j = Some waited /\
    se_status waited = StepCompleted /\
    se_output waited = output /\
    se_attempts waited = 1 /\
    (forall i, i <> S j -> we_steps resumed !! i = we_steps execution !! i) /\
    we_id resumed = executionId /\
    we_status resumed = WfRunning /\
    calls m1 = calls m ++ [("wait-for-verification", 1)] /\
    sleeps m1 = sleeps m /\
    (drop (S (S j)) (wd_steps workflowDef) = [] ->
     exists m' stored,
       signalWorkflow executionId "verified" data m = (Ok tt, m') /\
       getWorkflow executionId m' = Some stored /\
       we_status stored = WfCompleted /\
       we_currentStep stored = None /\
       Forall (fun s => se_status s = StepCompleted)
         (take (S (S j)) (we_steps stored))).
Proof.
  intros Hget Hid Hstatus Hdef Hmir Hwait Hcur Hdone Hprior Hdes Hprim Hdata output.
  set (waitStep := waitForVerificationStep clock destructureError) in *.
  assert (findIndex "wait-for-verification" (wd_steps workflowDef) = Some (S j))
    as Hidx.
  { destruct Hmir as [_ Hnd]. exact (findIndex_at _ _ waitStep Hnd Hwait). }
  rewrite (signalWorkflow_resume m executionId "verified" data execution workflowDef
             "wait-for-verification" Hget Hstatus Hdef Hcur) by done.
  set (t := now (clockReads m)) in *.
  set (m0 := setWorkflowState executionId ("signal:" +:+ "verified")
               (signalValue data t) (set_clockReads (S (clockReads m)) m)).
  destruct (resume_effective_input m0 execution workflowDef "wait-for-verification"
              j Hdef Hmir Hidx Hdone)
    as (prior' & waiting & Hprior' & Hfind & Hexec).
  simpl in Hprior'. rewrite Hprior in Hprior'. injection Hprior' as <-.
  rewrite Hidx, Hexec. clear Hexec.
  rewrite (drop_S _ _ _ Hwait).
  set (reset := se_set_error None (se_set_status StepPending waiting)).
  set (e0 := we_set_currentStep None
               (resetWaitingStep "wait-for-verification"
                  (we_set_status WfRunning execution))).
  assert (we_steps e0 = <[S j := reset]> (we_steps execution)) as Hsteps0.
  { unfold e0. simpl.
    by rewrite (resetWaitingStep_found _ (we_set_status WfRunning execution)
                  (S j) waiting). }
  assert (we_id e0 = executionId /\ we_status e0 = WfRunning) as [Hid0 Hst0].
  { unfold e0. simpl.
    destruct (resetWaitingStep_id "wait-for-verification"
                (we_set_status WfRunning execution)) as (-> & -> & _). done. }
  assert (findStep (sd_id waitStep) (we_steps e0) = Some (S j, reset)) as Hfind0.
  { rewrite Hsteps0. by apply (findStep_insert_same _ _ _ waiting). }
  set (m1 := saveWorkflow (we_set_currentStep (Some (sd_id waitStep)) e0) m0).
  assert (getWorkflowState (we_id e0) "signal:verified" m1 = signalValue data t)
    as Hsignal.
  { rewrite Hid0. apply (getWorkflowState_setWorkflowState executionId). }
  destruct (wait_step_run clock destructureError reset (we_id e0) (se_output prior)
              m1 userId Hdes)
    as (waited & m2 & Hrun & Hsid & Hwst & Hwout & Hwatt & _ & _ & Hcalls & Hsl
        & Hwf & _ & _).
  { rewrite Hsignal. apply signal_match; [exact Hprim|done|].
    unfold JsValue.property, signalValue. simpl Js.spread.
    by rewrite getProp_setProp_ne. }
  rewrite Hsignal in Hrun, Hwout.
  assert (JsValue.property "timestamp" (signalValue data t) = VDate t) as Hts.
  { unfold JsValue.property, signalValue. simpl Js.spread.
    apply getProp_setProp_eq. }
  rewrite Hts in Hrun, Hwout. simpl Js.truthy in Hrun, Hwout.
  cbv iota in Hrun, Hwout. fold output in Hrun, Hwout.
  rewrite (stepsLoop_run waitStep _ e0 (se_output prior) m0 (S j) reset _ waited m2
             Hfind0 ltac:(done) Hrun).
  cbn [res_output].
  set (resumed := we_set_steps (<[S j := waited]> (we_steps e0))
                    (we_set_currentStep (Some (sd_id waitStep)) e0)).
  assert (S j < length (we_steps execution))%nat as Hlen.
  { apply findStep_Some in Hfind as [Hw _]. by apply lookup_lt_Some in Hw. }
  assert (we_steps resumed !! S j = Some waited) as Hat.
  { change (we_steps resumed) with (<[S j := waited]> (we_steps e0)).
    rewrite Hsteps0. apply list_lookup_insert_eq. by rewrite length_insert. }
  assert (forall i, i <> S j -> we_steps resumed !! i = we_steps execution !! i)
    as Hother.
  { intros i Hi. change (we_steps resumed) with (<[S j := waited]> (we_steps e0)).
    rewrite Hsteps0. by rewrite !list_lookup_insert_ne. }
  exists waited, resumed, m2. split; [reflexivity|].
  split; [exact Hat|]. split; [exact Hwst|]. split; [exact Hwout|].
  split; [exact Hwatt|]. split; [exact Hother|].
  split; [exact Hid0|]. split; [exact Hst0|].
  split; [by rewrite Hcalls|]. split; [by rewrite Hsl|].
  intros Hnil. rewrite Hnil. cbn [stepsLoop newDate].
  eexists _, _. split; [reflexivity|].
  split.
  { unfold getWorkflow, saveWorkflow. simpl workflows.
    change (we_id (resetWaitingStep _ _)) with (we_id e0).
    rewrite Hid0. apply lookup_insert_eq. }
  split; [reflexivity|]. split; [reflexivity|].
  change (Forall (fun s => se_status s = StepCompleted)
            (take (S (S j)) (storedStep <$> we_steps resumed))).
  apply Forall_lookup. intros i s His.
  apply lookup_take_Some in His as [His Hi].
  rewrite list_lookup_fmap in His.
  destruct (decide (i = S j)) as [->|Hne].
  - rewrite Hat in His. simpl in His. injection His as <-. exact Hwst.
  - rewrite (Hother i Hne) in His.
    destruct (we_steps execution !! i) as [x|] eqn:Hx; [|done].
    simpl in His. injection His as <-. simpl.
    rewrite Forall_lookup in Hdone. apply (Hdone i x).
    apply lookup_take_Some. split; [exact Hx|lia].
Qed.

(** X15: a workflow parked at the waiting step as its first step is not
    resumed by a verification signal that names a user. No step precedes
    the waiting step, so the run resumes with the empty object as input,
    whatever the input of the workflow was: the handler finds no
    [userId], the [userId] of the signal differs from [undefined], and
    the handler asks for a pause again. The execution is stored as
    paused at the same step, and [waitingUserId] is [undefined]. *)
Theorem wait_first_stays_parked clock destructureError m executionId data execution
    workflowDef defs i waiting :
  getWorkflow executionId m = Some execution ->
  we_id execution = executionId ->
  we_status execution = WfRunning \/ we_status execution = WfPaused ->
  workflowDefinitions m !! we_workflowId execution = Some workflowDef ->
  wd_steps workflowDef = waitForVerificationStep clock destructureError :: defs ->
  we_currentStep execution = Some "wait-for-verification" ->
  findStep "wait-for-verification" (we_steps execution) = Some (i, waiting) ->
  Js.getProp "userId" (Js.spread data) <> VUndefined ->
  exists m' stored parked,
    signalWorkflow executionId "verified" data m = (Ok tt, m') /\
    getWorkflow executionId m' = Some stored /\
    we_status stored = WfPaused /\
    we_currentStep stored = Some "wait-for-verification" /\
    we_steps stored !! i = Some parked /\
    se_status parked = StepRunning /\
    se_attempts parked = 1 /\
    calls m' = calls m ++ [("wait-for-verification", 1)] /\
    getWorkflowState executionId "waitingUserId" m' = VUndefined.
Proof.
  intros Hget Hid Hstatus Hdef Hsteps Hcur Hfind Hdata.
  set (waitStep := waitForVerificationStep clock destructureError) in *.
  rewrite (signalWorkflow_resume m executionId "verified" data execution workflowDef
             "wait-for-verification" Hget Hstatus Hdef Hcur) by done.
  set (t := now (clockReads m)) in *.
  set (m0 := setWorkflowState executionId ("signal:" +:+ "verified")
               (signalValue data t) (set_clockReads (S (clockReads m)) m)).
  assert (findIndex "wait-for-verification" (wd_steps workflowDef) = Some 0%nat)
    as Hidx by (by rewrite Hsteps).
  rewrite Hidx. cbn [lastCompletedStep].
  change (resumeInputOf None) with (VObj []).
  rewrite (executeWorkflow_registered _ _ m0 workflowDef); cycle 1.
  { destruct (resetWaitingStep_id "wait-for-verification"
                (we_set_status WfRunning execution)) as (_ & _ & ->). exact Hdef. }
  rewrite Hsteps.
  set (reset := se_set_error None (se_set_status StepPending waiting)).
  set (e0 := we_set_currentStep None
               (resetWaitingStep "wait-for-verification"
                  (we_set_status WfRunning execution))).
  assert (we_steps e0 = <[i := reset]> (we_steps execution)) as Hsteps0.
  { unfold e0. simpl.
    by rewrite (resetWaitingStep_found _ (we_set_status WfRunning execution)
                  i waiting). }
  assert (we_id e0 = executionId) as Hid0.
  { unfold e0. simpl.
    destruct (resetWaitingStep_id "wait-for-verification"
                (we_set_status WfRunning execution)) as (-> & _). done. }
  assert (findStep (sd_id waitStep) (we_steps e0) = Some (i, reset)) as Hfind0.
  { rewrite Hsteps0. by apply (findStep_insert_same _ _ _ waiting). }
  set (m1 := saveWorkflow (we_set_currentStep (Some (sd_id waitStep)) e0) m0).
  assert (getWorkflowState (we_id e0) "signal:verified" m1 = signalValue data t)
    as Hsignal.
  { rewrite Hid0. apply (getWorkflowState_setWorkflowState executionId). }
  destruct (wait_step_stalls clock destructureError reset (we_id e0) (VObj []) m1
              VUndefined eq_refl)
    as (parked & m2 & Hrun & Hpst & Hpatt & _ & _ & _ & Hcalls & _ & _ & _
        & Hwaiting & _).
  { rewrite Hsignal. apply signal_mismatch; [done|]. right.
    unfold JsValue.property, signalValue. simpl Js.spread.
    by rewrite getProp_setProp_ne. }
  rewrite (stepsLoop_run waitStep _ e0 (VObj []) m0 i reset _ parked m2
             Hfind0 ltac:(done) Hrun).
  change (isPause "WORKFLOW_PAUSED_WAITING_FOR_SIGNAL:verified") with true.
  cbv iota.
  set (paused := we_set_status WfPaused _).
  exists (saveWorkflow paused m2), (storedWorkflow paused), (storedStep parked).
  split; [reflexivity|].
  split.
  { unfold getWorkflow.
    change (workflows (saveWorkflow paused m2))
      with (<[we_id e0 := storedWorkflow paused]> (workflows m2)).
    rewrite Hid0. apply lookup_insert_eq. }
  split; [reflexivity|]. split; [reflexivity|].
  split.
  { change (we_steps (storedWorkflow paused))
      with (storedStep <$> <[i := parked]> (we_steps e0)).
    rewrite list_lookup_fmap, list_lookup_insert_eq; [done|].
    rewrite Hsteps0, length_insert.
    apply findStep_Some in Hfind as [Hw _]. by apply lookup_lt_Some in Hw. }
  split; [exact Hpst|]. split; [exact Hpatt|].
  split; [exact Hcalls|].
  rewrite <- Hid0. exact Hwaiting.
Qed.

(** *** The steps on the user table *)

(** A handler that throws [message] whenever the outside world is in the
    state [e], and leaves it there: the retry executor on it. *)
Lemma retryLoop_fails_while (e : Env) stepDef workflowId input maxA backoff message :
  isPause message = false ->
  (forall attempt se m,
      env m = e ->
      exists se1 m1,
        callHandler stepDef workflowId input maxA attempt se m
          = (Thrown message, se1, m1) /\
        env m1 = e /\
        workflowState m1 = workflowState m) ->
  forall remaining attempt lastError se m,
    env m = e ->
    Z.of_nat (S remaining) = maxA - attempt + 1 ->
    exists se' m',
      retryLoop stepDef workflowId input maxA backoff (S remaining) attempt
        lastError se m = (Thrown message, se', m') /\
      se_status se' = StepFailed /\
      se_attempts se' = maxA /\
      se_error se' = Some message /\
      se_output se' = se_output se /\
      calls m' = calls m ++
        map (pair (sd_id stepDef)) (seqZ attempt (Z.of_nat (S remaining))) /\
      sleeps m' = sleeps m ++ map (Z.mul backoff) (seqZ attempt (Z.of_nat remaining)) /\
      env m' = e /\
      workflowState m' = workflowState m /\
      workflows m' = workflows m.
Proof.
  intros Hpause Hfail. induction remaining as [|remaining IH];
    intros attempt lastError se m He Hrem.
  - destruct (Hfail attempt se m He) as (se1 & m1 & Hcall & He1 & Hws1).
    destruct (callHandler_frame _ _ _ _ _ _ _ _ _ _ Hcall)
      as ((_ & Hat1 & _ & _ & Hout1 & _) & (_ & _ & Hwf1 & _) & Hsl1 & Hc1).
    rewrite (retryLoop_fail_exact _ _ _ _ _ _ _ _ _ _ _ _ _ Hcall Hpause).
    assert ((attempt <? maxA) = false) as -> by lia.
    cbn [retryLoop newDate]. eexists _, _. split; [reflexivity|]. simpl.
    rewrite app_nil_r.
    repeat split; try done; try lia.
  - destruct (Hfail attempt se m He) as (se1 & m1 & Hcall & He1 & Hws1).
    destruct (callHandler_frame _ _ _ _ _ _ _ _ _ _ Hcall)
      as ((_ & Hat1 & _ & _ & Hout1 & _) & (_ & _ & Hwf1 & _) & Hsl1 & Hc1).
    rewrite (retryLoop_fail_exact _ _ _ _ _ _ _ _ _ _ _ _ _ Hcall Hpause).
    assert ((attempt <? maxA) = true) as -> by lia.
    edestruct (IH (attempt + 1) (Some message)) as
      (se' & m' & Hloop & Hst & Hat & Herr & Hout & Hcalls & Hsl & He' & Hws & Hwf);
      [| |exists se', m'; split; [exact Hloop|]].
    + exact He1.
    + lia.
    + split; [exact Hst|]. split; [exact Hat|]. split; [exact Herr|].
      split; [by rewrite Hout|].
      split.
      { rewrite Hcalls. simpl calls. rewrite Hc1, <- app_assoc.
        rewrite (seqZ_cons attempt (Z.of_nat (S (S remaining)))) by lia.
        simpl. repeat f_equal; lia. }
      split.
      { rewrite Hsl. simpl sleeps. rewrite Hsl1, <- app_assoc.
        rewrite (seqZ_cons attempt (Z.of_nat (S remaining))) by lia.
        simpl. repeat f_equal; lia. }
      split; [exact He'|]. split; [by rewrite Hws|]. by rewrite Hwf.
Qed.

(** The retry executor on a step with the policy of the two user steps
    (3 attempts, 500 ms) whose handler rejects its input with [message]
    while the outside world stays as it is. *)
Lemma executor_rejects stepDef se workflowId input m message :
  sd_retryPolicy stepDef = Some (mkRetryPolicy (Some 3) (Some 500)) ->
  (forall attempt se0 m0,
      env m0 = env m ->
      exists se1 m1,
        callHandler stepDef workflowId input 3 attempt se0 m0
          = (Thrown message, se1, m1) /\
        env m1 = env m /\
        workflowState m1 = workflowState m0) ->
  exists se' m',
    executeStepWithRetry stepDef se workflowId input m = (Thrown message, se', m') /\
    env m' = env m /\
    workflowState m' = workflowState m /\
    workflows m' = workflows m /\
    se_output se' = se_output se /\
    if isPause message then
      se_status se' = StepRunning /\
      se_attempts se' = 1 /\
      se_error se' = None /\
      calls m' = calls m ++ [(sd_id stepDef, 1)] /\
      sleeps m' = sleeps m
    else
      se_status se' = StepFailed /\
      se_attempts se' = 3 /\
      se_error se' = Some message /\
      calls m' = calls m ++ [(sd_id stepDef, 1); (sd_id stepDef, 2); (sd_id stepDef, 3)] /\
      sleeps m' = sleeps m ++ [500; 1000].
Proof.
  intros Hpolicy Hfail.
  assert (policyMaxAttempts stepDef = 3) as Hmax
    by (unfold policyMaxAttempts; by rewrite Hpolicy).
  assert (policyBackoffMs stepDef = 500) as Hbackoff
    by (unfold policyBackoffMs; by rewrite Hpolicy).
  unfold executeStepWithRetry. rewrite Hmax, Hbackoff.
  change (Z.to_nat 3) with 3%nat.
  destruct (isPause message) eqn:Hpause.
  - destruct (Hfail 1 se m eq_refl) as (se1 & m1 & Hcall & He1 & Hws1).
    destruct (callHandler_frame _ _ _ _ _ _ _ _ _ _ Hcall)
      as ((_ & Hat1 & _ & _ & Hout1 & _) & (_ & _ & Hwf1 & _) & Hsl1 & Hc1).
    rewrite (retryLoop_pause_exact _ _ _ _ _ _ _ _ _ _ _ _ _ Hcall Hpause).
    eexists _, _. split; [reflexivity|]. simpl. by repeat split.
  - destruct (retryLoop_fails_while (env m) stepDef workflowId input 3 500 message
                Hpause Hfail 2%nat 1 None se m eq_refl ltac:(lia))
      as (se' & m' & Hloop & Hst & Hat & Herr & Hout & Hcalls & Hsl & He' & Hws & Hwf).
    exists se', m'. by repeat split.
Qed.

Section UserStepProperties.

Context `{UserDatabase Env}.

Variable clock : Env -> Date.
Variable randomId : Env -> string * Env.
Variable display : Value -> string.
Variable destructureError : Value -> string.

Lemma createUser_rejects_missing workflowId input email name :
  JsValue.destructure "email" input = Some email ->
  JsValue.destructure "name" input = Some name ->
  Js.truthy email = false \/ Js.truthy name = false ->
  forall attempt se m,
  exists se1 m1,
    callHandler (createUserStep clock randomId display destructureError)
      workflowId input 3 attempt se m
    = (Thrown "Email and name are required", se1, m1) /\
    env m1 = env m /\
    workflowState m1 = workflowState m.
Proof.
  intros Hemail Hname Hfalsy attempt se m.
  unfold callHandler. cbn [newDate logStep sd_handler createUserStep].
  unfold createUserHandler. cbn [ctx_input]. rewrite Hemail, Hname.
  cbn [runHandler logStep newDate].
  assert (negb (Js.truthy email) || negb (Js.truthy name) = true) as ->.
  { destruct Hfalsy as [-> | ->]; [done|]. apply orb_true_r. }
  cbn [runHandler]. by eexists _, _.
Qed.

Lemma createUser_rejects_duplicate workflowId input email name e :
  JsValue.destructure "email" input = Some email ->
  JsValue.destructure "name" input = Some name ->
  Js.truthy email = true ->
  Js.truthy name = true ->
  getUserByEmail email e = Ok true ->
  forall attempt se m,
  env m = e ->
  exists se1 m1,
    callHandler (createUserStep clock randomId display destructureError)
      workflowId input 3 attempt se m
    = (Thrown ("User with email " +:+ display email +:+ " already exists"),
       se1, m1) /\
    env m1 = e /\
    workflowState m1 = workflowState m.
Proof.
  intros Hemail Hname Hte Htn Hfound attempt se m He.
  unfold callHandler. cbn [newDate logStep sd_handler createUserStep].
  unfold createUserHandler. cbn [ctx_input]. rewrite Hemail, Hname, Hte, Htn.
  cbn [negb orb runHandler logStep newDate env set_calls set_clockReads].
  rewrite He, Hfound. cbn [runHandler]. by eexists _, _.
Qed.

Lemma finalizeUser_rejects_missing workflowId input userId riskDecision verifiedAt e :
  JsValue.destructure "userId" input = Some userId ->
  JsValue.destructure "riskDecision" input = Some riskDecision ->
  JsValue.destructure "verifiedAt" input = Some verifiedAt ->
  getUser userId e = Ok false ->
  forall attempt se m,
  env m = e ->
  exists se1 m1,
    callHandler (finalizeUserStep clock display destructureError)
      workflowId input 3 attempt se m
    = (Thrown ("User " +:+ display userId +:+ " not found"), se1, m1) /\
    env m1 = e /\
    workflowState m1 = workflowState m.
Proof.
  intros Huser Hrisk Hverified Hmissing attempt se m He.
  unfold callHandler. cbn [newDate logStep sd_handler finalizeUserStep].
  unfold finalizeUserHandler. cbn [ctx_input]. rewrite Huser, Hrisk, Hverified.
  cbn [runHandler logStep newDate env set_calls set_clockReads].
  rewrite He, Hmissing. cbn [runHandler]. by eexists _, _.
Qed.

Lemma isPause_embedded pre text post :
  Str.includes text PAUSE_MARKER = true ->
  isPause (pre +:+ text +:+ post) = true.
Proof.
  intros Hin. apply Str_includes_spec in Hin as (a & b & ->).
  unfold isPause. apply Str_includes_spec.
  exists (pre +:+ a), (b +:+ post).
  induction pre as [|c pre IH]; simpl.
  - rewrite !Str_append_nil.
    induction a as [|c a IHa]; simpl.
    + rewrite !Str_append_nil.
      generalize PAUSE_MARKER. intros k. induction k as [|c k IHk]; simpl.
      * by rewrite !Str_append_nil.
      * rewrite !Str_append_cons. by f_equal.
    + rewrite !Str_append_cons. by f_equal.
  - rewrite !Str_append_cons. by f_equal.
Qed.

(** X16: the step [create-user] on an input without a truthy [email] or
    a truthy [name]. Every attempt throws "Email and name are required"
    before the user table is consulted: the retry executor makes its
    three attempts, sleeping 500 and 1000 ms between them, and leaves the
    step [failed] with that error, at attempt 3; the outside world, the
    state of the workflow and the execution store are as before. *)
Theorem create_user_requires_email_and_name se workflowId input m email name :
  JsValue.destructure "email" input = Some email ->
  JsValue.destructure "name" input = Some name ->
  Js.truthy email = false \/ Js.truthy name = false ->
  exists se' m',
    executeStepWithRetry (createUserStep clock randomId display destructureError)
      se workflowId input m
    = (Thrown "Email and name are required", se', m') /\
    se_status se' = StepFailed /\
    se_attempts se' = 3 /\
    se_error se' = Some "Email and name are required" /\
    se_output se' = se_output se /\
    calls m' = calls m ++ [("create-user", 1); ("create-user", 2); ("create-user", 3)] /\
    sleeps m' = sleeps m ++ [500; 1000] /\
    env m' = env m /\
    workflowState m' = workflowState m /\
    workflows m' = workflows m.
Proof.
  intros Hemail Hname Hfalsy.
  destruct (executor_rejects (createUserStep clock randomId display destructureError)
              se workflowId input m "Email and name are required" eq_refl)
    as (se' & m' & Hrun & He & Hws & Hwf & Hout & Hrest).
  { intros attempt se0 m0 He0. rewrite <- He0.
    by apply (createUser_rejects_missing workflowId input email name). }
  change (isPause "Email and name are required") with false in Hrest.
  destruct Hrest as (Hst & Hat & Herr & Hcalls & Hsl).
  exists se', m'. by repeat split.
Qed.

(** X17: a signup without a truthy [email] or [name]. For a registered
    workflow whose first step is [create-user], [startWorkflow] returns
    an execution that is [failed] and stored, with [create-user] as its
    current step, [failed] after three attempts, and every later step
    still [pending]: no other handler ran, and the outside world is as
    before. *)
Theorem signup_without_email_or_name workflowId input m workflowDef defs email name :
  workflowDefinitions m !! workflowId = Some workflowDef ->
  wd_steps workflowDef
  = createUserStep clock randomId display destructureError :: defs ->
  JsValue.destructure "email" input = Some email ->
  JsValue.destructure "name" input = Some name ->
  Js.truthy email = false \/ Js.truthy name = false ->
  exists execution m' created,
    startWorkflow workflowId input m = (Ok execution, m') /\
    we_status execution = WfFailed /\
    we_currentStep execution = Some "create-user" /\
    we_steps execution = created :: map pendingStep defs /\
    se_status created = StepFailed /\
    se_attempts created = 3 /\
    se_error created = Some "Email and name are required" /\
    getWorkflow (we_id execution) m' = Some (storedWorkflow execution) /\
    calls m' = calls m ++ [("create-user", 1); ("create-user", 2); ("create-user", 3)] /\
    sleeps m' = sleeps m ++ [500; 1000] /\
    env m' = env m.
Proof.
  intros Hdef Hsteps Hemail Hname Hfalsy.
  set (createStep := createUserStep clock randomId display destructureError) in *.
  set (started :=
         mkWorkflowExecution (uuidv4 (idsDrawn m)) workflowId WfRunning None
           (now (clockReads m)) None (map pendingStep (wd_steps workflowDef))).
  set (m0 := saveWorkflow started
               (set_clockReads (S (clockReads m)) (set_idsDrawn (S (idsDrawn m)) m))).
  set (e0 := we_set_currentStep None started).
  set (m1 := saveWorkflow (we_set_currentStep (Some (sd_id createStep)) e0) m0).
  destruct (executor_rejects createStep (pendingStep createStep) (we_id e0) input m1
              "Email and name are required" eq_refl)
    as (created & m2 & Hrun & He & _ & _ & _ & Hrest).
  { intros attempt se0 m' He0. rewrite <- He0.
    by apply (createUser_rejects_missing (we_id e0) input email name). }
  change (isPause "Email and name are required") with false in Hrest.
  destruct Hrest as (Hst & Hat & Herr & Hcalls & Hsl).
  assert (findStep (sd_id createStep) (we_steps e0)
          = Some (0%nat, pendingStep createStep)) as Hfind.
  { simpl. rewrite Hsteps. by apply findStep_head. }
  set (execution' :=
         we_set_steps (<[0%nat := created]> (we_steps e0))
           (we_set_currentStep (Some (sd_id createStep)) e0)).
  assert (executeWorkflow started input m0
          = (Thrown "Email and name are required", execution', m2)) as Hexec.
  { rewrite (executeWorkflow_registered _ _ m0 workflowDef) by exact Hdef.
    rewrite Hsteps.
    exact (stepsLoop_run createStep defs e0 input m0 0%nat
             (pendingStep createStep) _ created m2 Hfind ltac:(done) Hrun). }
  destruct (startWorkflow_failure_recorded workflowId input m workflowDef Hdef
              "Email and name are required" execution' m2 Hexec eq_refl)
    as [Hstart Hstored].
  exists (we_set_status WfFailed execution'),
    (saveWorkflow (we_set_status WfFailed execution') m2), created.
  split; [exact Hstart|]. split; [reflexivity|]. split; [reflexivity|].
  split.
  { change (we_steps (we_set_status WfFailed execution'))
      with (<[0%nat := created]> (map pendingStep (wd_steps workflowDef))).
    by rewrite Hsteps. }
  split; [exact Hst|]. split; [exact Hat|]. split; [exact Herr|].
  split; [exact Hstored|].
  split; [exact Hcalls|]. split; [exact Hsl|]. exact He.
Qed.

(** X18: the step [create-user] for an email that is on file. With a
    truthy [email] and [name] and a lookup by email that finds a row,
    every attempt throws "User with email ... already exists" and leaves
    the outside world and the execution store alone. When that message
    is no pause request the step is [failed] after three attempts, with
    sleeps of 500 and 1000 ms. When it is one, which is the case as soon
    as the text of the email contains the pause marker, the first
    attempt parks the step instead: [running], no error, no retry. *)
Theorem create_user_duplicate_email se workflowId input m email name :
  JsValue.destructure "email" input = Some email ->
  JsValue.destructure "name" input = Some name ->
  Js.truthy email = true ->
  Js.truthy name = true ->
  getUserByEmail email (env m) = Ok true ->
  let message := "User with email " +:+ display email +:+ " already exists" in
  exists se' m',
    executeStepWithRetry (createUserStep clock randomId display destructureError)
      se workflowId input m
    = (Thrown message, se', m') /\
    env m' = env m /\
    workflows m' = workflows m /\
    (isPause message = false ->
     se_status se' = StepFailed /\
     se_attempts se' = 3 /\
     se_error se' = Some message /\
     calls m' = calls m ++ [("create-user", 1); ("create-user", 2); ("create-user", 3)] /\
     sleeps m' = sleeps m ++ [500; 1000]) /\
    (isPause message = true ->
     se_status se' = StepRunning /\
     se_attempts se' = 1 /\
     se_error se' = None /\
     calls m' = calls m ++ [("create-user", 1)] /\
     sleeps m' = sleeps m) /\
    (Str.includes (display email) PAUSE_MARKER = true -> isPause message = true).
Proof.
  intros Hemail Hname Hte Htn Hfound message.
  destruct (executor_rejects (createUserStep clock randomId display destructureError)
              se workflowId input m message eq_refl)
    as (se' & m' & Hrun & He & _ & Hwf & _ & Hrest).
  { intros attempt se0 m0 He0.
    destruct (createUser_rejects_duplicate workflowId input email name (env m)
                Hemail Hname Hte Htn Hfound attempt se0 m0 He0)
      as (se1 & m1 & Hcall & He1 & Hws1).
    by exists se1, m1. }
  exists se', m'. split; [exact Hrun|]. split; [exact He|]. split; [exact Hwf|].
  split; [|split].
  - intros Hp. by rewrite Hp in Hrest.
  - intros Hp. by rewrite Hp in Hrest.
  - apply isPause_embedded.
Qed.

(** X19: the step [finalize-user] for a user that is not on file. When
    the lookup by id finds no row, every attempt throws "User ... not
    found" and the user table is never written: the outside world is as
    before. When that message is no pause request the step is [failed]
    after three attempts, with sleeps of 500 and 1000 ms; when it is
    one, which is the case as soon as the text of the user id contains
    the pause marker, the first attempt parks the step instead. *)
Theorem finalize_user_missing se workflowId input m userId riskDecision verifiedAt :
  JsValue.destructure "userId" input = Some userId ->
  JsValue.destructure "riskDecision" input = Some riskDecision ->
  JsValue.destructure "verifiedAt" input = Some verifiedAt ->
  getUser userId (env m) = Ok false ->
  let message := "User " +:+ display userId +:+ " not found" in
  exists se' m',
    executeStepWithRetry (finalizeUserStep clock display destructureError)
      se workflowId input m
    = (Thrown message, se', m') /\
    env m' = env m /\
    workflows m' = workflows m /\
    (isPause message = false ->
     se_status se' = StepFailed /\
     se_attempts se' = 3 /\
     se_error se' = Some message /\
     calls m' = calls m ++
       [("finalize-user", 1); ("finalize-user", 2); ("finalize-user", 3)] /\
     sleeps m' = sleeps m ++ [500; 1000]) /\
    (isPause message = true ->
     se_status se' = StepRunning /\
     se_attempts se' = 1 /\
     se_error se' = None /\
     calls m' = calls m ++ [("finalize-user", 1)] /\
     sleeps m' = sleeps m) /\
    (Str.includes (display userId) PAUSE_MARKER = true -> isPause message = true).
Proof.
  intros Huser Hrisk Hverified Hmissing message.
  destruct (executor_rejects (finalizeUserStep clock display destructureError)
              se workflowId input m message eq_refl)
    as (se' & m' & Hrun & He & _ & Hwf & _ & Hrest).
  { intros attempt se0 m0 He0.
    destruct (finalizeUser_rejects_missing workflowId input userId riskDecision
                verifiedAt (env m) Huser Hrisk Hverified Hmissing attempt se0 m0 He0)
      as (se1 & m1 & Hcall & He1 & Hws1).
    by exists se1, m1. }
  exists se', m'. split; [exact Hrun|]. split; [exact He|]. split; [exact Hwf|].
  split; [|split].
  - intros Hp. by rewrite Hp in Hrest.
  - intros Hp. by rewrite Hp in Hrest.
  - apply isPause_embedded.
Qed.

(** X20: the step [finalize-user] for a user on file, when the update
    goes through. The step completes at its first attempt, after one
    update of the user: its status set to the final status and
    [verifiedAt] to the one of the input, or to the clock reading when
    that is falsy. The final status is ACTIVE exactly when the
    [riskDecision] of the input is the string ALLOW, and FLAGGED for
    every other value, a missing one included. The output is the input
    with [finalStatus] and [completed] set. *)
Theorem finalize_user_decision se workflowId input m userId riskDecision verifiedAt
    e' :
  JsValue.destructure "userId" input = Some userId ->
  JsValue.destructure "riskDecision" input = Some riskDecision ->
  JsValue.destructure "verifiedAt" input = Some verifiedAt ->
  getUser userId (env m) = Ok true ->
  let finalStatus := finalStatusOf riskDecision in
  let updates :=
    VObj [("status", finalStatus);
          ("verifiedAt", Js.or verifiedAt (VDate (clock (env m))))] in
  updateUser userId updates (env m) = (Ok tt, e') ->
  exists result se' m' fields,
    executeStepWithRetry (finalizeUserStep clock display destructureError)
      se workflowId input m
    = (Ok result, se', m') /\
    res_output result = VObj fields /\
    Js.getProp "finalStatus" fields = finalStatus /\
    Js.getProp "completed" fields = VBool true /\
    (forall key, key <> "finalStatus" -> key <> "completed" ->
                 Js.getProp key fields = JsValue.property key input) /\
    (finalStatus = VStr "ACTIVE" <-> riskDecision = VStr "ALLOW") /\
    (riskDecision <> VStr "ALLOW" -> finalStatus = VStr "FLAGGED") /\
    se_status se' = StepCompleted /\
    se_output se' = VObj fields /\
    se_attempts se' = 1 /\
    env m' = e' /\
    calls m' = calls m ++ [("finalize-user", 1)] /\
    sleeps m' = sleeps m.
Proof.
  intros Huser Hrisk Hverified Hfound finalStatus updates Hupdate.
  unfold executeStepWithRetry.
  change (policyMaxAttempts _) with 3. change (policyBackoffMs _) with 500.
  change (Z.to_nat 3) with 3%nat.
  erewrite retryLoop_success_exact; cycle 1.
  { unfold callHandler. cbn [newDate logStep sd_handler finalizeUserStep].
    unfold finalizeUserHandler. cbn [ctx_input]. rewrite Huser, Hrisk, Hverified.
    cbn [runHandler logStep newDate env set_calls set_clockReads].
    rewrite Hfound. cbn [runHandler env set_env].
    fold finalStatus. fold updates. rewrite Hupdate.
    cbn [fst snd runHandler logStep newDate]. reflexivity. }
  eexists _, _, _, _. split; [reflexivity|]. cbn [res_output].
  split; [reflexivity|].
  split. { rewrite getProp_setProp_ne by done. apply getProp_setProp_eq. }
  split; [apply getProp_setProp_eq|].
  split. { intros key Hk1 Hk2. by rewrite !getProp_setProp_ne. }
  split.
  { unfold finalStatus, finalStatusOf.
    destruct (JsValue.strictEquals riskDecision (VStr "ALLOW")) eqn:Heq.
    - apply strictEquals_primitive in Heq; done.
    - split; [done|]. intros ->. by vm_compute in Heq. }
  split.
  { intros Hne. unfold finalStatus, finalStatusOf.
    destruct (JsValue.strictEquals riskDecision (VStr "ALLOW")) eqn:Heq; [|done].
    apply strictEquals_primitive in Heq; done. }
  by repeat split.
Qed.

(** X21: a retry of [create-user] meets the row its own first attempt
    inserted. When the first attempt inserts the user and then fails to
    link it to the workflow, with an error that is no pause request, and
    the lookup by email finds the row afterwards, the two further
    attempts throw "User with email ... already exists": the step ends
    [failed] with that message as its error, the one of the first
    attempt being overwritten, and the inserted row stays without a
    link. *)
Theorem create_user_retry_meets_own_row se workflowId input m email name
    id e1 e2 linkError e3 :
  JsValue.destructure "email" input = Some email ->
  JsValue.destructure "name" input = Some name ->
  Js.truthy email = true ->
  Js.truthy name = true ->
  getUserByEmail email (env m) = Ok false ->
  randomId (env m) = (id, e1) ->
  let user :=
    VObj [("id", VStr id); ("email", email); ("name", name);
          ("status", VStr "PENDING"); ("createdAt", VDate (clock e1))] in
  createUser user e1 = (Ok tt, e2) ->
  setUserWorkflow (VStr id) workflowId e2 = (Thrown linkError, e3) ->
  isPause linkError = false ->
  getUserByEmail email e3 = Ok true ->
  let message := "User with email " +:+ display email +:+ " already exists" in
  isPause message = false ->
  exists se' m',
    executeStepWithRetry (createUserStep clock randomId display destructureError)
      se workflowId input m
    = (Thrown message, se', m') /\
    se_status se' = StepFailed /\
    se_attempts se' = 3 /\
    se_error se' = Some message /\
    env m' = e3 /\
    calls m' = calls m ++ [("create-user", 1); ("create-user", 2); ("create-user", 3)] /\
    sleeps m' = sleeps m ++ [500; 1000].
Proof.
  intros Hemail Hname Hte Htn Hfree Hid user Hcreate Hlink Hlp Hfound message Hp.
  set (createStep := createUserStep clock randomId display destructureError).
  assert (exists se1 m1,
             callHandler createStep workflowId input 3 1 se m
             = (Thrown linkError, se1, m1) /\
             env m1 = e3 /\
             calls m1 = calls m ++ [("create-user", 1)] /\
             sleeps m1 = sleeps m) as (se1 & m1 & Hcall & He1 & Hc1 & Hs1).
  { unfold callHandler. cbn [newDate logStep sd_handler createStep createUserStep].
    unfold createUserHandler. cbn [ctx_input ctx_workflowId].
    rewrite Hemail, Hname, Hte, Htn.
    cbn [negb orb runHandler logStep newDate env set_calls set_clockReads].
    rewrite Hfree. cbn [runHandler env set_env]. rewrite Hid.
    cbn [fst snd runHandler env set_env]. fold user. rewrite Hcreate.
    cbn [fst snd runHandler env set_env]. rewrite Hlink.
    cbn [fst snd runHandler]. by eexists _, _. }
  unfold executeStepWithRetry.
  change (policyMaxAttempts _) with 3. change (policyBackoffMs _) with 500.
  change (Z.to_nat 3) with 3%nat.
  rewrite (retryLoop_fail_exact _ _ _ _ _ _ _ _ _ _ _ _ _ Hcall Hlp).
  change (1 <? 3) with true. cbv iota.
  assert (forall attempt se0 m0,
             env m0 = e3 ->
             exists se2 m2,
               callHandler createStep workflowId input 3 attempt se0 m0
                 = (Thrown message, se2, m2) /\
               env m2 = e3 /\
               workflowState m2 = workflowState m0) as Hfail.
  { intros attempt se0 m0 He0.
    by apply (createUser_rejects_duplicate workflowId input email name e3). }
  edestruct (retryLoop_fails_while e3 createStep workflowId input 3 500 message Hp
               Hfail 1%nat (1 + 1) (Some linkError))
    as (se' & m' & Hloop & Hst & Hat & Herr & _ & Hcalls & Hsl & He' & _ & _);
    [|lia|exists se', m'; split; [exact Hloop|]].
  - exact He1.
  - split; [exact Hst|]. split; [exact Hat|]. split; [exact Herr|].
    split; [exact He'|]. split.
    + rewrite Hcalls. simpl calls. rewrite Hc1, <- app_assoc. reflexivity.
    + rewrite Hsl. simpl sleeps. rewrite Hs1, <- app_assoc. reflexivity.
Qed.

End UserStepProperties.

End Engine.

(** * The engine on the sample workflows *)

(** The pause of [Demo.waitStep] at a second attempt, with two more
    attempts to go, and the scheduler on the execution that waits. *)
Lemma pause_short_circuits_witness :
  (exists se1 m1 se2 m2,
      callHandler Demo.now Demo.waitStep "exec-7" (VObj []) 4 2
        (Demo.pending "wait") Demo.machine1
      = (Thrown "WORKFLOW_PAUSED_WAITING_FOR_SIGNAL:verified", se1, m1) /\
      retryLoop Demo.now Demo.waitStep "exec-7" (VObj []) 4 1000 3 2 None
        (Demo.pending "wait") Demo.machine1
      = (Thrown "WORKFLOW_PAUSED_WAITING_FOR_SIGNAL:verified", se2, m2) /\
      se_status se2 = StepRunning /\
      calls m2 = [("wait", 2)] /\
      sleeps m2 = []) /\
  (exists se' m' execution' m'',
      executeStepWithRetry Demo.now Demo.waitStep
        (mkStepExecution "wait" StepRunning 1 (Some 5) None None VUndefined [])
        "exec-7" (VObj [])
        (saveWorkflow Demo.toISOString
           (we_set_currentStep (Some "wait") Demo.pausedSignup) Demo.machine1)
      = (Thrown "WORKFLOW_PAUSED_WAITING_FOR_SIGNAL:verified", se', m') /\
      stepsLoop Demo.now Demo.toISOString [Demo.waitStep; Demo.chargeStep]
        Demo.pausedSignup (VObj []) Demo.machine1
      = (Ok tt, execution', m'') /\
      we_status execution' = WfPaused /\
      calls m'' = calls m').
Proof.
  split.
  - assert (exists se1 m1,
               callHandler Demo.now Demo.waitStep "exec-7" (VObj []) 4 2
                 (Demo.pending "wait") Demo.machine1
               = (Thrown "WORKFLOW_PAUSED_WAITING_FOR_SIGNAL:verified", se1, m1))
      as (se1 & m1 & Hc).
    { eexists _, _. vm_compute. reflexivity. }
    destruct (proj1 (pause_short_circuits Demo.now Demo.toISOString)
                Demo.waitStep "exec-7" (VObj []) 4 1000 2%nat 2 None
                (Demo.pending "wait") Demo.machine1
                "WORKFLOW_PAUSED_WAITING_FOR_SIGNAL:verified" se1 m1
                Hc ltac:(vm_compute; reflexivity))
      as (se2 & m2 & H1 & H2 & _ & _ & H3 & H4).
    exists se1, m1, se2, m2. by repeat split.
  - assert (exists se' m',
               executeStepWithRetry Demo.now Demo.waitStep
                 (mkStepExecution "wait" StepRunning 1 (Some 5) None None VUndefined [])
                 "exec-7" (VObj [])
                 (saveWorkflow Demo.toISOString
                    (we_set_currentStep (Some "wait") Demo.pausedSignup) Demo.machine1)
               = (Thrown "WORKFLOW_PAUSED_WAITING_FOR_SIGNAL:verified", se', m'))
      as (se' & m' & He).
    { eexists _, _. vm_compute. reflexivity. }
    destruct (proj2 (pause_short_circuits Demo.now Demo.toISOString)
                Demo.waitStep [Demo.chargeStep] Demo.pausedSignup (VObj [])
                Demo.machine1 1%nat
                (mkStepExecution "wait" StepRunning 1 (Some 5) None None VUndefined [])
                "WORKFLOW_PAUSED_WAITING_FOR_SIGNAL:verified" se' m'
                ltac:(vm_compute; reflexivity) ltac:(discriminate)
                He ltac:(vm_compute; reflexivity))
      as (execution' & m'' & H1 & H2 & _ & _ & _ & _ & _ & H3 & _).
    exists se', m', execution', m''. by repeat split.
Defined.


(** [Demo.completedNotify] is terminal: a signal changes nothing, and
    [executeWorkflow] leaves its steps and status. *)
Lemma terminal_executions_witness :
  signalWorkflow Demo.now Demo.toISOString "exec-8" "verified" VNull Demo.machine1
    = (Ok tt, Demo.machine1) /\
  exists execution' m',
    executeWorkflow Demo.now Demo.toISOString Demo.completedNotify (VObj [])
      Demo.machine1 = (Ok tt, execution', m') /\
    we_steps execution' = we_steps Demo.completedNotify /\
    we_status execution' = WfCompleted /\
    calls m' = [].
Proof.
  destruct (terminal_executions Demo.now Demo.toISOString Demo.machine1
              Demo.completedNotify ltac:(by left)) as [Hsignal Hexecute].
  split.
  - apply Hsignal. vm_compute. reflexivity.
  - destruct (Hexecute eq_refl ltac:(by repeat constructor) (VObj []))
      as (execution' & m' & H1 & H2 & H3 & H4 & _).
    by exists execution', m'.
Defined.

Lemma Demo_signup_mirrors :
  mirrors (we_steps Demo.pausedSignup) (wd_steps Demo.signup).
Proof.
  split; [reflexivity|]. apply (bool_decide_unpack _). vm_compute. exact I.
Defined.

(** [Demo.pausedSignup] has its first step completed: the scheduler goes
    straight to the second and runs it with the user id as input, not
    with the input of the call; the handler asks for a pause, and the
    execution is left paused with the step as the executor left it. *)
Lemma completed_steps_skipped_witness :
  executeWorkflow Demo.now Demo.toISOString Demo.pausedSignup VNull Demo.machine1
  = stepsLoop Demo.now Demo.toISOString [Demo.waitStep; Demo.chargeStep]
      (we_set_currentStep None Demo.pausedSignup)
      (VObj [("userId", VStr "u1")]) Demo.machine1 /\
  exists se' m',
    executeStepWithRetry Demo.now Demo.waitStep
      (mkStepExecution "wait" StepRunning 1 (Some 5) None None VUndefined [])
      "exec-7" (VObj [("userId", VStr "u1")])
      (saveWorkflow Demo.toISOString
         (we_set_currentStep (Some "wait") Demo.pausedSignup) Demo.machine1)
    = (Thrown "WORKFLOW_PAUSED_WAITING_FOR_SIGNAL:verified", se', m') /\
    calls m' = [("wait", 1)] /\
    let execution' :=
      we_set_status WfPaused
        (we_set_steps
           [mkStepExecution "create" StepCompleted 1 (Some 1) (Some 3) None
              (VObj [("userId", VStr "u1")]) [];
            se';
            Demo.pending "charge"]
           (we_set_currentStep (Some "wait") Demo.pausedSignup)) in
    executeWorkflow Demo.now Demo.toISOString Demo.pausedSignup VNull Demo.machine1
    = (Ok tt, execution', saveWorkflow Demo.toISOString execution' m').
Proof.
  destruct (completed_steps_skipped Demo.now Demo.toISOString Demo.machine1
              Demo.pausedSignup Demo.signup VNull 1%nat
              eq_refl Demo_signup_mirrors
              ltac:(simpl; lia)
              ltac:(by repeat constructor)) as (Hskip & Hnext & _).
  split; [exact Hskip|].
  assert (exists se' m',
             executeStepWithRetry Demo.now Demo.waitStep
               (mkStepExecution "wait" StepRunning 1 (Some 5) None None VUndefined [])
               "exec-7" (VObj [("userId", VStr "u1")])
               (saveWorkflow Demo.toISOString
                  (we_set_currentStep (Some "wait") Demo.pausedSignup) Demo.machine1)
             = (Thrown "WORKFLOW_PAUSED_WAITING_FOR_SIGNAL:verified", se', m') /\
             calls m' = [("wait", 1)]) as (se' & m' & Hrun & Hcalls).
  { eexists _, _. split; vm_compute; reflexivity. }
  exists se', m'. split; [exact Hrun|]. split; [exact Hcalls|].
  exact (Hnext Demo.waitStep _ _ se' m' eq_refl eq_refl ltac:(discriminate) Hrun).
Defined.

(** A signal for [Demo.pausedSignup]: the payload is stored with the
    instant read, and the scheduler is re-invoked on the execution with
    its waiting step pending, entering it with the user id. *)
Lemma resume_contract_witness :
  let m1 := setWorkflowState "exec-7" "signal:verified"
              (VObj [("userId", VStr "u1"); ("timestamp", VDate 0)])
              (set_clockReads 1 Demo.machine1) in
  let resumed := resetWaitingStep "wait" (we_set_status WfRunning Demo.pausedSignup) in
  getWorkflowState "exec-7" "signal:verified" m1
    = VObj [("userId", VStr "u1"); ("timestamp", VDate 0)] /\
  signalWorkflow Demo.now Demo.toISOString "exec-7" "verified"
    (VObj [("userId", VStr "u1")]) Demo.machine1
  = (let '(r, _, m') :=
       executeWorkflow Demo.now Demo.toISOString resumed
         (VObj [("userId", VStr "u1")]) m1 in (r, m')) /\
  we_steps resumed
  = [mkStepExecution "create" StepCompleted 1 (Some 1) (Some 3) None
       (VObj [("userId", VStr "u1")]) [];
     mkStepExecution "wait" StepPending 1 (Some 5) None None VUndefined [];
     Demo.pending "charge"] /\
  executeWorkflow Demo.now Demo.toISOString resumed
    (VObj [("userId", VStr "u1")]) m1
  = stepsLoop Demo.now Demo.toISOString [Demo.waitStep; Demo.chargeStep]
      (we_set_currentStep None resumed) (VObj [("userId", VStr "u1")]) m1.
Proof.
  intros m1 resumed.
  destruct (proj2 (resume_contract Demo.now Demo.toISOString Demo.machine1
                     "exec-7" "verified" (VObj [("userId", VStr "u1")]))
              Demo.pausedSignup eq_refl) as [_ Hactive].
  destruct (Hactive ltac:(by right)) as (Hwrite & _ & _ & _ & Hresume).
  destruct (Hresume Demo.signup "wait" eq_refl eq_refl ltac:(discriminate))
    as (Hcall & _ & Hreset & _ & Hinput).
  destruct (Hinput 0%nat Demo_signup_mirrors eq_refl ltac:(by repeat constructor))
    as (p & Hp & Hrun).
  split; [exact Hwrite|]. split; [exact Hcall|].
  split; [exact (Hreset 1%nat _ eq_refl)|]. injection Hp as <-. exact Hrun.
Defined.

(** Nothing is registered or stored under these ids. *)
Lemma unknown_ids_witness :
  startWorkflow Demo.now Demo.uuidv4 Demo.toISOString "nonexistent" (VObj [])
    Demo.machine0
  = (Thrown "Workflow nonexistent not found", Demo.machine0) /\
  signalWorkflow Demo.now Demo.toISOString "nonexistent-id" "x" (VObj [])
    Demo.machine0
  = (Ok tt, Demo.machine0).
Proof.
  apply (unknown_ids Demo.now Demo.uuidv4 Demo.toISOString Demo.machine0
           "nonexistent" (VObj []) "nonexistent-id" "x" (VObj []));
    vm_compute; reflexivity.
Defined.

(** Two registrations under the id "create": the second replaces the
    first; registering the first again after itself changes nothing. *)
Lemma register_last_wins_witness :
  let m1 := (registerStep Demo.createStep Demo.machine0).2 in
  sd_id Demo.createStepV2 = sd_id Demo.createStep /\
  stepDefinitions m1 !! "create" = Some Demo.createStep /\
  (registerStep Demo.createStepV2 m1).1 = Ok tt /\
  stepDefinitions (registerStep Demo.createStepV2 m1).2 !! "create"
    = Some Demo.createStepV2 /\
  registerStep Demo.createStep m1 = (Ok tt, m1).
Proof.
  intros m1.
  destruct (proj1 (register_last_wins Demo.machine0) Demo.createStep)
    as (_ & Hstored & _ & Hother & _).
  destruct (Hother Demo.createStepV2 eq_refl) as [Hok Hreplaced].
  destruct (proj1 (register_last_wins m1) Demo.createStep)
    as (_ & _ & _ & _ & Hagain).
  split; [reflexivity|]. split; [exact Hstored|]. split; [exact Hok|].
  split; [exact Hreplaced|]. exact (Hagain Hstored).
Defined.


(** The marker in the middle of a message: [Demo.parkStep] pauses the
    execution that [startWorkflow] creates. *)
Lemma pause_detection_by_substring_witness :
  alwaysThrows Demo.now Demo.parkStep
    "not yet: WORKFLOW_PAUSED_WAITING_FOR_SIGNAL (approval)" /\
  isPause "not yet: WORKFLOW_PAUSED_WAITING_FOR_SIGNAL (approval)" = true /\
  exists execution m' se',
    startWorkflow Demo.now Demo.uuidv4 Demo.toISOString "approval" (VObj [])
      Demo.machine0 = (Ok execution, m') /\
    we_status execution = WfPaused /\
    we_steps execution = [se'; Demo.pending "charge"] /\
    se_status se' = StepRunning /\
    se_error se' = None /\
    calls m' = [("park", 1)] /\
    sleeps m' = [].
Proof.
  assert (alwaysThrows Demo.now Demo.parkStep
            "not yet: WORKFLOW_PAUSED_WAITING_FOR_SIGNAL (approval)") as Hthrows.
  { intros workflowId context se m. by eexists _, _. }
  split; [exact Hthrows|].
  destruct (pause_detection_by_substring (Env:=bool) Demo.now Demo.uuidv4 Demo.toISOString
              "not yet: " " (approval)") as (Hp & _ & _ & Hstart).
  split; [exact Hp|].
  destruct (Hstart Demo.machine0 "approval" Demo.approval Demo.parkStep
              [Demo.chargeStep] (VObj []) eq_refl eq_refl
              ltac:(vm_compute; discriminate) Hthrows)
    as (execution & m' & se' & H1 & H2 & _ & H3 & H4 & H5 & _ & H6 & H7).
  exists execution, m', se'. by repeat split.
Defined.

(** ** Where the engine departs from the specification *)

(** [executeWorkflow] on a failed execution: the notification failed while
    the service was down and the execution was stored as failed; with the
    service up, a further call runs the failed step again and completes
    the execution. *)
Lemma execute_mutates_failed_execution :
  exists failed m1 execution' m',
    startWorkflow Demo.now Demo.uuidv4 Demo.toISOString "notify" (VObj [])
      Demo.machine0 = (Ok failed, m1) /\
    we_status failed = WfFailed /\
    getWorkflow "exec-0" m1 = Some failed /\
    executeWorkflow Demo.now Demo.toISOString failed (VObj []) (set_env true m1)
      = (Ok tt, execution', m') /\
    we_status execution' = WfCompleted /\
    we_status execution' <> we_status failed /\
    we_steps execution' <> we_steps failed.
Proof.
  eexists _, _, _, _.
  split; [vm_compute; reflexivity|].
  split; [vm_compute; reflexivity|].
  split; [vm_compute; reflexivity|].
  split; [vm_compute; reflexivity|].
  split; [vm_compute; reflexivity|].
  split; [vm_compute; discriminate|].
  intros H. apply (f_equal (fmap se_status)) in H. vm_compute in H. discriminate H.
Qed.

(** [executeWorkflow] twice on an execution whose first step is completed
    and whose second step waits: the second call invokes the handler of the
    waiting step again and appends to its logs. *)
Lemma execute_twice_differs :
  Forall (fun s => se_status s = StepCompleted) (take 1 (we_steps Demo.pausedSignup)) /\
  exists once m1 twice m2,
    executeWorkflow Demo.now Demo.toISOString Demo.pausedSignup VNull Demo.machine1
      = (Ok tt, once, m1) /\
    executeWorkflow Demo.now Demo.toISOString once VNull m1 = (Ok tt, twice, m2) /\
    twice <> once /\
    we_steps twice <> we_steps once /\
    calls m1 = [("wait", 1)] /\
    calls m2 = [("wait", 1); ("wait", 1)].
Proof.
  split; [by repeat constructor|].
  eexists _, _, _, _.
  split; [vm_compute; reflexivity|].
  split; [vm_compute; reflexivity|].
  assert (forall a b : WorkflowExecution,
            (fun e => length <$> (se_logs <$> we_steps e)) a
            <> (fun e => length <$> (se_logs <$> we_steps e)) b ->
            we_steps a <> we_steps b) as Hsteps.
  { intros a b Hne E. apply Hne. simpl. by rewrite E. }
  match goal with
  | |- ?t <> ?o /\ _ => assert (we_steps t <> we_steps o) as Hne
  end.
  { apply Hsteps. vm_compute. discriminate. }
  split; [intros E; apply Hne; exact (f_equal we_steps E)|].
  split; [exact Hne|].
  split; vm_compute; reflexivity.
Qed.

(** Registering under an id already taken, with another body: the call
    returns and the definition stored is the new one, in both registries. *)
Lemma duplicate_registration_replaces :
  let m1 := (registerStep Demo.createStep Demo.machine0).2 in
  let m2 := (registerWorkflow Demo.signup Demo.machine0).2 in
  sd_id Demo.createStepV2 = sd_id Demo.createStep /\
  Demo.createStepV2 <> Demo.createStep /\
  (registerStep Demo.createStepV2 m1).1 = Ok tt /\
  stepDefinitions (registerStep Demo.createStepV2 m1).2 !! "create"
    = Some Demo.createStepV2 /\
  wd_id Demo.signupV2 = wd_id Demo.signup /\
  Demo.signupV2 <> Demo.signup /\
  (registerWorkflow Demo.signupV2 m2).1 = Ok tt /\
  workflowDefinitions (registerWorkflow Demo.signupV2 m2).2 !! "signup"
    = Some Demo.signupV2.
Proof.
  intros m1 m2.
  split; [reflexivity|]. split; [discriminate|]. split; [reflexivity|].
  split; [vm_compute; reflexivity|]. split; [reflexivity|].
  split; [discriminate|]. split; [reflexivity|]. vm_compute. reflexivity.
Qed.

(** C9: a terminal failure on the resume path. The execution of
    [Demo.signup] pauses at its second step; the signal lets that step
    complete; the third step then fails on both of its attempts.
    [signalWorkflow] throws the error of the step, and the execution stays
    stored as [running], with the failed step stored as [pending] and
    without its error: the status [failed] is never set or persisted. *)
Lemma resume_failure_leaves_execution_running :
  exists paused m1 m2 stored,
    startWorkflow Demo.now Demo.uuidv4 Demo.toISOString "signup" (VObj [])
      Demo.machine0 = (Ok paused, m1) /\
    we_status paused = WfPaused /\
    signalWorkflow Demo.now Demo.toISOString "exec-0" "verified"
      (VObj [("userId", VStr "u1")]) m1 = (Thrown "boom", m2) /\
    getWorkflow "exec-0" m2 = Some stored /\
    we_status stored = WfRunning /\
    we_currentStep stored = Some "charge" /\
    se_status <$> we_steps stored = [StepCompleted; StepCompleted; StepPending] /\
    se_error <$> we_steps stored = [None; None; None] /\
    calls m2 = [("create", 1); ("wait", 1); ("wait", 1); ("charge", 1); ("charge", 2)].
Proof.
  eexists _, _, _, _.
  split; [vm_compute; reflexivity|].
  split; [vm_compute; reflexivity|].
  split; [vm_compute; reflexivity|].
  split; [vm_compute; reflexivity|].
  repeat split; vm_compute; reflexivity.
Qed.

(** The same failure on the start path is recorded: the execution is
    stored as [failed] and the step keeps its last error. *)
Lemma start_failure_is_recorded :
  exists failed m1 stored,
    startWorkflow Demo.now Demo.uuidv4 Demo.toISOString "notify" (VObj [])
      Demo.machine0 = (Ok failed, m1) /\
    getWorkflow "exec-0" m1 = Some stored /\
    we_status stored = WfFailed /\
    se_status <$> we_steps stored = [StepFailed] /\
    se_error <$> we_steps stored = [Some "service down"] /\
    calls m1 = [("notify", 1); ("notify", 2)].
Proof.
  eexists _, _, _.
  split; [vm_compute; reflexivity|].
  split; [vm_compute; reflexivity|].
  repeat split; vm_compute; reflexivity.
Qed.

(** * Further properties on the sample workflows *)

(** [Verification.warmupStep] fails while the service is down and brings
    it up: the second attempt succeeds, and the error of the first
    stays. *)
Lemma success_keeps_error_witness :
  exists se4 m4,
    executeStepWithRetry Demo.now Verification.warmupStep (Demo.pending "warmup")
      "exec-1" VNull Verification.machine
    = (Ok (mkStepResult (VStr "sent") None), se4, m4) /\
    se_status se4 = StepCompleted /\
    se_output se4 = VStr "sent" /\
    se_attempts se4 = 2 /\
    se_error se4 = Some "service down".
Proof.
  assert (exists se2 m2 se3 m3,
             attemptStep Demo.now Verification.warmupStep "exec-1" VNull 3 10 1
               (Demo.pending "warmup") Verification.machine
             = (Failed "service down", se2, m2) /\
             callHandler Demo.now Verification.warmupStep "exec-1" VNull 3 (1 + 1)
               se2 m2
             = (Ok (mkStepResult (VStr "sent") None), se3, m3))
    as (se2 & m2 & se3 & m3 & Hfail & Hcall).
  { eexists _, _, _, _. split; vm_compute; reflexivity. }
  exact (success_keeps_error Demo.now Verification.warmupStep "exec-1" VNull 3 10
           1%nat 1 None (Demo.pending "warmup") Verification.machine
           "service down" se2 m2 _ se3 m3 Hfail Hcall).
Defined.

(** [Demo.chargeStep] on the stored executions of [Demo]: two calls, the
    store untouched, the output left alone. *)
Lemma executor_invariants_witness :
  exists se' m',
    executeStepWithRetry Demo.now Demo.chargeStep (Demo.pending "charge")
      "exec-7" (VObj []) Demo.machine1 = (Thrown "boom", se', m') /\
    se_stepId se' = "charge" /\
    workflows m' = workflows Demo.machine1 /\
    se_output se' = VUndefined.
Proof.
  assert (exists se' m',
             executeStepWithRetry Demo.now Demo.chargeStep (Demo.pending "charge")
               "exec-7" (VObj []) Demo.machine1 = (Thrown "boom", se', m'))
    as (se' & m' & Hrun).
  { eexists _, _. vm_compute. reflexivity. }
  destruct (executor_invariants Demo.now Demo.uuidv4 Demo.toISOString
              Demo.chargeStep (Demo.pending "charge") "exec-7" (VObj [])
              Demo.machine1 _ se' m' Hrun)
    as (Hid & _ & _ & Hstore & _ & Hout).
  exists se', m'. by repeat split.
Defined.

(** [Verification.idleStep] allows no attempt. *)
Lemma no_attempt_policy_witness :
  exists se' m',
    executeStepWithRetry Demo.now Verification.idleStep (Demo.pending "idle")
      "exec-1" VNull Verification.machine
    = (Thrown "Step failed after all retries", se', m') /\
    se_status se' = StepFailed /\
    se_attempts se' = 0 /\
    calls m' = [].
Proof.
  destruct (no_attempt_policy Demo.now Verification.idleStep (Demo.pending "idle")
              "exec-1" VNull Verification.machine ltac:(vm_compute; reflexivity))
    as (se' & m' & Hrun & Hst & _ & Hatt & _ & _ & _ & Hcalls & _).
  exists se', m'. by repeat split.
Defined.

(** [Demo.pausedSignup] run again: paused at the waiting step. *)
Lemma execute_outcomes_witness :
  exists execution' m',
    executeWorkflow Demo.now Demo.toISOString Demo.pausedSignup VNull Demo.machine1
    = (Ok tt, execution', m') /\
    endsWell Demo.toISOString (wd_steps Demo.signup) Demo.pausedSignup (Ok tt)
      execution' m'.
Proof.
  assert (exists execution' m',
             executeWorkflow Demo.now Demo.toISOString Demo.pausedSignup VNull
               Demo.machine1 = (Ok tt, execution', m'))
    as (execution' & m' & Hrun).
  { eexists _, _. vm_compute. reflexivity. }
  exists execution', m'. split; [exact Hrun|].
  exact (execute_outcomes Demo.now Demo.toISOString Demo.pausedSignup VNull
           Demo.machine1 Demo.signup _ execution' m' eq_refl Hrun).
Defined.

(** [startWorkflow] on [Demo.signup]. *)
Lemma start_outcomes_witness :
  exists execution m',
    startWorkflow Demo.now Demo.uuidv4 Demo.toISOString "signup" VNull Demo.machine0
    = (Ok execution, m') /\
    we_id execution = "exec-0" /\
    we_workflowId execution = "signup" /\
    se_stepId <$> we_steps execution = ["create"; "wait"; "charge"] /\
    getWorkflow (we_id execution) m'
    = Some (storedWorkflow Demo.toISOString execution).
Proof.
  destruct (start_outcomes Demo.now Demo.uuidv4 Demo.toISOString "signup" VNull
              Demo.machine0 Demo.signup eq_refl)
    as (execution & m' & Hrun & Hid & Hwf & Hsteps & _ & Hget).
  exists execution, m'. by repeat split.
Defined.

(** A signal for [exec-7] leaves [exec-8] alone, and so do a run of
    [Demo.pausedSignup] and the start of a new execution. *)
Lemma engine_isolation_witness :
  (exists r execution' m',
      executeWorkflow Demo.now Demo.toISOString Demo.pausedSignup VNull Demo.machine1
      = (r, execution', m') /\
      othersUntouched "exec-7" Demo.machine1 m') /\
  (exists r m',
      startWorkflow Demo.now Demo.uuidv4 Demo.toISOString "notify" VNull Demo.machine1
      = (r, m') /\
      othersUntouched "exec-0" Demo.machine1 m') /\
  (exists r m',
      signalWorkflow Demo.now Demo.toISOString "exec-7" "verified" VNull Demo.machine1
      = (r, m') /\
      othersUntouched "exec-7" Demo.machine1 m').
Proof.
  destruct (engine_isolation Demo.now Demo.uuidv4 Demo.toISOString Demo.machine1)
    as (Hexecute & Hstart & Hsignal).
  split; [|split].
  - destruct (executeWorkflow Demo.now Demo.toISOString Demo.pausedSignup VNull
                Demo.machine1) as [[r execution'] m'] eqn:Hrun.
    exists r, execution', m'. split; [reflexivity|].
    exact (Hexecute _ _ _ _ _ Hrun).
  - destruct (startWorkflow Demo.now Demo.uuidv4 Demo.toISOString "notify" VNull
                Demo.machine1) as [r m'] eqn:Hrun.
    exists r, m'. split; [reflexivity|].
    exact (Hstart _ _ _ _ Hrun).
  - destruct (signalWorkflow Demo.now Demo.toISOString "exec-7" "verified" VNull
                Demo.machine1) as [r m'] eqn:Hrun.
    exists r, m'. split; [reflexivity|].
    exact (Hsignal "exec-7" _ _ Demo.pausedSignup _ _ eq_refl eq_refl Hrun).
Defined.

(** The two stored executions of [Demo] have no step [retrying], and
    none has after a signal or a start. *)
Lemma retrying_never_stored_witness :
  storeSettled Demo.machine1 /\
  (exists r m',
      signalWorkflow Demo.now Demo.toISOString "exec-7" "verified" VNull Demo.machine1
      = (r, m') /\
      storeSettled m') /\
  (exists r m',
      startWorkflow Demo.now Demo.uuidv4 Demo.toISOString "notify" VNull Demo.machine1
      = (r, m') /\
      storeSettled m').
Proof.
  assert (storeSettled Demo.machine1) as Hsettled.
  { unfold storeSettled, Demo.machine1. simpl workflows.
    apply map_Forall_insert_2; [by repeat constructor|].
    apply map_Forall_insert_2; [by repeat constructor|].
    apply map_Forall_empty. }
  destruct (retrying_never_stored Demo.now Demo.uuidv4 Demo.toISOString
              Demo.machine1 Hsettled) as [Hstart Hsignal].
  split; [exact Hsettled|]. split.
  - destruct (signalWorkflow Demo.now Demo.toISOString "exec-7" "verified" VNull
                Demo.machine1) as [r m'] eqn:Hrun.
    exists r, m'. split; [reflexivity|]. exact (Hsignal _ _ _ _ _ Hrun).
  - destruct (startWorkflow Demo.now Demo.uuidv4 Demo.toISOString "notify" VNull
                Demo.machine1) as [r m'] eqn:Hrun.
    exists r, m'. split; [reflexivity|]. exact (Hstart _ _ _ _ Hrun).
Defined.

Lemma Verification_pureStep_computes id f :
  computes Demo.now (Verification.pureStep id f) f.
Proof.
  split; [by vm_compute|].
  intros workflowId context se m. by eexists _, _, _.
Defined.

(** [Verification.arithmetic] on 1: 1 + 1 = 2, then 2 * 10 = 20. *)
Lemma output_threading_witness :
  exists execution m',
    startWorkflow Demo.now Demo.uuidv4 Demo.toISOString "arithmetic" (VNum 1)
      Verification.machine = (Ok execution, m') /\
    we_status execution = WfCompleted /\
    se_output <$> we_steps execution = [VNum 2; VNum 20] /\
    calls m' = [("increment", 1); ("times-ten", 1)] /\
    sleeps m' = [].
Proof.
  destruct (output_threading Demo.now Demo.uuidv4 Demo.toISOString "arithmetic"
              (VNum 1) Verification.machine Verification.arithmetic
              [Verification.increment; Verification.timesTen] eq_refl)
    as (execution & m' & Hrun & Hst & _ & _ & _ & Hout & _ & Hcalls & Hsl).
  { apply (bool_decide_unpack _). vm_compute. exact I. }
  { repeat constructor; apply Verification_pureStep_computes. }
  exists execution, m'. by repeat split.
Defined.

(** The draws 0, 1, 2, ... taken modulo 16. *)
Lemma uuid_format_witness :
  let id := Uuid.uuidv4 (fun k => Z.of_nat k mod 16) 0 in
  id = "01234567-89ab-4cde-b012-3456789abcde" /\
  String.length id = 36%nat /\
  String.get 14 id = Some "4"%char /\
  exists h, String.get 19 id = Some h /\ h ∈ Uuid.variantDigits.
Proof.
  intros id.
  destruct (uuid_format (fun k => Z.of_nat k mod 16) 0
              ltac:(intros i; apply Z.mod_pos_bound; lia))
    as (Hlen & _ & _ & _ & _ & _ & Hversion & Hvariant).
  split; [vm_compute; reflexivity|]. by repeat split.
Defined.

(** A key set for [exec-1] does not show for [exec-2]. *)
Lemma workflow_state_laws_witness :
  getWorkflowState "exec-2" "waitingUserId"
    (setWorkflowState "exec-1" "waitingUserId" (VStr "u1") Verification.machine)
  = getWorkflowState "exec-2" "waitingUserId" Verification.machine.
Proof.
  destruct (workflow_state_laws Verification.machine "exec-1" "waitingUserId"
              (VStr "u1")) as (_ & _ & Hother & _).
  apply Hother. left. discriminate.
Defined.

(** No signal is in: the waiting step asks for a pause. *)
Lemma wait_step_pauses_witness :
  exists se' m',
    executeStepWithRetry Demo.now Verification.waitStep
      (Demo.pending "wait-for-verification") "exec-1"
      (VObj [("userId", VStr "u1")]) Verification.machine
    = (Thrown "WORKFLOW_PAUSED_WAITING_FOR_SIGNAL:verified", se', m') /\
    se_status se' = StepRunning /\
    se_attempts se' = 1 /\
    getWorkflowState "exec-1" "waitingForVerification" m' = VBool true /\
    getWorkflowState "exec-1" "waitingUserId" m' = VStr "u1".
Proof.
  destruct (wait_step_pauses Demo.now Verification.clock
              Verification.destructureError
              (Demo.pending "wait-for-verification") "exec-1"
              (VObj [("userId", VStr "u1")]) Verification.machine (VStr "u1")
              eq_refl eq_refl ltac:(by left))
    as (se' & m' & Hrun & Hst & Hatt & _ & _ & _ & _ & _ & _ & Hw & Hu & _).
  exists se', m'. by repeat split.
Defined.

(** The signal is in: the waiting step completes, stamped with the
    instant of the signal. *)
Lemma wait_step_proceeds_witness :
  exists result se' m' fields,
    executeStepWithRetry Demo.now Verification.waitStep
      (Demo.pending "wait-for-verification") "exec-1"
      (VObj [("userId", VStr "u1")]) Verification.signalled
    = (Ok result, se', m') /\
    res_output result = VObj fields /\
    Js.getProp "userId" fields = VStr "u1" /\
    Js.getProp "verified" fields = VBool true /\
    Js.getProp "verifiedAt" fields = VDate 7 /\
    se_status se' = StepCompleted.
Proof.
  destruct (wait_step_proceeds Demo.now Verification.clock
              Verification.destructureError
              (Demo.pending "wait-for-verification") "exec-1"
              (VObj [("userId", VStr "u1")]) Verification.signalled (VStr "u1")
              eq_refl eq_refl eq_refl eq_refl)
    as (result & se' & m' & fields & Hrun & Hout & Hv & Hat & Hother & Hst & _).
  exists result, se', m', fields.
  split; [exact Hrun|]. split; [exact Hout|].
  split; [exact (Hother "userId" ltac:(discriminate) ltac:(discriminate))|].
  split; [exact Hv|]. split; [exact Hat|]. exact Hst.
Defined.

Lemma Verification_userSignup_mirrors :
  mirrors (we_steps Verification.parkedSignup) (wd_steps Verification.userSignup).
Proof.
  split; [reflexivity|]. apply (bool_decide_unpack _). vm_compute. exact I.
Defined.

(** The verification of [u1] resumes [exec-1]: the waiting step
    completes and the run goes on with the last step. *)
Lemma verification_resumes_witness :
  exists waited resumed m1,
    signalWorkflow Demo.now Demo.toISOString "exec-1" "verified"
      (VObj [("userId", VStr "u1")]) Verification.machine
    = (let '(r, _, m') :=
         stepsLoop Demo.now Demo.toISOString
           [Verification.pureStep "finalize" (fun v => v)] resumed
           (VObj [("userId", VStr "u1"); ("verified", VBool true);
                  ("verifiedAt", VDate 0)]) m1 in
       (r, m')) /\
    we_steps resumed !! 1%nat = Some waited /\
    se_status waited = StepCompleted /\
    se_output waited
    = VObj [("userId", VStr "u1"); ("verified", VBool true);
            ("verifiedAt", VDate 0)] /\
    calls m1 = [("wait-for-verification", 1)].
Proof.
  destruct (verification_resumes Demo.now Demo.toISOString Verification.clock
              Verification.destructureError Verification.machine "exec-1"
              (VObj [("userId", VStr "u1")]) Verification.parkedSignup
              Verification.userSignup 0%nat
              (mkStepExecution "create" StepCompleted 1 (Some 1) (Some 3) None
                 (VObj [("userId", VStr "u1")]) [])
              (VStr "u1")
              eq_refl eq_refl ltac:(by right) eq_refl
              Verification_userSignup_mirrors eq_refl eq_refl
              ltac:(by repeat constructor) eq_refl eq_refl eq_refl eq_refl)
    as (waited & resumed & m1 & Hrun & Hat & Hst & Hout & _ & _ & _ & _ & Hcalls & _).
  exists waited, resumed, m1. by repeat split.
Defined.

(** The same signal for [exec-2], parked at its first step: parked
    again. *)
Lemma wait_first_stays_parked_witness :
  exists m' stored,
    signalWorkflow Demo.now Demo.toISOString "exec-2" "verified"
      (VObj [("userId", VStr "u1")]) Verification.machine = (Ok tt, m') /\
    getWorkflow "exec-2" m' = Some stored /\
    we_status stored = WfPaused /\
    we_currentStep stored = Some "wait-for-verification" /\
    getWorkflowState "exec-2" "waitingUserId" m' = VUndefined.
Proof.
  destruct (wait_first_stays_parked Demo.now Demo.toISOString Verification.clock
              Verification.destructureError Verification.machine "exec-2"
              (VObj [("userId", VStr "u1")]) Verification.parkedWait
              Verification.waitOnly [] 0%nat
              (mkStepExecution "wait-for-verification" StepRunning 1 (Some 5) None
                 None VUndefined [])
              eq_refl eq_refl ltac:(by right) eq_refl eq_refl eq_refl eq_refl
              ltac:(discriminate))
    as (m' & stored & parked & Hrun & Hget & Hst & Hcur & _ & _ & _ & _ & Hu).
  exists m', stored. by repeat split.
Defined.

(** A signup request without a name. *)
Lemma create_user_requires_email_and_name_witness :
  exists se' m',
    executeStepWithRetry Demo.now Accounts.createStep (Demo.pending "create-user")
      "exec-1" (VObj [("email", VStr "bob@example.org")]) Accounts.machine
    = (Thrown "Email and name are required", se', m') /\
    se_status se' = StepFailed /\
    se_attempts se' = 3 /\
    sleeps m' = [500; 1000] /\
    env m' = env Accounts.machine.
Proof.
  destruct (create_user_requires_email_and_name Demo.now Accounts.clock
              Accounts.randomId Accounts.display Accounts.destructureError
              (Demo.pending "create-user") "exec-1"
              (VObj [("email", VStr "bob@example.org")]) Accounts.machine
              (VStr "bob@example.org") VUndefined ltac:(vm_compute; reflexivity) ltac:(vm_compute; reflexivity) ltac:(by right))
    as (se' & m' & Hrun & Hst & Hat & _ & _ & _ & Hsl & He & _).
  exists se', m'. by repeat split.
Defined.

(** The same request through [startWorkflow]: the execution is failed at
    its first step and the second step never runs. *)
Lemma signup_without_email_or_name_witness :
  exists execution m' created,
    startWorkflow Demo.now Demo.uuidv4 Demo.toISOString "user-signup"
      (VObj [("email", VStr "bob@example.org")]) Accounts.machine
    = (Ok execution, m') /\
    we_status execution = WfFailed /\
    we_steps execution = [created; pendingStep Accounts.finalizeStep] /\
    se_status created = StepFailed /\
    calls m' = [("create-user", 1); ("create-user", 2); ("create-user", 3)] /\
    env m' = env Accounts.machine.
Proof.
  destruct (signup_without_email_or_name Demo.now Demo.uuidv4 Demo.toISOString
              Accounts.clock Accounts.randomId Accounts.display
              Accounts.destructureError "user-signup"
              (VObj [("email", VStr "bob@example.org")]) Accounts.machine
              Accounts.userSignup [Accounts.finalizeStep]
              (VStr "bob@example.org") VUndefined
              ltac:(vm_compute; reflexivity) ltac:(vm_compute; reflexivity) ltac:(vm_compute; reflexivity) ltac:(vm_compute; reflexivity) ltac:(by right))
    as (execution & m' & created & Hrun & Hst & _ & Hsteps & Hcst & _ & _ & _
        & Hcalls & _ & He).
  exists execution, m', created. by repeat split.
Defined.

(** Ann signs up again: failed after three attempts. The user whose
    email contains the marker signs up again: parked at the first. *)
Lemma create_user_duplicate_email_witness :
  (exists se' m',
      executeStepWithRetry Demo.now Accounts.createStep (Demo.pending "create-user")
        "exec-1" (VObj [("email", VStr "ann@example.org"); ("name", VStr "Ann")])
        Accounts.machine
      = (Thrown "User with email ann@example.org already exists", se', m') /\
      se_status se' = StepFailed /\
      se_attempts se' = 3 /\
      sleeps m' = [500; 1000]) /\
  (exists se' m',
      executeStepWithRetry Demo.now Accounts.createStep (Demo.pending "create-user")
        "exec-1"
        (VObj [("email", VStr "WORKFLOW_PAUSED_WAITING_FOR_SIGNAL@example.org");
               ("name", VStr "Eve")])
        Accounts.machine
      = (Thrown
           "User with email WORKFLOW_PAUSED_WAITING_FOR_SIGNAL@example.org already exists",
         se', m') /\
      se_status se' = StepRunning /\
      se_attempts se' = 1 /\
      se_error se' = None /\
      sleeps m' = []).
Proof.
  split.
  - destruct (create_user_duplicate_email Demo.now Accounts.clock
                Accounts.randomId Accounts.display Accounts.destructureError
                (Demo.pending "create-user") "exec-1"
                (VObj [("email", VStr "ann@example.org"); ("name", VStr "Ann")])
                Accounts.machine (VStr "ann@example.org") (VStr "Ann")
                ltac:(vm_compute; reflexivity) ltac:(vm_compute; reflexivity) ltac:(vm_compute; reflexivity) ltac:(vm_compute; reflexivity) ltac:(vm_compute; reflexivity))
      as (se' & m' & Hrun & _ & _ & Hfailed & _).
    destruct (Hfailed ltac:(vm_compute; reflexivity)) as (Hst & Hat & _ & _ & Hsl).
    exists se', m'. by repeat split.
  - destruct (create_user_duplicate_email Demo.now Accounts.clock
                Accounts.randomId Accounts.display Accounts.destructureError
                (Demo.pending "create-user") "exec-1"
                (VObj [("email", VStr "WORKFLOW_PAUSED_WAITING_FOR_SIGNAL@example.org");
                       ("name", VStr "Eve")])
                Accounts.machine
                (VStr "WORKFLOW_PAUSED_WAITING_FOR_SIGNAL@example.org") (VStr "Eve")
                ltac:(vm_compute; reflexivity) ltac:(vm_compute; reflexivity) ltac:(vm_compute; reflexivity) ltac:(vm_compute; reflexivity) ltac:(vm_compute; reflexivity))
      as (se' & m' & Hrun & _ & _ & _ & Hparked & Hmarker).
    destruct (Hparked (Hmarker ltac:(vm_compute; reflexivity)))
      as (Hst & Hat & Herr & _ & Hsl).
    exists se', m'. by repeat split.
Defined.

(** No user [user-9] is on file. *)
Lemma finalize_user_missing_witness :
  exists se' m',
    executeStepWithRetry Demo.now Accounts.finalizeStep
      (Demo.pending "finalize-user") "exec-1"
      (VObj [("userId", VStr "user-9"); ("riskDecision", VStr "ALLOW")])
      Accounts.machine
    = (Thrown "User user-9 not found", se', m') /\
    se_status se' = StepFailed /\
    se_attempts se' = 3 /\
    env m' = env Accounts.machine.
Proof.
  destruct (finalize_user_missing Demo.now Accounts.clock Accounts.display
              Accounts.destructureError (Demo.pending "finalize-user") "exec-1"
              (VObj [("userId", VStr "user-9"); ("riskDecision", VStr "ALLOW")])
              Accounts.machine (VStr "user-9") (VStr "ALLOW") VUndefined
              ltac:(vm_compute; reflexivity) ltac:(vm_compute; reflexivity) ltac:(vm_compute; reflexivity) ltac:(vm_compute; reflexivity))
    as (se' & m' & Hrun & He & _ & Hfailed & _).
  destruct (Hfailed ltac:(vm_compute; reflexivity)) as (Hst & Hat & _).
  exists se', m'. by repeat split.
Defined.

(** [user-0] with a decision in lower case: flagged. *)
Lemma finalize_user_decision_witness :
  exists result se' m' fields,
    executeStepWithRetry Demo.now Accounts.finalizeStep
      (Demo.pending "finalize-user") "exec-1"
      (VObj [("userId", VStr "user-0"); ("riskDecision", VStr "allow")])
      Accounts.machine
    = (Ok result, se', m') /\
    res_output result = VObj fields /\
    Js.getProp "finalStatus" fields = VStr "FLAGGED" /\
    Js.getProp "completed" fields = VBool true /\
    Js.getProp "userId" fields = VStr "user-0" /\
    se_status se' = StepCompleted.
Proof.
  destruct (finalize_user_decision Demo.now Accounts.clock Accounts.display
              Accounts.destructureError (Demo.pending "finalize-user") "exec-1"
              (VObj [("userId", VStr "user-0"); ("riskDecision", VStr "allow")])
              Accounts.machine (VStr "user-0") (VStr "allow") VUndefined
              (env Accounts.machine)
              ltac:(vm_compute; reflexivity) ltac:(vm_compute; reflexivity) ltac:(vm_compute; reflexivity) ltac:(vm_compute; reflexivity) ltac:(vm_compute; reflexivity))
    as (result & se' & m' & fields & Hrun & Hout & Hfinal & Hdone & Hother & _
        & Hflagged & Hst & _).
  exists result, se', m', fields.
  split; [exact Hrun|]. split; [exact Hout|].
  split; [rewrite Hfinal; apply Hflagged; discriminate|].
  split; [exact Hdone|].
  split; [exact (Hother "userId" ltac:(discriminate) ltac:(discriminate))|].
  exact Hst.
Defined.

(** Bob signs up for the workflow id [locked]: the row is inserted, the
    link fails, and the retries find the row. *)
Lemma create_user_retry_meets_own_row_witness :
  exists se' m',
    executeStepWithRetry Demo.now Accounts.createStep (Demo.pending "create-user")
      "locked" (VObj [("email", VStr "bob@example.org"); ("name", VStr "Bob")])
      Accounts.machine
    = (Thrown "User with email bob@example.org already exists", se', m') /\
    se_status se' = StepFailed /\
    se_error se' = Some "User with email bob@example.org already exists" /\
    env m' = env Accounts.machine ++ [("user-2", "bob@example.org")].
Proof.
  destruct (create_user_retry_meets_own_row Demo.now Accounts.clock
              Accounts.randomId Accounts.display Accounts.destructureError
              (Demo.pending "create-user") "locked"
              (VObj [("email", VStr "bob@example.org"); ("name", VStr "Bob")])
              Accounts.machine (VStr "bob@example.org") (VStr "Bob")
              "user-2" (env Accounts.machine)
              (env Accounts.machine ++ [("user-2", "bob@example.org")])
              "database is locked"
              (env Accounts.machine ++ [("user-2", "bob@example.org")])
              ltac:(vm_compute; reflexivity) ltac:(vm_compute; reflexivity) ltac:(vm_compute; reflexivity) ltac:(vm_compute; reflexivity) ltac:(vm_compute; reflexivity)
              ltac:(vm_compute; reflexivity) ltac:(vm_compute; reflexivity) ltac:(vm_compute; reflexivity)
              ltac:(vm_compute; reflexivity) ltac:(vm_compute; reflexivity)
              ltac:(vm_compute; reflexivity))
    as (se' & m' & Hrun & Hst & _ & Herr & He & _).
  exists se', m'. by repeat split.
Defined.
